(** * SpoutFrameCount: semaphore frame counter, texture access locks, fps pacing

    A shallow embedding of [spoutFrameCount]
    (Plugin/Spout/SpoutGL/SpoutFrameCount.cpp) together with the part of the
    Win32 kernel-object interface its methods call, and the properties of the
    frame counter, the access arbiter and the pacing clock stated over it.

    Layout of the development:
    - machine data: [long], [double], wait codes;
    - the operating system as seen by one process: named kernel objects,
      registry value, display modes, clocks and the answers of bounded waits;
    - the object [spoutFrameCount] and its field updates;
    - a state-and-failure monad in which the methods are written;
    - the methods, in the order of the source file;
    - the properties. *)

From Stdlib Require Import ZArith Bool Lia.
From Stdlib Require Import Floats.PrimFloat Floats.SpecFloat Floats.FloatOps.
From Stdlib Require Import Numbers.Cyclic.Int63.Uint63.
From stdpp Require Import base option list strings gmap.

Local Open Scope Z_scope.
Set Warnings "-inexact-float".

(* ===================================================================== *)
(** ** Machine data *)
(* ===================================================================== *)

Module Win32.

(** Wait codes of [WaitForSingleObject] (winbase.h). [AcquireSync] of a
    keyed mutex answers with the same codes. *)
Definition WAIT_OBJECT_0 : Z := 0.
Definition WAIT_ABANDONED : Z := 128.
Definition WAIT_TIMEOUT : Z := 258.
Definition WAIT_FAILED : Z := 4294967295.

(** Error codes of [GetLastError] used by the source. *)
Definition ERROR_SUCCESS : Z := 0.
Definition ERROR_INVALID_HANDLE : Z := 6.
Definition ERROR_ALREADY_EXISTS : Z := 183.
Definition ERROR_NO_SYSTEM_RESOURCES : Z := 1450.

(** [long] is 32 bits wide on Windows. *)
Definition LONG_MAX : Z := 2147483647.
Definition LONG_MIN : Z := -2147483648.

(** D3D11_RESOURCE_MISC_SHARED_KEYEDMUTEX (d3d11.h). *)
Definition D3D11_RESOURCE_MISC_SHARED_KEYEDMUTEX : Z := 256.

End Win32.
Import Win32.

(** Two's complement wrap-around of a [long] result. *)
Definition wrap_long (z : Z) : Z :=
  (z - LONG_MIN) mod 4294967296 + LONG_MIN.

(** [static_cast<double>] of an integer (round to nearest, as the hardware
    conversion does); meaningful for magnitudes below 2^63. *)
Definition double_of_Z (z : Z) : float :=
  if z <? 0
  then PrimFloat.opp (PrimFloat.of_uint63 (Uint63.of_Z (- z)))
  else PrimFloat.of_uint63 (Uint63.of_Z z).

(** [(long)x] and [(DWORD)x] of a double: truncation toward zero. Out of
    the range of the target the C++ result is undefined; the model gives the
    "integer indefinite" value of the x86 conversion. *)
Definition trunc_double (x : float) : Z :=
  match Prim2SF x with
  | S754_zero _ => 0
  | S754_finite s m e =>
      let mag := if 0 <=? e then Z.pos m * 2 ^ e else Z.pos m / 2 ^ (- e) in
      if s then - mag else mag
  | _ => LONG_MIN
  end.

Definition long_of_double (x : float) : Z :=
  let z := trunc_double x in
  if (LONG_MIN <=? z) && (z <=? LONG_MAX) then z else LONG_MIN.

(* ===================================================================== *)
(** ** The operating system *)
(* ===================================================================== *)

(** A handle designates a kernel object of one kind; every object the class
    opens is named, so the kind and the name stand for the handle. *)
Inductive HANDLE :=
| SemaphoreHandle (name : string)
| MutexHandle (name : string).

Definition handle_name (h : HANDLE) : string :=
  match h with
  | SemaphoreHandle name => name
  | MutexHandle name => name
  end.

(** Kernel objects of the session namespace. A semaphore carries its
    current count and the number of open handles; it is destroyed when the
    last handle is closed. *)
Inductive kobj :=
| KSemaphore (count : Z) (refs : nat)
| KMutex (refs : nat)
| KOther.

Definition time_point := Z.

(** What one process sees of the system. The bounded waits on a mutex and
    on a keyed mutex depend on what other processes do during the wait, and
    the clocks on when the call happens: their answers are indexed by the
    number of such calls made so far ([calls]). *)
Record OS := {
  objects : gmap string kobj;       (* named kernel objects *)
  reg_Framecount : option Z;        (* HKCU\Software\Leading Edge\Spout\Framecount *)
  display_modes : list Z;           (* dmDisplayFrequency of each graphics mode *)
  can_allocate : bool;              (* a new handle can be allocated *)
  steady_clock : nat -> time_point; (* std::chrono::steady_clock::now(), ns *)
  perf_frequency : option Z;        (* QueryPerformanceFrequency, if supported *)
  perf_counter : nat -> Z;          (* QueryPerformanceCounter *)
  mutex_wait : nat -> Z;            (* answer of a wait on a mutex *)
  keyed_wait : nat -> Z;            (* answer of IDXGIKeyedMutex::AcquireSync *)
  calls : nat
}.

Definition set_objects (v : gmap string kobj) (w : OS) : OS :=
  Build_OS v (reg_Framecount w) (display_modes w) (can_allocate w)
    (steady_clock w) (perf_frequency w) (perf_counter w) (mutex_wait w)
    (keyed_wait w) (calls w).

Definition set_reg_Framecount (v : option Z) (w : OS) : OS :=
  Build_OS (objects w) v (display_modes w) (can_allocate w)
    (steady_clock w) (perf_frequency w) (perf_counter w) (mutex_wait w)
    (keyed_wait w) (calls w).

Definition set_calls (v : nat) (w : OS) : OS :=
  Build_OS (objects w) (reg_Framecount w) (display_modes w) (can_allocate w)
    (steady_clock w) (perf_frequency w) (perf_counter w) (mutex_wait w)
    (keyed_wait w) v.

(** The texture argument of the access functions: the [MiscFlags] of its
    descriptor, and whether [QueryInterface] finds [IDXGIKeyedMutex]. *)
Record ID3D11Texture2D := {
  MiscFlags : Z;
  has_IDXGIKeyedMutex : bool
}.

(** What a method does that is visible outside the object and the kernel
    objects: log lines, waits, releases, sleeps. *)
Inductive severity := Notice | Warning | Error.

Inductive event :=
| EvLog (sev : severity) (msg : string)
| EvPrintf (msg : string)
| EvWait (h : option HANDLE) (ms : Z)   (* WaitForSingleObject *)
| EvReleaseMutex (h : HANDLE)
| EvAcquireSync (key ms : Z)
| EvReleaseSync (key : Z)
| EvRelease                              (* IUnknown::Release *)
| EvSleep (ms : Z).

(* ===================================================================== *)
(** ** The object *)
(* ===================================================================== *)

Record spoutFrameCount := {
  m_hAccessMutex : option HANDLE;
  m_hCountSemaphore : option HANDLE;
  m_SenderName : string;
  m_CountSemaphoreName : string;
  m_FrameCount : Z;
  m_LastFrameCount : Z;
  m_FrameTimeTotal : float;
  m_FrameTimeNumber : float;
  m_lastFrame : float;
  m_FrameStart : float;
  m_bIsNewFrame : bool;
  m_SenderFps : float;
  m_bFrameCount : bool;
  m_bDisabled : bool;
  m_millisForFrame : float;
  m_FrameStartPtr : time_point;
  m_FrameEndPtr : time_point;
  m_FramePtr : time_point;
  PCFreq : float;
  CounterStart : Z
}.

Definition set_m_hAccessMutex (v : option HANDLE) (o : spoutFrameCount) : spoutFrameCount :=
  Build_spoutFrameCount v (m_hCountSemaphore o) (m_SenderName o)
    (m_CountSemaphoreName o) (m_FrameCount o) (m_LastFrameCount o)
    (m_FrameTimeTotal o) (m_FrameTimeNumber o) (m_lastFrame o)
    (m_FrameStart o) (m_bIsNewFrame o) (m_SenderFps o) (m_bFrameCount o)
    (m_bDisabled o) (m_millisForFrame o) (m_FrameStartPtr o)
    (m_FrameEndPtr o) (m_FramePtr o) (PCFreq o) (CounterStart o).

Definition set_m_hCountSemaphore (v : option HANDLE) (o : spoutFrameCount) : spoutFrameCount :=
  Build_spoutFrameCount (m_hAccessMutex o) v (m_SenderName o)
    (m_CountSemaphoreName o) (m_FrameCount o) (m_LastFrameCount o)
    (m_FrameTimeTotal o) (m_FrameTimeNumber o) (m_lastFrame o)
    (m_FrameStart o) (m_bIsNewFrame o) (m_SenderFps o) (m_bFrameCount o)
    (m_bDisabled o) (m_millisForFrame o) (m_FrameStartPtr o)
    (m_FrameEndPtr o) (m_FramePtr o) (PCFreq o) (CounterStart o).

Definition set_m_SenderName (v : string) (o : spoutFrameCount) : spoutFrameCount :=
  Build_spoutFrameCount (m_hAccessMutex o) (m_hCountSemaphore o) v
    (m_CountSemaphoreName o) (m_FrameCount o) (m_LastFrameCount o)
    (m_FrameTimeTotal o) (m_FrameTimeNumber o) (m_lastFrame o)
    (m_FrameStart o) (m_bIsNewFrame o) (m_SenderFps o) (m_bFrameCount o)
    (m_bDisabled o) (m_millisForFrame o) (m_FrameStartPtr o)
    (m_FrameEndPtr o) (m_FramePtr o) (PCFreq o) (CounterStart o).

Definition set_m_CountSemaphoreName (v : string) (o : spoutFrameCount) : spoutFrameCount :=
  Build_spoutFrameCount (m_hAccessMutex o) (m_hCountSemaphore o)
    (m_SenderName o) v (m_FrameCount o) (m_LastFrameCount o)
    (m_FrameTimeTotal o) (m_FrameTimeNumber o) (m_lastFrame o)
    (m_FrameStart o) (m_bIsNewFrame o) (m_SenderFps o) (m_bFrameCount o)
    (m_bDisabled o) (m_millisForFrame o) (m_FrameStartPtr o)
    (m_FrameEndPtr o) (m_FramePtr o) (PCFreq o) (CounterStart o).

Definition set_m_FrameCount (v : Z) (o : spoutFrameCount) : spoutFrameCount :=
  Build_spoutFrameCount (m_hAccessMutex o) (m_hCountSemaphore o)
    (m_SenderName o) (m_CountSemaphoreName o) v (m_LastFrameCount o)
    (m_FrameTimeTotal o) (m_FrameTimeNumber o) (m_lastFrame o)
    (m_FrameStart o) (m_bIsNewFrame o) (m_SenderFps o) (m_bFrameCount o)
    (m_bDisabled o) (m_millisForFrame o) (m_FrameStartPtr o)
    (m_FrameEndPtr o) (m_FramePtr o) (PCFreq o) (CounterStart o).

Definition set_m_LastFrameCount (v : Z) (o : spoutFrameCount) : spoutFrameCount :=
  Build_spoutFrameCount (m_hAccessMutex o) (m_hCountSemaphore o)
    (m_SenderName o) (m_CountSemaphoreName o) (m_FrameCount o) v
    (m_FrameTimeTotal o) (m_FrameTimeNumber o) (m_lastFrame o)
    (m_FrameStart o) (m_bIsNewFrame o) (m_SenderFps o) (m_bFrameCount o)
    (m_bDisabled o) (m_millisForFrame o) (m_FrameStartPtr o)
    (m_FrameEndPtr o) (m_FramePtr o) (PCFreq o) (CounterStart o).

Definition set_m_FrameTimeTotal (v : float) (o : spoutFrameCount) : spoutFrameCount :=
  Build_spoutFrameCount (m_hAccessMutex o) (m_hCountSemaphore o)
    (m_SenderName o) (m_CountSemaphoreName o) (m_FrameCount o)
    (m_LastFrameCount o) v (m_FrameTimeNumber o) (m_lastFrame o)
    (m_FrameStart o) (m_bIsNewFrame o) (m_SenderFps o) (m_bFrameCount o)
    (m_bDisabled o) (m_millisForFrame o) (m_FrameStartPtr o)
    (m_FrameEndPtr o) (m_FramePtr o) (PCFreq o) (CounterStart o).

Definition set_m_FrameTimeNumber (v : float) (o : spoutFrameCount) : spoutFrameCount :=
  Build_spoutFrameCount (m_hAccessMutex o) (m_hCountSemaphore o)
    (m_SenderName o) (m_CountSemaphoreName o) (m_FrameCount o)
    (m_LastFrameCount o) (m_FrameTimeTotal o) v (m_lastFrame o)
    (m_FrameStart o) (m_bIsNewFrame o) (m_SenderFps o) (m_bFrameCount o)
    (m_bDisabled o) (m_millisForFrame o) (m_FrameStartPtr o)
    (m_FrameEndPtr o) (m_FramePtr o) (PCFreq o) (CounterStart o).

Definition set_m_lastFrame (v : float) (o : spoutFrameCount) : spoutFrameCount :=
  Build_spoutFrameCount (m_hAccessMutex o) (m_hCountSemaphore o)
    (m_SenderName o) (m_CountSemaphoreName o) (m_FrameCount o)
    (m_LastFrameCount o) (m_FrameTimeTotal o) (m_FrameTimeNumber o) v
    (m_FrameStart o) (m_bIsNewFrame o) (m_SenderFps o) (m_bFrameCount o)
    (m_bDisabled o) (m_millisForFrame o) (m_FrameStartPtr o)
    (m_FrameEndPtr o) (m_FramePtr o) (PCFreq o) (CounterStart o).

Definition set_m_FrameStart (v : float) (o : spoutFrameCount) : spoutFrameCount :=
  Build_spoutFrameCount (m_hAccessMutex o) (m_hCountSemaphore o)
    (m_SenderName o) (m_CountSemaphoreName o) (m_FrameCount o)
    (m_LastFrameCount o) (m_FrameTimeTotal o) (m_FrameTimeNumber o)
    (m_lastFrame o) v (m_bIsNewFrame o) (m_SenderFps o) (m_bFrameCount o)
    (m_bDisabled o) (m_millisForFrame o) (m_FrameStartPtr o)
    (m_FrameEndPtr o) (m_FramePtr o) (PCFreq o) (CounterStart o).

Definition set_m_bIsNewFrame (v : bool) (o : spoutFrameCount) : spoutFrameCount :=
  Build_spoutFrameCount (m_hAccessMutex o) (m_hCountSemaphore o)
    (m_SenderName o) (m_CountSemaphoreName o) (m_FrameCount o)
    (m_LastFrameCount o) (m_FrameTimeTotal o) (m_FrameTimeNumber o)
    (m_lastFrame o) (m_FrameStart o) v (m_SenderFps o) (m_bFrameCount o)
    (m_bDisabled o) (m_millisForFrame o) (m_FrameStartPtr o)
    (m_FrameEndPtr o) (m_FramePtr o) (PCFreq o) (CounterStart o).

Definition set_m_SenderFps (v : float) (o : spoutFrameCount) : spoutFrameCount :=
  Build_spoutFrameCount (m_hAccessMutex o) (m_hCountSemaphore o)
    (m_SenderName o) (m_CountSemaphoreName o) (m_FrameCount o)
    (m_LastFrameCount o) (m_FrameTimeTotal o) (m_FrameTimeNumber o)
    (m_lastFrame o) (m_FrameStart o) (m_bIsNewFrame o) v (m_bFrameCount o)
    (m_bDisabled o) (m_millisForFrame o) (m_FrameStartPtr o)
    (m_FrameEndPtr o) (m_FramePtr o) (PCFreq o) (CounterStart o).

Definition set_m_bFrameCount (v : bool) (o : spoutFrameCount) : spoutFrameCount :=
  Build_spoutFrameCount (m_hAccessMutex o) (m_hCountSemaphore o)
    (m_SenderName o) (m_CountSemaphoreName o) (m_FrameCount o)
    (m_LastFrameCount o) (m_FrameTimeTotal o) (m_FrameTimeNumber o)
    (m_lastFrame o) (m_FrameStart o) (m_bIsNewFrame o) (m_SenderFps o) v
    (m_bDisabled o) (m_millisForFrame o) (m_FrameStartPtr o)
    (m_FrameEndPtr o) (m_FramePtr o) (PCFreq o) (CounterStart o).

Definition set_m_bDisabled (v : bool) (o : spoutFrameCount) : spoutFrameCount :=
  Build_spoutFrameCount (m_hAccessMutex o) (m_hCountSemaphore o)
    (m_SenderName o) (m_CountSemaphoreName o) (m_FrameCount o)
    (m_LastFrameCount o) (m_FrameTimeTotal o) (m_FrameTimeNumber o)
    (m_lastFrame o) (m_FrameStart o) (m_bIsNewFrame o) (m_SenderFps o)
    (m_bFrameCount o) v (m_millisForFrame o) (m_FrameStartPtr o)
    (m_FrameEndPtr o) (m_FramePtr o) (PCFreq o) (CounterStart o).

Definition set_m_millisForFrame (v : float) (o : spoutFrameCount) : spoutFrameCount :=
  Build_spoutFrameCount (m_hAccessMutex o) (m_hCountSemaphore o)
    (m_SenderName o) (m_CountSemaphoreName o) (m_FrameCount o)
    (m_LastFrameCount o) (m_FrameTimeTotal o) (m_FrameTimeNumber o)
    (m_lastFrame o) (m_FrameStart o) (m_bIsNewFrame o) (m_SenderFps o)
    (m_bFrameCount o) (m_bDisabled o) v (m_FrameStartPtr o)
    (m_FrameEndPtr o) (m_FramePtr o) (PCFreq o) (CounterStart o).

Definition set_m_FrameStartPtr (v : time_point) (o : spoutFrameCount) : spoutFrameCount :=
  Build_spoutFrameCount (m_hAccessMutex o) (m_hCountSemaphore o)
    (m_SenderName o) (m_CountSemaphoreName o) (m_FrameCount o)
    (m_LastFrameCount o) (m_FrameTimeTotal o) (m_FrameTimeNumber o)
    (m_lastFrame o) (m_FrameStart o) (m_bIsNewFrame o) (m_SenderFps o)
    (m_bFrameCount o) (m_bDisabled o) (m_millisForFrame o) v
    (m_FrameEndPtr o) (m_FramePtr o) (PCFreq o) (CounterStart o).

Definition set_m_FrameEndPtr (v : time_point) (o : spoutFrameCount) : spoutFrameCount :=
  Build_spoutFrameCount (m_hAccessMutex o) (m_hCountSemaphore o)
    (m_SenderName o) (m_CountSemaphoreName o) (m_FrameCount o)
    (m_LastFrameCount o) (m_FrameTimeTotal o) (m_FrameTimeNumber o)
    (m_lastFrame o) (m_FrameStart o) (m_bIsNewFrame o) (m_SenderFps o)
    (m_bFrameCount o) (m_bDisabled o) (m_millisForFrame o)
    (m_FrameStartPtr o) v (m_FramePtr o) (PCFreq o) (CounterStart o).

Definition set_m_FramePtr (v : time_point) (o : spoutFrameCount) : spoutFrameCount :=
  Build_spoutFrameCount (m_hAccessMutex o) (m_hCountSemaphore o)
    (m_SenderName o) (m_CountSemaphoreName o) (m_FrameCount o)
    (m_LastFrameCount o) (m_FrameTimeTotal o) (m_FrameTimeNumber o)
    (m_lastFrame o) (m_FrameStart o) (m_bIsNewFrame o) (m_SenderFps o)
    (m_bFrameCount o) (m_bDisabled o) (m_millisForFrame o)
    (m_FrameStartPtr o) (m_FrameEndPtr o) v (PCFreq o) (CounterStart o).

Definition set_PCFreq (v : float) (o : spoutFrameCount) : spoutFrameCount :=
  Build_spoutFrameCount (m_hAccessMutex o) (m_hCountSemaphore o)
    (m_SenderName o) (m_CountSemaphoreName o) (m_FrameCount o)
    (m_LastFrameCount o) (m_FrameTimeTotal o) (m_FrameTimeNumber o)
    (m_lastFrame o) (m_FrameStart o) (m_bIsNewFrame o) (m_SenderFps o)
    (m_bFrameCount o) (m_bDisabled o) (m_millisForFrame o)
    (m_FrameStartPtr o) (m_FrameEndPtr o) (m_FramePtr o) v (CounterStart o).

Definition set_CounterStart (v : Z) (o : spoutFrameCount) : spoutFrameCount :=
  Build_spoutFrameCount (m_hAccessMutex o) (m_hCountSemaphore o)
    (m_SenderName o) (m_CountSemaphoreName o) (m_FrameCount o)
    (m_LastFrameCount o) (m_FrameTimeTotal o) (m_FrameTimeNumber o)
    (m_lastFrame o) (m_FrameStart o) (m_bIsNewFrame o) (m_SenderFps o)
    (m_bFrameCount o) (m_bDisabled o) (m_millisForFrame o)
    (m_FrameStartPtr o) (m_FrameEndPtr o) (m_FramePtr o) (PCFreq o) v.

(* ===================================================================== *)
(** ** The monad of the methods *)
(* ===================================================================== *)

(** A method runs on its object ([this]) and the system, and leaves a trace
    of events. A run that the C runtime terminates (the invalid-parameter
    handler of the [_s] string functions) has no result. *)
Record state := {
  this : spoutFrameCount;
  os : OS;
  trace : list event
}.

Definition M (A : Type) : Type := state -> option (A * state).

Global Instance M_ret : MRet M := λ A a s, Some (a, s).

Global Instance M_bind : MBind M := λ A B f m s,
  match m s with
  | Some (a, s') => f a s'
  | None => None
  end.

Definition get_this : M spoutFrameCount := λ s, Some (this s, s).

Definition get_os : M OS := λ s, Some (os s, s).

Definition modify_this (f : spoutFrameCount -> spoutFrameCount) : M unit :=
  λ s, Some (tt, {| this := f (this s); os := os s; trace := trace s |}).

Definition modify_os (f : OS -> OS) : M unit :=
  λ s, Some (tt, {| this := this s; os := f (os s); trace := trace s |}).

Definition emit (e : event) : M unit :=
  λ s, Some (tt, {| this := this s; os := os s; trace := trace s ++ [e] |}).

Definition abort {A : Type} : M A := λ _, None.

(** Running a method of object [o] on system [w], from an empty trace. *)
Definition run {A : Type} (m : M A) (o : spoutFrameCount) (w : OS)
  : option (A * state) :=
  m {| this := o; os := w; trace := [] |}.

(* ===================================================================== *)
(** ** System calls *)
(* ===================================================================== *)

(** Modelled from the spec: the logging functions of SpoutUtils (not among
    the sources); the spec asks for a log entry of a severity at each
    failure, so a call is an event carrying the severity and the message. *)
Definition SpoutLogNotice (msg : string) : M unit := emit (EvLog Notice msg).
Definition SpoutLogWarning (msg : string) : M unit := emit (EvLog Warning msg).
Definition SpoutLogError (msg : string) : M unit := emit (EvLog Error msg).
Definition printf (msg : string) : M unit := emit (EvPrintf msg).

(** The next answer of a call whose result depends on the moment of the
    call or on other processes. *)
Definition next_answer {A : Type} (oracle : OS -> nat -> A) : M A :=
  w ← get_os;
  modify_os (set_calls (S (calls w)));;
  mret (oracle w (calls w)).

(** [WaitForSingleObject(h, ms)]. On a semaphore the wait succeeds and
    takes one unit when the count is positive; the class only waits on
    semaphores with a zero time-out, where a zero count times out at once.
    On a mutex the answer is the system's: which thread owns a mutex, and
    whether its owner ended without releasing it, is not part of the kernel
    objects kept here (a [KMutex] carries its open handles only), so the
    answer comes from [mutex_wait] and the object is left as it is; nothing
    is to be read from that about the ownership the real wait confers. A
    null handle, or a handle whose object is gone, fails. *)
Definition WaitForSingleObject (h : option HANDLE) (ms : Z) : M Z :=
  emit (EvWait h ms);;
  w ← get_os;
  match h with
  | None => mret WAIT_FAILED
  | Some (SemaphoreHandle n) =>
      match objects w !! n with
      | Some (KSemaphore c r) =>
          if 0 <? c
          then modify_os (set_objects (<[n := KSemaphore (c - 1) r]> (objects w)));;
               mret WAIT_OBJECT_0
          else mret WAIT_TIMEOUT
      | _ => mret WAIT_FAILED
      end
  | Some (MutexHandle n) =>
      match objects w !! n with
      | Some (KMutex _) => next_answer mutex_wait
      | _ => mret WAIT_FAILED
      end
  end.

(** [ReleaseSemaphore(h, n, &previous)]: adds [n] to the count and gives the
    count before the release; fails, changing nothing, when the count would
    pass the maximum the semaphores of this class are created with
    ([LONG_MAX]). *)
Definition ReleaseSemaphore (h : option HANDLE) (n : Z) : M (option Z) :=
  w ← get_os;
  match h with
  | Some (SemaphoreHandle name) =>
      match objects w !! name with
      | Some (KSemaphore c r) =>
          if (0 <? n) && (c + n <=? LONG_MAX)
          then modify_os (set_objects (<[name := KSemaphore (c + n) r]> (objects w)));;
               mret (Some c)
          else mret None
      | _ => mret None
      end
  | _ => mret None
  end.

(** [CreateSemaphoreA(NULL, 1, LONG_MAX, name)] followed by
    [GetLastError()]: creates the semaphore with count 1, or opens the
    existing one; fails with ERROR_INVALID_HANDLE when the name belongs to an
    object of another kind. *)
Definition CreateSemaphoreA (name : string) : M (option HANDLE * Z) :=
  w ← get_os;
  match objects w !! name with
  | Some (KSemaphore c r) =>
      if can_allocate w
      then modify_os (set_objects (<[name := KSemaphore c (S r)]> (objects w)));;
           mret (Some (SemaphoreHandle name), ERROR_ALREADY_EXISTS)
      else mret (None, ERROR_NO_SYSTEM_RESOURCES)
  | Some _ => mret (None, ERROR_INVALID_HANDLE)
  | None =>
      if can_allocate w
      then modify_os (set_objects (<[name := KSemaphore 1 1]> (objects w)));;
           mret (Some (SemaphoreHandle name), ERROR_SUCCESS)
      else mret (None, ERROR_NO_SYSTEM_RESOURCES)
  end.

(** [CreateMutexA(NULL, false, name)] followed by [GetLastError()]. *)
Definition CreateMutexA (name : string) : M (option HANDLE * Z) :=
  w ← get_os;
  match objects w !! name with
  | Some (KMutex r) =>
      if can_allocate w
      then modify_os (set_objects (<[name := KMutex (S r)]> (objects w)));;
           mret (Some (MutexHandle name), ERROR_ALREADY_EXISTS)
      else mret (None, ERROR_NO_SYSTEM_RESOURCES)
  | Some _ => mret (None, ERROR_INVALID_HANDLE)
  | None =>
      if can_allocate w
      then modify_os (set_objects (<[name := KMutex 1]> (objects w)));;
           mret (Some (MutexHandle name), ERROR_SUCCESS)
      else mret (None, ERROR_NO_SYSTEM_RESOURCES)
  end.

(** [CloseHandle(h)]: the object goes with its last handle. *)
Definition close_object (h : HANDLE) (k : kobj) : option kobj :=
  match h, k with
  | SemaphoreHandle _, KSemaphore c (S (S r)) => Some (KSemaphore c (S r))
  | SemaphoreHandle _, KSemaphore c _ => None
  | MutexHandle _, KMutex (S (S r)) => Some (KMutex (S r))
  | MutexHandle _, KMutex _ => None
  | _, _ => Some k
  end.

Definition CloseHandle (h : HANDLE) : M unit :=
  w ← get_os;
  match objects w !! handle_name h with
  | Some k =>
      match close_object h k with
      | Some k' => modify_os (set_objects (<[handle_name h := k']> (objects w)))
      | None => modify_os (set_objects (delete (handle_name h) (objects w)))
      end
  | None => mret tt
  end.

Definition ReleaseMutex (h : HANDLE) : M unit := emit (EvReleaseMutex h).

(** Modelled from the spec: the registry helpers of SpoutUtils (not among
    the sources), on the one value the class uses, the persisted flag that
    enables frame counting globally. *)
Definition ReadDwordFromRegistry : M (option Z) :=
  w ← get_os; mret (reg_Framecount w).

Definition WriteDwordToRegistry (v : Z) : M unit :=
  modify_os (set_reg_Framecount (Some v)).

(** Clocks. *)
Definition steady_clock_now : M time_point := next_answer steady_clock.

Definition QueryPerformanceFrequency : M (option Z) :=
  w ← get_os; mret (perf_frequency w).

Definition QueryPerformanceCounter : M (option Z) :=
  w ← get_os;
  match perf_frequency w with
  | Some _ => li ← next_answer perf_counter; mret (Some li)
  | None => mret None
  end.

Definition sleep_for (ms : Z) : M unit := emit (EvSleep ms).

(** [IDXGIKeyedMutex]. *)
Definition AcquireSync (key ms : Z) : M Z :=
  emit (EvAcquireSync key ms);; next_answer keyed_wait.

Definition ReleaseSync (key : Z) : M unit := emit (EvReleaseSync key).

Definition Release : M unit := emit EvRelease.

(** [strcpy_s] and [sprintf_s] into a buffer of [size] characters: the
    result with its terminator has to fit, or the invalid-parameter handler
    ends the process. *)
Definition checked_copy (size : Z) (src : string) : M string :=
  if Z.of_nat (String.length src) <? size then mret src else abort.

(** [duration_cast<microseconds>] of a difference of two time points. *)
Definition microseconds (ns : Z) : Z := Z.quot ns 1000.

(** [(DWORD)x] of a double within range. *)
Definition dword_of_double (x : float) : Z := trunc_double x mod 4294967296.

(* ===================================================================== *)
(** ** The methods of spoutFrameCount *)
(* ===================================================================== *)

Section Methods.

(** Modelled from the spec: the macro USE_CHRONO of SpoutFrameCount.h
    (not among the sources) selects std::chrono timing or the performance
    counter; the spec only asks for a monotonic time source, so both
    variants are kept and the choice is a parameter. *)
Variable USE_CHRONO : bool.

Local Open Scope float_scope.
Local Open Scope Z_scope.

(* --- private helpers, defined before their callers ----------------- *)

Definition GetRefreshRate : M float :=
  w ← get_os;
  mret (fold_left (λ _ dmDisplayFrequency, double_of_Z dmDisplayFrequency)
          (display_modes w) 60%float).

Definition StartCounter : M unit :=
  f ← QueryPerformanceFrequency;
  match f with
  | Some li =>
      t ← get_this;
      (if (PCFreq t <? 0.0001)%float
       then modify_this (set_PCFreq (double_of_Z li / 1000)%float)
       else mret tt);;
      c ← QueryPerformanceCounter;
      match c with
      | Some li' => modify_this (set_CounterStart li')
      | None => mret tt
      end
  | None => mret tt
  end.

Definition GetCounter : M float :=
  c ← QueryPerformanceCounter;
  match c with
  | Some li =>
      t ← get_this;
      mret (double_of_Z (li - CounterStart t) / PCFreq t)%float
  | None => mret 0%float
  end.

(** Fresh timers: [new std::chrono::steady_clock::time_point] three times,
    or the performance counter restarted. *)
Definition reset_timers : M unit :=
  if USE_CHRONO
  then modify_this (set_m_FrameStartPtr 0);;
       modify_this (set_m_FrameEndPtr 0);;
       modify_this (set_m_FramePtr 0)
  else modify_this (set_PCFreq 0%float);;
       modify_this (set_CounterStart 0);;
       StartCounter.

Definition UpdateSenderFps (framecount : Z) : M unit :=
  if 0 <? framecount then
    frametime ←
      (if USE_CHRONO then
         t_end ← steady_clock_now;
         modify_this (set_m_FrameEndPtr t_end);;
         t ← get_this;
         t_now ← steady_clock_now;
         modify_this (set_m_FramePtr t_now);;
         mret (double_of_Z (microseconds (t_end - m_FramePtr t)) / 1000)%float
       else
         thisFrame ← GetCounter;
         t ← get_this;
         modify_this (set_m_lastFrame thisFrame);;
         mret (thisFrame - m_lastFrame t)%float);
    modify_this (λ t, set_m_FrameTimeTotal (m_FrameTimeTotal t + frametime)%float t);;
    modify_this (λ t, set_m_FrameTimeNumber
                        (m_FrameTimeNumber t + double_of_Z framecount)%float t);;
    t ← get_this;
    if (16 <? m_FrameTimeNumber t)%float then
      let frametime := (m_FrameTimeTotal t / m_FrameTimeNumber t)%float in
      modify_this (set_m_FrameTimeTotal 0%float);;
      modify_this (set_m_FrameTimeNumber 0%float);;
      let frametime := (frametime / 1000)%float in
      if (0.0001 <? frametime)%float then
        let fps := (1 / frametime)%float in
        modify_this (λ t, set_m_SenderFps (0.85 * m_SenderFps t + 0.15 * fps)%float t)
      else mret tt
    else mret tt
  else mret tt.

Definition IsFrameCountEnabled : M bool :=
  t ← get_this;
  if negb (m_bFrameCount t) || m_bDisabled t then mret false else mret true.

Definition CleanupFrameCount : M unit :=
  t ← get_this;
  match m_hCountSemaphore t with
  | None => mret tt
  | Some h =>
      SpoutLogNotice "SpoutFrameCount::CleanupFrameCount";;
      CloseHandle h;;
      modify_this (set_m_hCountSemaphore None);;
      modify_this (set_m_SenderName "");;
      modify_this (set_m_FrameCount 0);;
      modify_this (set_m_LastFrameCount 0);;
      fps ← GetRefreshRate;
      modify_this (set_m_SenderFps fps);;
      modify_this (set_m_FrameTimeTotal 0%float);;
      modify_this (set_m_FrameTimeNumber 0%float)
  end.

(* --- construction and destruction ---------------------------------- *)

(** The storage of an object before its constructor has run. The
    constructor assigns every member of the class; the members of the timing
    variant that is not compiled in do not exist and stay at zero here. *)
Definition zeroed : spoutFrameCount :=
  Build_spoutFrameCount None None "" "" 0 0 0%float 0%float 0%float 0%float
    false 0%float false false 0%float 0 0 0 0%float 0.

Definition constructor : M unit :=
  modify_this (λ _, zeroed);;
  modify_this (set_m_hAccessMutex None);;
  modify_this (set_m_hCountSemaphore None);;
  modify_this (set_m_SenderName "");;
  modify_this (set_m_CountSemaphoreName "");;
  modify_this (set_m_FrameCount 0);;
  modify_this (set_m_LastFrameCount 0);;
  modify_this (set_m_FrameTimeTotal 0%float);;
  modify_this (set_m_FrameTimeNumber 0%float);;
  modify_this (set_m_lastFrame 0%float);;
  modify_this (set_m_FrameStart 0%float);;
  modify_this (set_m_bIsNewFrame false);;
  fps ← GetRefreshRate;
  modify_this (set_m_SenderFps fps);;
  modify_this (set_m_bFrameCount false);;
  dwFrame ← ReadDwordFromRegistry;
  match dwFrame with
  | Some d => modify_this (set_m_bFrameCount (d =? 1))
  | None => mret tt
  end;;
  modify_this (set_m_bDisabled false);;
  modify_this (set_m_millisForFrame 0%float);;
  if USE_CHRONO
  then modify_this (set_m_FrameStartPtr 0);;
       modify_this (set_m_FrameEndPtr 0);;
       modify_this (set_m_FramePtr 0)
  else modify_this (set_PCFreq 0%float);;
       modify_this (set_CounterStart 0);;
       StartCounter.

(** A new object on system [w]. *)
Definition new_spoutFrameCount (w : OS) : option (unit * state) :=
  run constructor zeroed w.

Definition destructor : M unit :=
  t ← get_this;
  match m_hCountSemaphore t with
  | Some h => CloseHandle h
  | None => mret tt
  end;;
  modify_this (set_m_hCountSemaphore None);;
  match m_hAccessMutex t with
  | Some h => CloseHandle h
  | None => mret tt
  end;;
  modify_this (set_m_hAccessMutex None).

(* --- public: frame counting ---------------------------------------- *)

Definition SetFrameCount (bEnable : bool) : M unit :=
  t ← get_this;
  if bEnable then
    if negb (m_bFrameCount t) then
      WriteDwordToRegistry 1;;
      modify_this (set_m_bFrameCount true);;
      modify_this (set_m_bDisabled false)
    else mret tt
  else
    (if m_bFrameCount t then
       enabled ← IsFrameCountEnabled;
       if (enabled : bool) then CleanupFrameCount else mret tt
     else mret tt);;
    WriteDwordToRegistry 0;;
    modify_this (set_m_bFrameCount false);;
    modify_this (set_m_bDisabled false).

Definition EnableFrameCount (SenderName : string) : M unit :=
  t ← get_this;
  if negb (m_bFrameCount t) then
    SpoutLogNotice "SpoutFrameCount::EnableFrameCount : setting not enabled"
  else if m_bDisabled t then
    SpoutLogNotice "SpoutFrameCount::EnableFrameCount : application disabled"
  else if String.eqb SenderName "" then
    SpoutLogWarning "SpoutFrameCount::EnableFrameCount - no sender name"
  else
    modify_this (set_m_FrameCount 0);;
    modify_this (set_m_LastFrameCount 0);;
    modify_this (set_m_FrameTimeTotal 0%float);;
    modify_this (set_m_FrameTimeNumber 0%float);;
    fps ← GetRefreshRate;
    modify_this (set_m_SenderFps fps);;
    modify_this (set_m_millisForFrame 0%float);;
    reset_timers;;
    t ← get_this;
    if bool_decide (is_Some (m_hCountSemaphore t))
       && String.eqb SenderName (m_SenderName t)
    then SpoutLogNotice "SpoutFrameCount::EnableFrameCount already enabled [%s]"
    else
      SpoutLogNotice "SpoutFrameCount::EnableFrameCount : sender name [%s]";;
      match m_hCountSemaphore t with
      | Some h =>
          CloseHandle h;;
          modify_this (set_m_hCountSemaphore None);;
          modify_this (set_m_CountSemaphoreName "")
      | None => mret tt
      end;;
      name ← checked_copy 256 SenderName;
      modify_this (set_m_SenderName name);;
      semname ← checked_copy 256 (String.append SenderName "_Count_Semaphore");
      modify_this (set_m_CountSemaphoreName semname);;
      r ← CreateSemaphoreA semname;
      let hSemaphore := r.1 in
      let dwError := r.2 in
      if dwError =? ERROR_INVALID_HANDLE then
        SpoutLogError "    Invalid semaphore handle"
      else
        (if dwError =? ERROR_ALREADY_EXISTS
         then SpoutLogNotice "    Semaphore already exists"
         else mret tt);;
        match hSemaphore with
        | None => SpoutLogError "    Unknown error"
        | Some h =>
            modify_this (set_m_hCountSemaphore (Some h));;
            SpoutLogNotice "    Semaphore handle [0x%.7X]"
        end.

Definition DisableFrameCount : M unit :=
  CleanupFrameCount;;
  modify_this (set_m_bDisabled true).

Definition SetNewFrame : M unit :=
  t ← get_this;
  if negb (m_bFrameCount t) || m_bDisabled t then mret tt
  else
    dwWaitResult ← WaitForSingleObject (m_hCountSemaphore t) 0;
    if (dwWaitResult : Z) =? WAIT_OBJECT_0 then
      r ← ReleaseSemaphore (m_hCountSemaphore t) 2;
      match (r : option Z) with
      | None =>
          SpoutLogError "spoutFrameCount::SetNewFrame - ReleaseSemaphore failed"
      | Some _ =>
          modify_this (λ t, set_m_FrameCount (wrap_long (m_FrameCount t + 1)) t);;
          UpdateSenderFps 1
      end
    else if dwWaitResult =? WAIT_ABANDONED then
      SpoutLogError "SpoutFrameCount::SetNewFrame - WAIT_ABANDONED"
    else if dwWaitResult =? WAIT_FAILED then
      SpoutLogError "SpoutFrameCount::SetNewFrame - WAIT_FAILED"
    else mret tt.

(** The peek of [GetNewFrame] (the wait and its [switch]): the value of
    the local [framecount] after it, or [None] where the method returns
    from inside the [switch] because the release failed. *)
Definition GetNewFrame_peek (h : option HANDLE) : M (option Z) :=
  let framecount := 0 in
  dwWaitResult ← WaitForSingleObject h 0;
  if (dwWaitResult : Z) =? WAIT_OBJECT_0 then
    r ← ReleaseSemaphore h 1;
    match (r : option Z) with
    | None =>
        SpoutLogError "spoutFrameCount::GetNewFrame - ReleaseSemaphore failed";;
        mret None
    | Some previous => mret (Some previous)
    end
  else if dwWaitResult =? WAIT_ABANDONED then
    SpoutLogWarning "SpoutFrameCount::GetNewFrame - WAIT_ABANDONED";;
    mret (Some framecount)
  else if dwWaitResult =? WAIT_FAILED then
    SpoutLogWarning "SpoutFrameCount::GetNewFrame - WAIT_FAILED";;
    mret (Some framecount)
  else mret (Some framecount).

(** The rest of [GetNewFrame], from "Update the global frame count". *)
Definition GetNewFrame_compare (framecount : Z) : M bool :=
  modify_this (set_m_FrameCount framecount);;
  if framecount =? 0 then mret true
  else
    t ← get_this;
    if framecount =? m_LastFrameCount t then
      modify_this (set_m_bIsNewFrame false);;
      mret false
    else
      UpdateSenderFps (wrap_long (framecount - m_LastFrameCount t));;
      modify_this (set_m_LastFrameCount framecount);;
      modify_this (set_m_bIsNewFrame true);;
      mret true.

(** The text of the [printf] in [GetNewFrame]: the words and a line feed. *)
Definition no_count_semaphore_text : string :=
  String.append "No count sempaphore" (String (Ascii.ascii_of_nat 10) EmptyString).

Definition GetNewFrame : M bool :=
  t ← get_this;
  if negb (m_bFrameCount t) || m_bDisabled t then mret true
  else
    match m_hCountSemaphore t with
    | None => printf no_count_semaphore_text;; mret true
    | Some _ =>
        peek ← GetNewFrame_peek (m_hCountSemaphore t);
        match (peek : option Z) with
        | None => mret true
        | Some framecount => GetNewFrame_compare framecount
        end
    end.

Definition IsFrameNew : M bool := t ← get_this; mret (m_bIsNewFrame t).

Definition GetSenderFps : M float := t ← get_this; mret (m_SenderFps t).

Definition GetSenderFrame : M Z := t ← get_this; mret (m_FrameCount t).

(* --- public: fps control ------------------------------------------- *)

Definition HoldFps (fps : Z) : M unit :=
  if fps <=? 0 then mret tt
  else
    let framerate := double_of_Z fps in
    t ← get_this;
    if USE_CHRONO then
      if (m_millisForFrame t <? 0.01)%float then
        modify_this (set_m_millisForFrame (1000 / framerate)%float);;
        now ← steady_clock_now;
        modify_this (set_m_FrameStartPtr now);;
        SpoutLogNotice "spoutFrameCount::HoldFps(%d)"
      else
        now ← steady_clock_now;
        modify_this (set_m_FrameEndPtr now);;
        let elapsedTime :=
          (double_of_Z (microseconds (now - m_FrameStartPtr t)) / 1000)%float in
        (if (elapsedTime <? m_millisForFrame t)%float
         then sleep_for (long_of_double (m_millisForFrame t - elapsedTime)%float)
         else mret tt);;
        now' ← steady_clock_now;
        modify_this (set_m_FrameStartPtr now')
    else
      if (m_millisForFrame t =? 0)%float then
        modify_this (set_m_millisForFrame (1000 / framerate)%float);;
        c ← GetCounter;
        modify_this (set_m_FrameStart c);;
        SpoutLogNotice "spoutFrameCount::HoldFps(%d)"
      else
        c ← GetCounter;
        let elapsedTime := (c - m_FrameStart t)%float in
        (if (elapsedTime <? m_millisForFrame t)%float
         then sleep_for (dword_of_double (m_millisForFrame t - elapsedTime)%float)
         else mret tt);;
        c' ← GetCounter;
        modify_this (set_m_FrameStart c').

(* --- texture access mutex ------------------------------------------ *)

Definition IsKeyedMutex (D3D11texture : option ID3D11Texture2D) : bool :=
  match D3D11texture with
  | Some desc =>
      negb (Z.land (MiscFlags desc) D3D11_RESOURCE_MISC_SHARED_KEYEDMUTEX =? 0)
  | None => false
  end.

Definition CreateAccessMutex (SenderName : string) : M bool :=
  szMutexName ← checked_copy 512 (String.append SenderName "_SpoutAccessMutex");
  r ← CreateMutexA szMutexName;
  match r.1 with
  | None =>
      SpoutLogError "spoutFrameCount::CreateAccessMutex - NULL invalid handle";;
      mret false
  | Some hMutex =>
      let errnum := r.2 in
      if errnum =? ERROR_INVALID_HANDLE then
        SpoutLogError "spoutFrameCount::CreateAccessMutex - [%s] invalid handle";;
        mret false
      else
        (if errnum =? ERROR_ALREADY_EXISTS
         then SpoutLogNotice "spoutFrameCount::CreateAccessMutex - [%s] already exists"
         else SpoutLogNotice "spoutFrameCount::CreateAccessMutex - [%s] created - 0x%.7X");;
        modify_this (set_m_hAccessMutex (Some hMutex));;
        mret true
  end.

Definition CloseAccessMutex : M unit :=
  t ← get_this;
  match m_hAccessMutex t with
  | Some h => CloseHandle h
  | None => mret tt
  end;;
  modify_this (set_m_hAccessMutex None).

Definition CheckAccess : M bool :=
  t ← get_this;
  match m_hAccessMutex t with
  | None => mret true
  | Some _ =>
      dwWaitResult ← WaitForSingleObject (m_hAccessMutex t) 67;
      if (dwWaitResult : Z) =? WAIT_OBJECT_0 then mret true
      else
        (if dwWaitResult =? WAIT_ABANDONED then
           SpoutLogError "spoutFrameCount::CheckAccess - WAIT_ABANDONED"
         else if dwWaitResult =? WAIT_TIMEOUT then mret tt
         else if dwWaitResult =? WAIT_FAILED then
           SpoutLogError "spoutFrameCount::CheckAccess - WAIT_FAILED"
         else SpoutLogError "spoutFrameCount::CheckAccess - unknown error");;
        mret false
  end.

Definition AllowAccess : M unit :=
  t ← get_this;
  match m_hAccessMutex t with
  | Some h => ReleaseMutex h
  | None => mret tt
  end.

Definition CheckKeyedAccess (pTexture : option ID3D11Texture2D) : M bool :=
  match pTexture with
  | Some tex =>
      if has_IDXGIKeyedMutex tex then
        hr ← AcquireSync 0 67;
        if (hr : Z) =? WAIT_OBJECT_0 then Release;; mret true
        else
          (if hr =? WAIT_ABANDONED then
             SpoutLogError "spoutDirectX::CheckKeyedAccess : WAIT_ABANDONED"
           else if hr =? WAIT_TIMEOUT then
             SpoutLogError "spoutDirectX::CheckKeyedAccess : WAIT_TIMEOUT"
           else mret tt);;
          ReleaseSync 0;;
          Release;;
          mret false
      else mret false
  | None => mret false
  end.

Definition AllowKeyedAccess (pTexture : option ID3D11Texture2D) : M unit :=
  match pTexture with
  | Some tex =>
      if has_IDXGIKeyedMutex tex then ReleaseSync 0;; Release else mret tt
  | None => mret tt
  end.

Definition CheckTextureAccess (D3D11texture : option ID3D11Texture2D) : M bool :=
  if IsKeyedMutex D3D11texture
  then CheckKeyedAccess D3D11texture
  else CheckAccess.

Definition AllowTextureAccess (D3D11texture : option ID3D11Texture2D) : M unit :=
  if IsKeyedMutex D3D11texture
  then AllowKeyedAccess D3D11texture
  else AllowAccess.

End Methods.

(* ===================================================================== *)
(** ** Runs of methods *)
(* ===================================================================== *)

(** [n] calls of a method in a row. *)
Fixpoint repeatM (n : nat) (m : M unit) : M unit :=
  match n with
  | O => mret tt
  | S k => m;; repeatM k m
  end.

(** The events a run added to the trace. *)
Definition emitted (s s' : state) (evs : list event) : Prop :=
  trace s' = trace s ++ evs.


Definition get_state : M state := λ s, Some (s, s).

(* ===================================================================== *)
(** ** Access arbitration: calls, and which lock an event belongs to *)
(* ===================================================================== *)

(** Events on a kernel handle: in the access functions the only handle is
    the named access mutex. *)
Definition named_lock_event (e : event) : bool :=
  match e with
  | EvWait _ _ | EvReleaseMutex _ => true
  | _ => false
  end.

(** Events on the keyed mutex of a texture. *)
Definition keyed_lock_event (e : event) : bool :=
  match e with
  | EvAcquireSync _ _ | EvReleaseSync _ | EvRelease => true
  | _ => false
  end.

Definition error_log (e : event) : bool :=
  match e with
  | EvLog Error _ => true
  | _ => false
  end.

(** A call of the access surface with its texture argument. *)
Inductive access_call :=
| AcquireCall (D3D11texture : option ID3D11Texture2D)
| ReleaseCall (D3D11texture : option ID3D11Texture2D).

Definition call_texture (c : access_call) : option ID3D11Texture2D :=
  match c with
  | AcquireCall t => t
  | ReleaseCall t => t
  end.

Definition perform (c : access_call) : M unit :=
  match c with
  | AcquireCall t => CheckTextureAccess t;; mret tt
  | ReleaseCall t => AllowTextureAccess t
  end.

(** A sequence of calls, each recorded with the events it emitted. *)
Fixpoint perform_all (cs : list access_call)
  : M (list (access_call * list event)) :=
  match cs with
  | [] => mret []
  | c :: cs' =>
      s0 ← get_state;
      perform c;;
      s1 ← get_state;
      rest ← perform_all cs';
      mret ((c, drop (length (trace (s0 : state))) (trace (s1 : state))) :: rest)
  end.

(** The wait of an acquire is answered "abandoned": on the named mutex
    when the texture is not keyed, on the keyed mutex when it is. *)
Inductive abandoned_wait (D3D11texture : option ID3D11Texture2D) (s : state)
  : Prop :=
| abandoned_named (name : string) (r : nat) :
    IsKeyedMutex D3D11texture = false ->
    m_hAccessMutex (this s) = Some (MutexHandle name) ->
    objects (os s) !! name = Some (KMutex r) ->
    mutex_wait (os s) (calls (os s)) = WAIT_ABANDONED ->
    abandoned_wait D3D11texture s
| abandoned_keyed (tex : ID3D11Texture2D) :
    D3D11texture = Some tex ->
    IsKeyedMutex D3D11texture = true ->
    has_IDXGIKeyedMutex tex = true ->
    keyed_wait (os s) (calls (os s)) = WAIT_ABANDONED ->
    abandoned_wait D3D11texture s.

(* ===================================================================== *)
(** ** Concrete systems and objects *)
(* ===================================================================== *)

(** A system with the registry flag set, one 60 Hz display mode, a steady
    clock that advances 20 ms per reading, no performance counter, the given
    kernel objects, and the given answer to every bounded wait. *)
Definition demo_os (objs : gmap string kobj) (answer : Z) : OS :=
  Build_OS objs (Some 1) [60] true (λ n, Z.of_nat n * 20000000) None
    (λ _, 0) (λ _, answer) (λ _, answer) 0.

(** The object the constructor builds there. *)
Definition demo_object : spoutFrameCount :=
  set_m_bFrameCount true (set_m_SenderFps 60%float zeroed).

(** A receiver that has opened the access mutex of sender "cam", which
    the sender holds open as well. *)
Definition demo_locked_object : spoutFrameCount :=
  set_m_hAccessMutex (Some (MutexHandle "cam_SpoutAccessMutex")) demo_object.

(** A shared texture created with a keyed mutex. *)
Definition demo_keyed_texture : ID3D11Texture2D :=
  {| MiscFlags := D3D11_RESOURCE_MISC_SHARED_KEYEDMUTEX;
     has_IDXGIKeyedMutex := true |}.

Definition demo_locked_state (answer : Z) : state :=
  {| this := demo_locked_object;
     os := demo_os {[ "cam_SpoutAccessMutex" := KMutex 2 ]} answer;
     trace := [] |}.

(** The lock a call may touch: a keyed texture the keyed mutex only, any
    other texture the named mutex only. *)
Definition lock_discipline (c : access_call) (e : event) : bool :=
  if IsKeyedMutex (call_texture c)
  then negb (named_lock_event e)
  else negb (keyed_lock_event e).

(** A computation that always returns and emits only events allowed by
    [P]. *)
Definition emits_only {A : Type} (P : event -> bool) (m : M A) : Prop :=
  forall s, exists a s' evs,
    m s = Some (a, s') /\ emitted s s' evs /\ Forall (λ e, P e = true) evs.

(* ===================================================================== *)
(** ** Views of the object and of the system *)
(* ===================================================================== *)

(** The system is as before, up to the number of clock readings and wait
    answers consumed. *)
Definition os_untouched (w w' : OS) : Prop := w' = set_calls (calls w') w.

(** The fields of the frame counter proper: handles, names, counts, the
    new-frame flag and the two gates. *)
Definition counter_fields (o : spoutFrameCount) :=
  (m_hAccessMutex o, m_hCountSemaphore o, m_SenderName o,
   m_CountSemaphoreName o, m_FrameCount o, m_LastFrameCount o,
   m_bIsNewFrame o, m_bFrameCount o, m_bDisabled o).

(** The fields of the fps estimate. *)
Definition fps_fields (o : spoutFrameCount) :=
  (m_FrameTimeTotal o, m_FrameTimeNumber o, m_SenderFps o).

(** The handles, names, new-frame flag and gates: what a repeated enable
    keeps. *)
Definition channel_fields (o : spoutFrameCount) :=
  (m_hAccessMutex o, m_hCountSemaphore o, m_SenderName o,
   m_CountSemaphoreName o, m_bIsNewFrame o, m_bFrameCount o, m_bDisabled o).

(** A sender on channel "cam" that has published three frames: the object
    and the system after construction, [EnableFrameCount("cam")] and three
    [SetNewFrame()] calls (std::chrono timing). *)
Definition demo_sender_run : option (unit * state) :=
  run (constructor true;; EnableFrameCount true "cam";;
       repeatM 3 (SetNewFrame true)) zeroed (demo_os ∅ 0).

Definition demo_sender_object : spoutFrameCount :=
  Eval vm_compute in
    match demo_sender_run with
    | Some (_, s) => this s
    | None => zeroed
    end.

Definition demo_sender_state : state :=
  {| this := demo_sender_object;
     os := set_calls 6 (demo_os {[ "cam_Count_Semaphore" := KSemaphore 4 1 ]} 0);
     trace := [] |}.

(* ===================================================================== *)
(** ** Pacing: the quantities [HoldFps] works with *)
(* ===================================================================== *)

(** [HoldFps] takes the call for the first one when no period is stored. *)
Definition first_hold (chrono : bool) (o : spoutFrameCount) : bool :=
  if chrono
  then (m_millisForFrame o <? 0.01)%float
  else (m_millisForFrame o =? 0)%float.

(** One reading of the clock [HoldFps] uses: a time point of the steady
    clock, or the milliseconds of the performance counter. *)
Definition pacing_clock (chrono : bool) : M (time_point + float) :=
  if chrono
  then now ← steady_clock_now; mret (inl now)
  else c ← GetCounter; mret (inr c).

(** The stored timestamp the next call measures from. *)
Definition pacing_baseline (chrono : bool) (o : spoutFrameCount)
  : time_point + float :=
  if chrono then inl (m_FrameStartPtr o) else inr (m_FrameStart o).

(** Milliseconds from the stored timestamp of [o] to a reading. *)
Definition pacing_elapsed (o : spoutFrameCount) (reading : time_point + float)
  : float :=
  match reading with
  | inl now => (double_of_Z (microseconds (now - m_FrameStartPtr o)) / 1000)%float
  | inr c => (c - m_FrameStart o)%float
  end.

(** The whole milliseconds slept for a remainder [x]. *)
Definition pacing_sleep (chrono : bool) (x : float) : Z :=
  if chrono then long_of_double x else dword_of_double x.

(** A caller that has made its first [HoldFps(60)] call: the object and the
    system after construction and that call (std::chrono timing; the clock
    of [demo_os] advances 20 ms per reading). *)
Definition demo_paced_run : option (unit * state) :=
  run (constructor true;; HoldFps true 60) zeroed (demo_os ∅ 0).

Definition demo_paced_object : spoutFrameCount :=
  Eval vm_compute in
    match demo_paced_run with
    | Some (_, s) => this s
    | None => zeroed
    end.

Definition demo_paced_state : state :=
  {| this := demo_paced_object; os := set_calls 1 (demo_os ∅ 0); trace := [] |}.

(* ===================================================================== *)
(** ** Frame counter: channels and publishes *)
(* ===================================================================== *)

(** The channel is enabled: the registry flag is set and the application
    has not disabled counting. *)
Definition channel_enabled (o : spoutFrameCount) : Prop :=
  m_bFrameCount o = true /\ m_bDisabled o = false.

(** [n] successful publishes from [s] to [s']: [n] calls of
    [SetNewFrame], each of which returned having incremented the frame
    number (the only path of the method that changes it). *)
Inductive published (chrono : bool) : nat -> state -> state -> Prop :=
| published_O (s : state) : published chrono 0 s s
| published_S (n : nat) (s s1 s' : state) :
    SetNewFrame chrono s = Some (tt, s1) ->
    m_FrameCount (this s1) <> m_FrameCount (this s) ->
    published chrono n s1 s' ->
    published chrono (S n) s s'.

(** A receiver that has just enabled channel "cam" on a sender that has
    never published: the object and the system after construction and
    [EnableFrameCount("cam")], the semaphore being new (std::chrono timing). *)
Definition demo_fresh_object : spoutFrameCount :=
  set_m_hCountSemaphore (Some (SemaphoreHandle "cam_Count_Semaphore"))
    (set_m_CountSemaphoreName "cam_Count_Semaphore"
       (set_m_SenderName "cam" demo_object)).

Definition demo_fresh_state : state :=
  {| this := demo_fresh_object;
     os := demo_os {[ "cam_Count_Semaphore" := KSemaphore 1 1 ]} 0;
     trace := [] |}.

(* ===================================================================== *)
(** ** Histories of a channel and its invariants *)
(* ===================================================================== *)

(** A postcondition of a run from [s]: it holds of the result and the final
    state whenever the run returns. *)
Definition ensures {A : Type} (m : M A) (Q : A -> state -> Prop) (s : state)
  : Prop :=
  match m s with
  | Some (a, s') => Q a s'
  | None => True
  end.

(** The public methods of the class. *)
Inductive channel_op :=
| OpSetFrameCount (bEnable : bool)
| OpEnableFrameCount (SenderName : string)
| OpDisableFrameCount
| OpCleanupFrameCount
| OpSetNewFrame
| OpGetNewFrame
| OpHoldFps (fps : Z)
| OpCreateAccessMutex (SenderName : string)
| OpCloseAccessMutex
| OpCheckTextureAccess (D3D11texture : option ID3D11Texture2D)
| OpAllowTextureAccess (D3D11texture : option ID3D11Texture2D).

Definition do_op (chrono : bool) (op : channel_op) : M unit :=
  match op with
  | OpSetFrameCount b => SetFrameCount b
  | OpEnableFrameCount name => EnableFrameCount chrono name
  | OpDisableFrameCount => DisableFrameCount
  | OpCleanupFrameCount => CleanupFrameCount
  | OpSetNewFrame => SetNewFrame chrono
  | OpGetNewFrame => GetNewFrame chrono;; mret tt
  | OpHoldFps fps => HoldFps chrono fps
  | OpCreateAccessMutex name => CreateAccessMutex name;; mret tt
  | OpCloseAccessMutex => CloseAccessMutex
  | OpCheckTextureAccess t => CheckTextureAccess t;; mret tt
  | OpAllowTextureAccess t => AllowTextureAccess t
  end.

Definition is_publish (op : channel_op) : bool :=
  match op with
  | OpSetNewFrame => true
  | _ => false
  end.

(** The processes on one machine: the objects of the parties (sender and
    receivers), and the system they share. *)
Record system := {
  parties : list spoutFrameCount;
  kernel : OS
}.

(** A step of the history: a party constructs its object, or party [i]
    calls a method on its object. *)
Inductive step :=
| Construct
| Call (i : nat) (op : channel_op).

Definition step_publishes (st : step) : bool :=
  match st with
  | Construct => false
  | Call _ op => is_publish op
  end.

Definition do_step (chrono : bool) (st : step) (sys : system)
  : option system :=
  match st with
  | Construct =>
      match new_spoutFrameCount chrono (kernel sys) with
      | Some (_, s) =>
          Some {| parties := parties sys ++ [this s]; kernel := os s |}
      | None => None
      end
  | Call i op =>
      match parties sys !! i with
      | Some o =>
          match run (do_op chrono op) o (kernel sys) with
          | Some (_, s) =>
              Some {| parties := <[i := this s]> (parties sys); kernel := os s |}
          | None => None
          end
      | None => Some sys
      end
  end.

Fixpoint history (chrono : bool) (steps : list step) (sys : system)
  : option system :=
  match steps with
  | [] => Some sys
  | st :: rest =>
      match do_step chrono st sys with
      | Some sys' => history chrono rest sys'
      | None => None
      end
  end.

(** No semaphore has been published to: each still has its initial count. *)
Definition fresh_semaphores (objs : gmap string kobj) : Prop :=
  forall (n : string) (c : Z) (r : nat),
    objs !! n = Some (KSemaphore c r) -> c = 1.

(** What holds of every object at every moment: a gated object has no
    semaphore handle, an object without handle has frame number 0, and the
    access handle, if any, is a mutex handle. *)
Definition gate_inv (o : spoutFrameCount) : Prop :=
  (m_bFrameCount o = false \/ m_bDisabled o = true -> m_hCountSemaphore o = None)
  /\ (m_hCountSemaphore o = None -> m_FrameCount o = 0)
  /\ (forall name, m_hAccessMutex o <> Some (SemaphoreHandle name)).

(** The invariant of object and system; with [unpublished], also that
    nothing has been published: the frame number is 0 and the semaphores are
    fresh. *)
Definition chan_inv (unpublished : bool) (s : state) : Prop :=
  gate_inv (this s)
  /\ (unpublished = true ->
      m_FrameCount (this s) = 0 /\ fresh_semaphores (objects (os s))).

(** The invariant of the parties and the system they share. *)
Definition sys_inv (unpublished : bool) (sys : system) : Prop :=
  Forall (λ o, chan_inv unpublished {| this := o; os := kernel sys; trace := [] |})
    (parties sys).

(** Nobody has published: the semaphores the history starts with are
    fresh, and no step is a [SetNewFrame()] call. *)
Definition never_published (w : OS) (steps : list step) : Prop :=
  fresh_semaphores (objects w)
  /\ forallb (λ st, negb (step_publishes st)) steps = true.

(* ===================================================================== *)
(** ** Further notions: counts, lifetimes, results of an acquire *)
(* ===================================================================== *)

(** Every semaphore count is within the range a semaphore of this class
    can have. *)
Definition bounded_semaphores (objs : gmap string kobj) : Prop :=
  forall (n : string) (c : Z) (r : nat),
    objs !! n = Some (KSemaphore c r) -> 0 <= c <= LONG_MAX.

Definition in_range (w : OS) : Prop := bounded_semaphores (objects w).

(** A computation that keeps a property of the system, from any state in
    which it holds, whenever it returns. *)
Definition keeps {A : Type} (I : OS -> Prop) (m : M A) : Prop :=
  forall s, I (os s) -> ensures m (λ _ s', I (os s')) s.

(** The count of the semaphore named [n], if there is one. *)
Definition sem_count (w : OS) (n : string) : option Z :=
  match objects w !! n with
  | Some (KSemaphore c _) => Some c
  | _ => None
  end.

(** A step that is a publish or a poll. *)
Definition publish_or_poll (st : step) : bool :=
  match st with
  | Call _ OpSetNewFrame | Call _ OpGetNewFrame => true
  | _ => false
  end.

(** The number of publish steps of a history. *)
Definition publish_steps (steps : list step) : Z :=
  Z.of_nat (length (filter (λ st, step_publishes st = true) steps)).

(** The fresh receiver of "cam", on a system where the semaphore has been
    driven to the maximum count. *)
Definition demo_saturated_state : state :=
  {| this := demo_fresh_object;
     os := demo_os {[ "cam_Count_Semaphore" := KSemaphore LONG_MAX 1 ]} 0;
     trace := [] |}.

(** The name of the counting semaphore of a sender, and of its access
    mutex: the suffix conventions of [EnableFrameCount] and
    [CreateAccessMutex]. *)
Definition count_semaphore_name (SenderName : string) : string :=
  String.append SenderName "_Count_Semaphore".

Definition access_mutex_name (SenderName : string) : string :=
  String.append SenderName "_SpoutAccessMutex".

(** The semaphore a successful [CreateSemaphoreA] leaves under a name:
    the existing one with one more handle, or a new one at count 1. *)
Definition opened_semaphore (existing : option kobj) : kobj :=
  match existing with
  | Some (KSemaphore c r) => KSemaphore c (S r)
  | _ => KSemaphore 1 1
  end.

(** The name is free for a semaphore: unused, or a semaphore already. *)
Definition semaphore_or_free (existing : option kobj) : Prop :=
  existing = None \/ exists c r, existing = Some (KSemaphore c r).

(** The name is free for a semaphore, or a semaphore that somebody holds a
    handle of. *)
Definition live_semaphore_or_free (existing : option kobj) : Prop :=
  existing = None \/ exists c r, existing = Some (KSemaphore c (S r)).

(** What [CloseHandle] leaves of the kernel objects. *)
Definition closed_handle (h : HANDLE) (objs : gmap string kobj)
  : gmap string kobj :=
  match objs !! handle_name h with
  | Some k =>
      match close_object h k with
      | Some k' => <[handle_name h := k']> objs
      | None => delete (handle_name h) objs
      end
  | None => objs
  end.

(** A newly constructed object on the demo system with the given kernel
    objects. *)
Definition demo_unopened_state (objs : gmap string kobj) : state :=
  {| this := demo_object; os := demo_os objs 0; trace := [] |}.

(** A sender name of 240 characters. *)
Definition demo_long_name : string :=
  String.string_of_list_ascii (repeat (Ascii.ascii_of_nat 97) 240).

(** The mutex a successful [CreateMutexA] leaves under a name: the existing
    one with one more handle, or a new one with one handle. *)
Definition opened_mutex (existing : option kobj) : kobj :=
  match existing with
  | Some (KMutex r) => KMutex (S r)
  | _ => KMutex 1
  end.

(** The name is free for a mutex, or a mutex that somebody holds a handle
    of. *)
Definition live_mutex_or_free (existing : option kobj) : Prop :=
  existing = None \/ exists r, existing = Some (KMutex (S r)).

(** The name is free for a mutex: unused, or a mutex already. *)
Definition mutex_or_free (existing : option kobj) : Prop :=
  existing = None \/ exists r, existing = Some (KMutex r).

(* ===================================================================== *)
(** ** Accounting for semaphore handles *)
(* ===================================================================== *)

(** Whether object [o] holds a handle of the semaphore named [n], as a
    number. *)
Definition holds_semaphore (o : spoutFrameCount) (n : string) : nat :=
  match m_hCountSemaphore o with
  | Some (SemaphoreHandle m) => if decide (m = n) then 1 else 0
  | _ => 0
  end.

(** The number of objects among [ps] that hold a handle of the semaphore
    named [n]. *)
Definition holders (ps : list spoutFrameCount) (n : string) : nat :=
  sum_list_with (λ o, holds_semaphore o n) ps.

(** The number of open handles of the semaphore named [n], 0 when there is
    no such semaphore. *)
Definition semaphore_handles (objs : gmap string kobj) (n : string) : nat :=
  match objs !! n with
  | Some (KSemaphore _ r) => r
  | _ => 0
  end.

(** The access-mutex field holds no semaphore handle. *)
Definition access_handle_typed (o : spoutFrameCount) : Prop :=
  forall name, m_hAccessMutex o <> Some (SemaphoreHandle name).

(** Every handle the objects hold is accounted for in the kernel: each
    semaphore has at least as many open handles as there are objects holding
    one. *)
Definition handles_accounted (sys : system) : Prop :=
  Forall access_handle_typed (parties sys)
  /\ forall n, (holders (parties sys) n
               <= semaphore_handles (objects (kernel sys)) n)%nat.

(** The same for one object and the state of the system, [others n] being
    the number of other objects that hold the semaphore [n]. *)
Definition accounted (others : string -> nat) (s : state) : Prop :=
  access_handle_typed (this s)
  /\ forall n, (others n + holds_semaphore (this s) n
               <= semaphore_handles (objects (os s)) n)%nat.

(** A run that left the handles of the object and the numbers of open
    semaphore handles as they were. *)
Definition handles_kept (s s' : state) : Prop :=
  m_hCountSemaphore (this s') = m_hCountSemaphore (this s)
  /\ m_hAccessMutex (this s') = m_hAccessMutex (this s)
  /\ forall n, semaphore_handles (objects (os s')) n
               = semaphore_handles (objects (os s)) n.

(* ===================================================================== *)
(** ** One channel among others *)
(* ===================================================================== *)

(** The semaphore named [n], if there is one, still has the count it was
    created with: nothing has been published through it. *)
Definition fresh_at (n : string) (objs : gmap string kobj) : Prop :=
  forall (c : Z) (r : nat), objs !! n = Some (KSemaphore c r) -> c = 1.

(** The channel of an object: the name of the semaphore it holds. *)
Definition channel_of (o : spoutFrameCount) : option string :=
  match m_hCountSemaphore o with
  | Some (SemaphoreHandle n) => Some n
  | _ => None
  end.

(** The step is a publish on the channel of the semaphore [n]: a
    [SetNewFrame()] by a party that holds this semaphore at that moment. *)
Definition publishes_on (n : string) (st : step) (sys : system) : bool :=
  match st with
  | Call i OpSetNewFrame =>
      match parties sys !! i with
      | Some o => bool_decide (channel_of o = Some n)
      | None => false
      end
  | _ => false
  end.

(** No step of the history, run from [sys], is a publish on the channel of
    [n]; publishes on other channels are free. *)
Fixpoint no_publish_on (chrono : bool) (n : string) (steps : list step)
    (sys : system) : bool :=
  match steps with
  | [] => true
  | st :: rest =>
      negb (publishes_on n st sys)
      && match do_step chrono st sys with
         | Some sys' => no_publish_on chrono n rest sys'
         | None => true
         end
  end.

(** Nothing has ever been published on the channel of the semaphore [n]:
    not before the history (the semaphore, if it was there, had its initial
    count), and not by a step of it. *)
Definition never_published_on (chrono : bool) (n : string) (w : OS)
    (steps : list step) : Prop :=
  fresh_at n (objects w)
  /\ no_publish_on chrono n steps {| parties := []; kernel := w |} = true.

(** The channel of [n] as one object and the system see it while nothing
    has been published on it: an object that holds the semaphore has read
    no frame number from it. *)
Definition unpublished_on (n : string) (s : state) : Prop :=
  (channel_of (this s) = Some n -> m_FrameCount (this s) = 0)
  /\ fresh_at n (objects (os s)).

(** The same for all the parties of a system. *)
Definition sys_unpublished_on (n : string) (sys : system) : Prop :=
  Forall (λ o, channel_of o = Some n -> m_FrameCount o = 0) (parties sys)
  /\ fresh_at n (objects (kernel sys)).

(** Every semaphore count is at least 1: a wait on a semaphore finds a unit
    to take. *)
Definition positive_semaphores (objs : gmap string kobj) : Prop :=
  forall (n : string) (c : Z) (r : nat),
    objs !! n = Some (KSemaphore c r) -> 1 <= c.

(* ===================================================================== *)
(** * The plugin: KlakSpout.cpp, KlakSpoutSharedObject.h, KlakSpoutGlobals.h *)
(* ===================================================================== *)

Module klakspout.

(** Pointers the plugin only passes on or tests against null (devices,
    command queues, textures, resources): an address, 0 for [nullptr]. *)
Definition pointer := Z.

Definition nullptr : pointer := 0.

(** [int] and [unsigned int] of the platform: 32 bits. The conversion of an
    [int] to [unsigned int] in a mixed comparison, and of a size to [int]. *)
Definition to_unsigned (z : Z) : Z := z mod 2 ^ 32.

Definition INT_MAX : Z := 2147483647.

Definition to_int (z : Z) : Z := (z + 2 ^ 31) mod 2 ^ 32 - 2 ^ 31.

(** [Globals::Renderer] and [SharedObject::Type]. *)
Inductive Renderer := DX11 | DX12.

Inductive Type_ := sender | receiver.

(** The renderers and device events of the Unity interface the plugin tells
    apart (IUnityGraphics.h is not among the sources; every other value of
    the enumerations behaves as the last constructor). *)
Inductive UnityGfxRenderer :=
| kUnityGfxRendererD3D11
| kUnityGfxRendererD3D12
| kUnityGfxRendererOther.

Inductive UnityGfxDeviceEventType :=
| kUnityGfxDeviceEventInitialize
| kUnityGfxDeviceEventShutdown
| kUnityGfxDeviceEventOther.

(** What the plugin reads through [unity_]: the renderer and the devices of
    the graphics interfaces. *)
Record IUnityInterfaces := {
  GetRenderer : UnityGfxRenderer;
  D3D11_GetDevice : pointer;
  D3D12_GetDevice : pointer;
  D3D12_GetCommandQueue : pointer
}.

(** The classes of the Spout SDK that the plugin calls, [spoutDX] and
    [spoutDX12] with their [sendernames] member, are not among the sources.
    Their states are abstract and their methods are the fields of this
    interface: each takes the state of the SDK object and gives the result
    and the state afterwards. [CheckSender] gives [found] and the [width] and
    [height] it stored; [GetSenderNames] gives its result and the contents of
    the set it was given, in the order of iteration; [WrapDX12Resource]
    gives the pointer it stored ([nullptr] when it stored none). *)
Class SpoutSDK := {
  spoutDX : Type;
  spoutDX12 : Type;
  make_spoutDX : spoutDX;
  make_spoutDX12 : spoutDX12;
  OpenDirectX11 : pointer -> spoutDX -> bool * spoutDX;
  DX_CheckSender : string -> spoutDX -> (bool * Z * Z) * spoutDX;
  DX_GetSenderNames : spoutDX -> (bool * list string) * spoutDX;
  DX_SetSenderName : string -> spoutDX -> spoutDX;
  DX_ReleaseSender : spoutDX -> spoutDX;
  DX_SendTexture : pointer -> spoutDX -> bool * spoutDX;
  OpenDirectX12 : pointer -> pointer -> spoutDX12 -> bool * spoutDX12;
  CloseDirectX12 : spoutDX12 -> spoutDX12;
  DX12_CheckSender : string -> spoutDX12 -> (bool * Z * Z) * spoutDX12;
  DX12_GetSenderNames : spoutDX12 -> (bool * list string) * spoutDX12;
  DX12_SetSenderName : string -> spoutDX12 -> spoutDX12;
  DX12_ReleaseSender : spoutDX12 -> spoutDX12;
  WrapDX12Resource : pointer -> spoutDX12 -> pointer * spoutDX12;
  SendDX11Resource : pointer -> spoutDX12 -> bool * spoutDX12
}.

Section Plugin.

Context {sdk : SpoutSDK}.

(** [klakspout::Globals], the singleton. The two [unique_ptr] members are
    null ([None]) or own an SDK object. *)
Record Globals := {
  renderer_ : Renderer;
  spoutDX_ : option spoutDX;
  spoutDX12_ : option spoutDX12;
  isReady : bool;
  isReady2 : bool
}.

(** The singleton as first constructed: static storage is zeroed, which for
    [renderer_] is its first enumerator. *)
Definition Globals_instance : Globals :=
  {| renderer_ := DX11; spoutDX_ := None; spoutDX12_ := None;
     isReady := false; isReady2 := false |}.

(** [klakspout::SharedObject]. *)
Record SharedObject := {
  type_ : Type_;
  name_ : string;
  width_ : Z;
  height_ : Z;
  active : bool;
  wrappedDX12Texture : pointer
}.

Definition set_active (b : bool) (o : SharedObject) : SharedObject :=
  {| type_ := type_ o; name_ := name_ o; width_ := width_ o;
     height_ := height_ o; active := b;
     wrappedDX12Texture := wrappedDX12Texture o |}.

Definition set_wrappedDX12Texture (t : pointer) (o : SharedObject)
  : SharedObject :=
  {| type_ := type_ o; name_ := name_ o; width_ := width_ o;
     height_ := height_ o; active := active o;
     wrappedDX12Texture := t |}.

(** The state of the plugin: the variables of the anonymous namespace of
    KlakSpout.cpp ([unity_], [shared_object_names_] in its order of
    iteration), the static string of [GetSharedObjectName], the singleton,
    and the resources [Release] has been called on, latest last. The mutex
    [lock_] orders calls of different threads; a single thread of calls is
    modelled, where taking it has no effect. *)
Record Plugin := {
  unity_ : option IUnityInterfaces;
  shared_object_names_ : list string;
  temp : string;
  g : Globals;
  released : list pointer
}.

Definition set_unity_ (u : option IUnityInterfaces) (p : Plugin) : Plugin :=
  {| unity_ := u; shared_object_names_ := shared_object_names_ p;
     temp := temp p; g := g p; released := released p |}.

Definition set_shared_object_names_ (l : list string) (p : Plugin) : Plugin :=
  {| unity_ := unity_ p; shared_object_names_ := l;
     temp := temp p; g := g p; released := released p |}.

Definition set_temp (t : string) (p : Plugin) : Plugin :=
  {| unity_ := unity_ p; shared_object_names_ := shared_object_names_ p;
     temp := t; g := g p; released := released p |}.

Definition set_g (x : Globals) (p : Plugin) : Plugin :=
  {| unity_ := unity_ p; shared_object_names_ := shared_object_names_ p;
     temp := temp p; g := x; released := released p |}.

Definition set_released (l : list pointer) (p : Plugin) : Plugin :=
  {| unity_ := unity_ p; shared_object_names_ := shared_object_names_ p;
     temp := temp p; g := g p; released := l |}.

Definition set_renderer_ (r : Renderer) (x : Globals) : Globals :=
  {| renderer_ := r; spoutDX_ := spoutDX_ x; spoutDX12_ := spoutDX12_ x;
     isReady := isReady x; isReady2 := isReady2 x |}.

Definition set_spoutDX_ (d : option spoutDX) (x : Globals) : Globals :=
  {| renderer_ := renderer_ x; spoutDX_ := d; spoutDX12_ := spoutDX12_ x;
     isReady := isReady x; isReady2 := isReady2 x |}.

Definition set_spoutDX12_ (d : option spoutDX12) (x : Globals) : Globals :=
  {| renderer_ := renderer_ x; spoutDX_ := spoutDX_ x; spoutDX12_ := d;
     isReady := isReady x; isReady2 := isReady2 x |}.

Definition set_isReady (b : bool) (x : Globals) : Globals :=
  {| renderer_ := renderer_ x; spoutDX_ := spoutDX_ x;
     spoutDX12_ := spoutDX12_ x; isReady := b; isReady2 := isReady2 x |}.

Definition set_isReady2 (b : bool) (x : Globals) : Globals :=
  {| renderer_ := renderer_ x; spoutDX_ := spoutDX_ x;
     spoutDX12_ := spoutDX12_ x; isReady := isReady x; isReady2 := b |}.

(** Plugin code: a function of the plugin state that returns a result and
    the state afterwards, or has no defined behaviour ([None]: a null
    pointer is dereferenced). *)
Definition K (A : Type) : Type := Plugin -> option (A * Plugin).

#[export] Instance K_ret : MRet K := λ A a p, Some (a, p).

#[export] Instance K_bind : MBind K := λ A B f m p,
  match m p with
  | Some (a, p') => f a p'
  | None => None
  end.

Definition get_plugin : K Plugin := λ p, Some (p, p).

Definition modify_plugin (f : Plugin -> Plugin) : K unit :=
  λ p, Some (tt, f p).

Definition modify_g (f : Globals -> Globals) : K unit :=
  modify_plugin (λ p, set_g (f (g p)) p).

Definition undefined {A : Type} : K A := λ _, None.

(** [g.spoutDX_->method(...)] and [g.spoutDX12_->method(...)]. *)
Definition call_spoutDX {A : Type} (method : spoutDX -> A * spoutDX) : K A :=
  p ← get_plugin;
  match spoutDX_ (g p) with
  | Some d =>
      modify_g (set_spoutDX_ (Some (method d).2));;
      mret (method d).1
  | None => undefined
  end.

Definition call_spoutDX12 {A : Type} (method : spoutDX12 -> A * spoutDX12)
  : K A :=
  p ← get_plugin;
  match spoutDX12_ (g p) with
  | Some d =>
      modify_g (set_spoutDX12_ (Some (method d).2));;
      mret (method d).1
  | None => undefined
  end.

(** [sendernames.CheckSender(name, width, height, handle, format)] on the
    SDK object of the renderer. *)
Definition CheckSender (name : string) : K (bool * Z * Z) :=
  p ← get_plugin;
  match renderer_ (g p) with
  | DX11 => call_spoutDX (DX_CheckSender name)
  | DX12 => call_spoutDX12 (DX12_CheckSender name)
  end.

(* --- SharedObject -------------------------------------------------- *)

Definition new_SharedObject (type : Type_) (name : string) (width height : Z)
  : SharedObject :=
  {| type_ := type; name_ := name; width_ := width; height_ := height;
     active := false; wrappedDX12Texture := nullptr |}.

Definition isActive (o : SharedObject) : bool := active o.

Definition isValid (o : SharedObject) : K bool :=
  match type_ o with
  | sender => mret true
  | receiver =>
      if negb (isActive o) then mret true
      else
        r ← CheckSender (name_ o);
        let '(found, width, height) := (r : bool * Z * Z) in
        mret (found && (to_unsigned (width_ o) =? width)
                    && (to_unsigned (height_ o) =? height))
  end.

Definition releaseInternals (o : SharedObject) : K SharedObject :=
  p ← get_plugin;
  (match type_ o with
   | sender =>
       if active o then
         match renderer_ (g p) with
         | DX11 => call_spoutDX (λ d, (tt, DX_ReleaseSender d))
         | DX12 => call_spoutDX12 (λ d, (tt, DX12_ReleaseSender d))
         end
       else mret tt
   | receiver => mret tt
   end);;
  if wrappedDX12Texture o =? nullptr then mret o
  else
    modify_plugin (λ p, set_released (released p ++ [wrappedDX12Texture o]) p);;
    mret (set_wrappedDX12Texture nullptr o).

Definition setupSender (o : SharedObject) : K bool :=
  r ← CheckSender (name_ o);
  let found := (r : bool * Z * Z).1.1 in
  if found then mret false
  else
    p ← get_plugin;
    match renderer_ (g p) with
    | DX11 => call_spoutDX (λ d, (tt, DX_SetSenderName (name_ o) d))
    | DX12 => call_spoutDX12 (λ d, (tt, DX12_SetSenderName (name_ o) d))
    end;;
    mret true.

Definition setupReceiver (o : SharedObject) : K bool := mret true.

Definition activate (o : SharedObject) : K (bool * SharedObject) :=
  b ← match type_ o with
      | sender => setupSender o
      | receiver => setupReceiver o
      end;
  mret (b, set_active b o).

Definition deactivate (o : SharedObject) : K SharedObject :=
  releaseInternals o.

(** [~SharedObject()]. *)
Definition delete_SharedObject (o : SharedObject) : K unit :=
  releaseInternals o;; mret tt.

Definition SharedObject_SendTexture (o : SharedObject) (texture : pointer)
  : K (bool * SharedObject) :=
  if negb (active o) then mret (false, o)
  else
    p ← get_plugin;
    match renderer_ (g p) with
    | DX11 =>
        b ← call_spoutDX (DX_SendTexture texture);
        mret (b, o)
    | DX12 =>
        o ← (if wrappedDX12Texture o =? nullptr
             then w ← call_spoutDX12 (WrapDX12Resource texture);
                  mret (set_wrappedDX12Texture w o)
             else mret o);
        if negb (wrappedDX12Texture o =? nullptr)
        then b ← call_spoutDX12 (SendDX11Resource (wrappedDX12Texture o));
             mret (b, o)
        else mret (false, o)
    end.

(* --- KlakSpout.cpp: the callbacks ------------------------------------ *)

(** [unity_->Get<...>()]. *)
Definition unity : K IUnityInterfaces :=
  p ← get_plugin;
  match unity_ p with
  | Some u => mret u
  | None => undefined
  end.

(** [OnGraphicsDeviceEvent]. The [DEBUG_LOG] lines expand to nothing unless
    [_DEBUG] is defined, and the three calls that set up the log of the SDK
    ([OpenSpoutConsole], [EnableSpoutLog], [SetSpoutLogLevel]) touch nothing
    the plugin reads: both are left out, here and below. An [assert] guards
    what is dereferenced right after it, so its failure and the undefined
    behaviour without it are the same [None]. *)
Definition OnGraphicsDeviceEvent (event_type : UnityGfxDeviceEventType)
  : K unit :=
  u ← unity;
  let renderer := GetRenderer u in
  match renderer with
  | kUnityGfxRendererOther => mret tt
  | _ =>
      match event_type with
      | kUnityGfxDeviceEventInitialize =>
          match renderer with
          | kUnityGfxRendererD3D11 =>
              let device := D3D11_GetDevice u in
              if device =? nullptr then mret tt
              else
                modify_g (set_spoutDX_ (Some make_spoutDX));;
                ok ← call_spoutDX (OpenDirectX11 device);
                if negb ok then mret tt
                else
                  modify_g (set_renderer_ DX11);;
                  modify_g (set_isReady true)
          | _ =>
              modify_g (set_spoutDX12_ (Some make_spoutDX12));;
              modify_g (set_renderer_ DX12);;
              modify_g (set_isReady true)
          end
      | kUnityGfxDeviceEventShutdown =>
          match renderer with
          | kUnityGfxRendererD3D11 => modify_g (set_spoutDX_ None)
          | _ =>
              call_spoutDX12 (λ d, (tt, CloseDirectX12 d));;
              modify_g (set_spoutDX12_ None)
          end
      | kUnityGfxDeviceEventOther => mret tt
      end
  end.

(** [OnRenderEvent(event_id, data)], [data] pointing to the object given;
    the result is the object afterwards, [None] when it has been deleted. *)
Definition OnRenderEvent (event_id : Z) (pobj : SharedObject)
  : K (option SharedObject) :=
  p ← get_plugin;
  go_on ←
    (if (event_id =? 0)
        && (if renderer_ (g p) is DX12 then true else false)
        && negb (isReady2 (g p))
     then
       uInterface ← unity;
       let device := D3D12_GetDevice uInterface in
       let commandQueue := D3D12_GetCommandQueue uInterface in
       if (device =? nullptr) || (commandQueue =? nullptr) then mret false
       else
         ok ← call_spoutDX12 (OpenDirectX12 device commandQueue);
         if negb ok then mret false
         else modify_g (set_isReady2 true);; mret true
     else mret true);
  if negb (go_on : bool) then mret (Some pobj)
  else
    p ← get_plugin;
    if negb (isReady (g p)) then mret (Some pobj)
    else if event_id =? 0 then
      if negb (isActive pobj)
      then r ← activate pobj; mret (Some (r : bool * SharedObject).2)
      else mret (Some pobj)
    else if event_id =? 1 then
      delete_SharedObject pobj;; mret None
    else mret (Some pobj).

(** [UnityPluginLoad] and [UnityPluginUnload]; registering the callback
    with Unity leaves no trace in the plugin. *)
Definition UnityPluginLoad (interfaces : IUnityInterfaces) : K unit :=
  modify_plugin (set_unity_ (Some interfaces));;
  OnGraphicsDeviceEvent kUnityGfxDeviceEventInitialize.

Definition UnityPluginUnload : K unit :=
  _ ← unity;
  modify_plugin (set_unity_ None).

(* --- KlakSpout.cpp: the exported functions --------------------------- *)

(** [CreateSender] and [CreateReceiver]: the new object, or [nullptr]. *)
Definition CreateSender (name : option string) (width height : Z)
  : K (option SharedObject) :=
  p ← get_plugin;
  if negb (isReady (g p)) then mret None
  else mret (Some (new_SharedObject sender (default "" name) width height)).

Definition CreateReceiver (name : option string) : K (option SharedObject) :=
  p ← get_plugin;
  if negb (isReady (g p)) then mret None
  else mret (Some (new_SharedObject receiver (default "" name) (-1) (-1))).

Definition GetTexturePointer (ptr : SharedObject) : pointer := nullptr.

Definition SendTexture (ptr : SharedObject) (tex : pointer)
  : K (Z * SharedObject) :=
  p ← get_plugin;
  if negb (isReady (g p)) then mret (Z.b2z false, ptr)
  else
    r ← SharedObject_SendTexture ptr tex;
    mret (Z.b2z (r : bool * SharedObject).1, r.2).

Definition GetTextureWidth (ptr : SharedObject) : Z := width_ ptr.

Definition GetTextureHeight (ptr : SharedObject) : Z := height_ ptr.

Definition CheckValid (ptr : SharedObject) : K Z :=
  b ← isValid ptr; mret (Z.b2z b).

Definition ScanSharedObjects : K Z :=
  p ← get_plugin;
  if negb (isReady (g p)) then mret 0
  else
    modify_plugin (set_shared_object_names_ []);;
    r ← match renderer_ (g p) with
        | DX11 => call_spoutDX DX_GetSenderNames
        | DX12 => call_spoutDX12 DX12_GetSenderNames
        end;
    modify_plugin (set_shared_object_names_ (r : bool * list string).2);;
    if (r : bool * list string).1
    then p ← get_plugin;
         mret (to_int (Z.of_nat (length (shared_object_names_ p))))
    else mret 0.

(** The loop of [GetSharedObjectName]: [count] runs along the names. *)
Fixpoint GetSharedObjectName_from (names : list string) (count index : Z)
  : option string :=
  match names with
  | [] => None
  | name :: rest =>
      if count =? index then Some name
      else GetSharedObjectName_from rest (to_int (count + 1)) index
  end.

(** What [GetSharedObjectName] returns: [nullptr], or the characters of the
    static string [temp]. *)
Inductive c_str := null_c_str | temp_c_str.

Definition GetSharedObjectName (index : Z) : K c_str :=
  p ← get_plugin;
  match GetSharedObjectName_from (shared_object_names_ p) 0 index with
  | Some name => modify_plugin (set_temp name);; mret temp_c_str
  | None => mret null_c_str
  end.

(** The string the result of the latest call of [GetSharedObjectName] reads
    as, [p] being the plugin as that call left it. The result points into
    the static string [temp]: the next assignment to [temp] may move its
    characters, so the result of an earlier call is not to be read through
    this function. *)
Definition read_c_str (c : c_str) (p : Plugin) : option string :=
  match c with
  | null_c_str => None
  | temp_c_str => Some (temp p)
  end.

(** What the SDK object of the current renderer answers to
    [sendernames.GetSenderNames] and to [sendernames.CheckSender], if there
    is one. *)
Definition GetSenderNames_answer (p : Plugin) : option (bool * list string) :=
  match renderer_ (g p) with
  | DX11 => (λ d, (DX_GetSenderNames d).1) <$> spoutDX_ (g p)
  | DX12 => (λ d, (DX12_GetSenderNames d).1) <$> spoutDX12_ (g p)
  end.

Definition CheckSender_answer (name : string) (p : Plugin)
  : option (bool * Z * Z) :=
  match renderer_ (g p) with
  | DX11 => (λ d, (DX_CheckSender name d).1) <$> spoutDX_ (g p)
  | DX12 => (λ d, (DX12_CheckSender name d).1) <$> spoutDX12_ (g p)
  end.

(** The plugin state with the SDK objects left out: what plugin code
    changes besides calling the SDK. *)
Definition outside_sdk (p : Plugin) :=
  (unity_ p, shared_object_names_ p, temp p, released p,
   renderer_ (g p), isReady (g p), isReady2 (g p)).

End Plugin.

(** An SDK for examples. The state of an SDK object is the list of the
    calls made on it, latest last. One sender, "cam" of 640 by 480, is
    registered; every open, wrap and send succeeds, a wrap giving the
    address after the one it is given. *)
Inductive sdk_call :=
| CallOpenDirectX11 (device : pointer)
| CallOpenDirectX12 (device commandQueue : pointer)
| CallCloseDirectX12
| CallCheckSender (name : string)
| CallGetSenderNames
| CallSetSenderName (name : string)
| CallReleaseSender
| CallSendTexture (texture : pointer)
| CallWrapDX12Resource (resource : pointer)
| CallSendDX11Resource (resource : pointer).

Definition demo_sdk : SpoutSDK :=
  {| spoutDX := list sdk_call;
     spoutDX12 := list sdk_call;
     make_spoutDX := [];
     make_spoutDX12 := [];
     OpenDirectX11 := λ device d, (true, d ++ [CallOpenDirectX11 device]);
     DX_CheckSender := λ name d,
       ((String.eqb name "cam", 640, 480), d ++ [CallCheckSender name]);
     DX_GetSenderNames := λ d, ((true, ["cam"]), d ++ [CallGetSenderNames]);
     DX_SetSenderName := λ name d, d ++ [CallSetSenderName name];
     DX_ReleaseSender := λ d, d ++ [CallReleaseSender];
     DX_SendTexture := λ texture d, (true, d ++ [CallSendTexture texture]);
     OpenDirectX12 := λ device commandQueue d,
       (true, d ++ [CallOpenDirectX12 device commandQueue]);
     CloseDirectX12 := λ d, d ++ [CallCloseDirectX12];
     DX12_CheckSender := λ name d,
       ((String.eqb name "cam", 640, 480), d ++ [CallCheckSender name]);
     DX12_GetSenderNames := λ d, ((true, ["cam"]), d ++ [CallGetSenderNames]);
     DX12_SetSenderName := λ name d, d ++ [CallSetSenderName name];
     DX12_ReleaseSender := λ d, d ++ [CallReleaseSender];
     WrapDX12Resource := λ resource d,
       (resource + 1, d ++ [CallWrapDX12Resource resource]);
     SendDX11Resource := λ resource d,
       (true, d ++ [CallSendDX11Resource resource]) |}.

(** Unity with the D3D11 renderer, and with the D3D12 renderer. *)
Definition demo_unity_d3d11 : IUnityInterfaces :=
  {| GetRenderer := kUnityGfxRendererD3D11; D3D11_GetDevice := 4096;
     D3D12_GetDevice := nullptr; D3D12_GetCommandQueue := nullptr |}.

Definition demo_unity_d3d12 : IUnityInterfaces :=
  {| GetRenderer := kUnityGfxRendererD3D12; D3D11_GetDevice := nullptr;
     D3D12_GetDevice := 4096; D3D12_GetCommandQueue := 8192 |}.

(** The plugin before [UnityPluginLoad], and once loaded and ready under
    each renderer ([isReady2] set under D3D12), with the given names from
    an earlier scan. *)
Definition demo_unloaded : @Plugin demo_sdk :=
  {| unity_ := None; shared_object_names_ := []; temp := "";
     g := Globals_instance; released := [] |}.

Definition demo_plugin_d3d11 (names : list string) : @Plugin demo_sdk :=
  {| unity_ := Some demo_unity_d3d11; shared_object_names_ := names;
     temp := "";
     g := @Build_Globals demo_sdk DX11 (Some [CallOpenDirectX11 4096]) None
            true false;
     released := [] |}.

Definition demo_plugin_d3d12 (names : list string) : @Plugin demo_sdk :=
  {| unity_ := Some demo_unity_d3d12; shared_object_names_ := names;
     temp := "";
     g := @Build_Globals demo_sdk DX12 None
            (Some [CallOpenDirectX12 4096 8192]) true true;
     released := [] |}.

(** A sender object whose name is free, the same once activated, and a
    sender object whose name is taken by the registered sender. *)
Definition demo_sender : SharedObject :=
  new_SharedObject sender "out" 640 480.

Definition demo_active_sender : SharedObject :=
  set_active true demo_sender.

Definition demo_taken_sender : SharedObject :=
  new_SharedObject sender "cam" 640 480.

End klakspout.
(* ===================================================================== *)
(** ** Proof support *)
(* ===================================================================== *)

Ltac munfold :=
  unfold next_answer, run in *;
  unfold mbind, M_bind, mret, M_ret, get_this, get_os, get_state,
    modify_this, modify_os, emit, abort in *.

Ltac log_unfold :=
  unfold SpoutLogNotice, SpoutLogWarning, SpoutLogError, printf, sleep_for,
    ReleaseMutex, AcquireSync, ReleaseSync, Release in *.

Lemma state_eta (s : state) :
  {| this := this s; os := os s; trace := trace s |} = s.
Proof. by destruct s. Qed.

Lemma repeatM_fixed (m : M unit) (s : state) (n : nat) :
  m s = Some (tt, s) -> repeatM n m s = Some (tt, s).
Proof.
  intros Hm. induction n as [|n IH]; simpl.
  - reflexivity.
  - munfold. rewrite Hm. exact IH.
Qed.

(** *** Events of composed computations *)

Section EmitsOnly.

Context {A B : Type} (P : event -> bool).

Lemma emits_only_ret (a : A) : emits_only P (mret a).
Proof.
  intros s. exists a, s, []. unfold emitted. rewrite app_nil_r.
  repeat split. constructor.
Qed.

Lemma emits_only_bind (m : M A) (f : A -> M B) :
  emits_only P m -> (forall a, emits_only P (f a)) -> emits_only P (m ≫= f).
Proof.
  intros Hm Hf s.
  destruct (Hm s) as (a & s1 & evs1 & Hrun1 & Hev1 & Hall1).
  destruct (Hf a s1) as (b & s2 & evs2 & Hrun2 & Hev2 & Hall2).
  exists b, s2, (evs1 ++ evs2). unfold mbind, M_bind. rewrite Hrun1.
  split; [exact Hrun2|]. split.
  - unfold emitted in *. rewrite Hev2, Hev1, app_assoc. reflexivity.
  - apply Forall_app. split; assumption.
Qed.

End EmitsOnly.

Lemma emits_only_emit (P : event -> bool) (e : event) :
  P e = true -> emits_only P (emit e).
Proof.
  intros He s. eexists tt, _, [e]. unfold emit, emitted. cbn.
  repeat split. repeat constructor. exact He.
Qed.

Lemma emits_only_get_this (P : event -> bool) : emits_only P get_this.
Proof.
  intros s. exists (this s), s, []. unfold emitted. rewrite app_nil_r.
  repeat split. constructor.
Qed.

Lemma emits_only_get_os (P : event -> bool) : emits_only P get_os.
Proof.
  intros s. exists (os s), s, []. unfold emitted. rewrite app_nil_r.
  repeat split. constructor.
Qed.

Lemma emits_only_modify_this (P : event -> bool) f :
  emits_only P (modify_this f).
Proof.
  intros s. eexists tt, _, []. unfold emitted, modify_this. cbn.
  rewrite app_nil_r. repeat split. constructor.
Qed.

Lemma emits_only_modify_os (P : event -> bool) f :
  emits_only P (modify_os f).
Proof.
  intros s. eexists tt, _, []. unfold emitted, modify_os. cbn.
  rewrite app_nil_r. repeat split. constructor.
Qed.

(** Breaks a computation down to its [emit]s. *)
Ltac emits_step :=
  match goal with
  | |- emits_only _ (mbind _ _) => apply emits_only_bind; [|intros ?]
  | |- emits_only _ (mret _) => apply emits_only_ret
  | |- emits_only _ get_this => apply emits_only_get_this
  | |- emits_only _ get_os => apply emits_only_get_os
  | |- emits_only _ (modify_this _) => apply emits_only_modify_this
  | |- emits_only _ (modify_os _) => apply emits_only_modify_os
  | |- emits_only _ (emit _) => apply emits_only_emit; reflexivity
  | |- emits_only _ (next_answer _) => unfold next_answer
  | |- emits_only _ (if ?b then _ else _) => destruct b
  | |- emits_only _ (match ?x with _ => _ end) => destruct x
  end.

Ltac emits_auto := log_unfold; repeat emits_step.

(** *** Postconditions of composed computations *)

Lemma ensures_elim {A : Type} (m : M A) (Q : A -> state -> Prop)
    (s s' : state) (a : A) :
  ensures m Q s -> m s = Some (a, s') -> Q a s'.
Proof. unfold ensures. intros H Heq. by rewrite Heq in H. Qed.

Lemma ensures_ret {A : Type} (a : A) (Q : A -> state -> Prop) (s : state) :
  Q a s -> ensures (mret a) Q s.
Proof. done. Qed.

Lemma ensures_bind {A B : Type} (m : M A) (f : A -> M B)
    (Q : B -> state -> Prop) (s : state) :
  ensures m (λ a s1, ensures (f a) Q s1) s -> ensures (m ≫= f) Q s.
Proof.
  unfold ensures, mbind, M_bind. by destruct (m s) as [[a s1]|].
Qed.

Lemma ensures_weaken {A : Type} (m : M A) (P Q : A -> state -> Prop)
    (s : state) :
  ensures m P s -> (forall a s', P a s' -> Q a s') -> ensures m Q s.
Proof.
  unfold ensures. destruct (m s) as [[a s1]|]; auto.
Qed.

Lemma ensures_get_this (Q : spoutFrameCount -> state -> Prop) (s : state) :
  Q (this s) s -> ensures get_this Q s.
Proof. done. Qed.

Lemma ensures_get_os (Q : OS -> state -> Prop) (s : state) :
  Q (os s) s -> ensures get_os Q s.
Proof. done. Qed.

Lemma ensures_modify_this f (Q : unit -> state -> Prop) (s : state) :
  Q tt {| this := f (this s); os := os s; trace := trace s |} ->
  ensures (modify_this f) Q s.
Proof. done. Qed.

Lemma ensures_modify_os f (Q : unit -> state -> Prop) (s : state) :
  Q tt {| this := this s; os := f (os s); trace := trace s |} ->
  ensures (modify_os f) Q s.
Proof. done. Qed.

Lemma ensures_emit (e : event) (Q : unit -> state -> Prop) (s : state) :
  Q tt {| this := this s; os := os s; trace := trace s ++ [e] |} ->
  ensures (emit e) Q s.
Proof. done. Qed.

Lemma ensures_abort {A : Type} (Q : A -> state -> Prop) (s : state) :
  ensures abort Q s.
Proof. done. Qed.

(** Walks through a computation, one construct at a time. *)
Ltac ensures_step :=
  match goal with
  | |- ensures (mbind _ _) _ _ => apply ensures_bind
  | |- ensures (mret _) _ _ => apply ensures_ret
  | |- ensures get_this _ _ => apply ensures_get_this
  | |- ensures get_os _ _ => apply ensures_get_os
  | |- ensures (modify_this _) _ _ => apply ensures_modify_this
  | |- ensures (modify_os _) _ _ => apply ensures_modify_os
  | |- ensures (emit _) _ _ => apply ensures_emit
  | |- ensures abort _ _ => apply ensures_abort
  | |- ensures (next_answer _) _ _ => unfold next_answer
  | |- ensures (if ?b then _ else _) _ _ => destruct b eqn:?
  | |- ensures (match ?x with _ => _ end) _ _ => destruct x eqn:?
  end; cbn [this os trace].

Ltac ensures_auto := log_unfold; repeat ensures_step.

(* ===================================================================== *)
(** ** The registry flag and the application-disabled flag *)
(* ===================================================================== *)

Section Flags.

Variable USE_CHRONO : bool.

(** [CloseHandle] touches nothing but the kernel objects. *)
Lemma CloseHandle_runs (h : HANDLE) (s : state) :
  exists objs, CloseHandle h s =
    Some (tt, {| this := this s; os := set_objects objs (os s);
                 trace := trace s |}).
Proof.
  unfold CloseHandle. munfold.
  destruct (objects (os s) !! handle_name h) as [k|] eqn:Hk.
  - destruct (close_object h k); eexists; reflexivity.
  - exists (objects (os s)). destruct s as [o [] tr]; reflexivity.
Qed.

(** [CleanupFrameCount] always returns, and leaves both flags alone. *)
Lemma CleanupFrameCount_flags (s : state) :
  exists s', CleanupFrameCount s = Some (tt, s')
    /\ m_bFrameCount (this s') = m_bFrameCount (this s)
    /\ m_bDisabled (this s') = m_bDisabled (this s)
    /\ m_hCountSemaphore (this s') = None.
Proof.
  unfold CleanupFrameCount. munfold.
  destruct (m_hCountSemaphore (this s)) as [h|] eqn:Hh.
  - log_unfold. munfold. cbn.
    destruct (CloseHandle_runs h
      {| this := this s; os := os s;
         trace := trace s ++ [EvLog Notice "SpoutFrameCount::CleanupFrameCount"] |})
      as [objs ->].
    cbn. eexists. split; [reflexivity|]. cbn. auto.
  - exists s. auto.
Qed.

Lemma SetFrameCount_true_when_set (s : state) :
  m_bFrameCount (this s) = true -> SetFrameCount true s = Some (tt, s).
Proof.
  intros H. unfold SetFrameCount. munfold. rewrite H. reflexivity.
Qed.

Lemma SetFrameCount_true_disabled (s : state) :
  exists s', SetFrameCount true s = Some (tt, s')
    /\ m_bFrameCount (this s') = true
    /\ m_bDisabled (this s') = m_bFrameCount (this s) && m_bDisabled (this s).
Proof.
  unfold SetFrameCount. munfold.
  destruct (m_bFrameCount (this s)) eqn:H; cbn.
  - exists s. auto.
  - eexists. split; [reflexivity|]. cbn. auto.
Qed.

Lemma DisableFrameCount_sets (s : state) :
  exists s', DisableFrameCount s = Some (tt, s')
    /\ m_bFrameCount (this s') = m_bFrameCount (this s)
    /\ m_bDisabled (this s') = true
    /\ m_hCountSemaphore (this s') = None.
Proof.
  unfold DisableFrameCount. munfold.
  destruct (CleanupFrameCount_flags s) as (s1 & -> & Hf & _ & Hh).
  cbn. eexists. split; [reflexivity|]. cbn. auto.
Qed.

Lemma EnableFrameCount_refused_disabled (SenderName : string) (s : state) :
  m_bFrameCount (this s) = true ->
  m_bDisabled (this s) = true ->
  EnableFrameCount USE_CHRONO SenderName s =
    Some (tt, {| this := this s; os := os s;
                 trace := trace s ++
                   [EvLog Notice
                      "SpoutFrameCount::EnableFrameCount : application disabled"] |}).
Proof.
  intros Hf Hd. unfold EnableFrameCount. munfold. rewrite Hf, Hd. reflexivity.
Qed.

(** C10. [SetFrameCount(true)] leaves the application-disabled flag as it
    is when the registry flag is already set, and clears it only when it
    sets the registry flag (first part, for any state [s0]). So, with the
    registry flag set, after [DisableFrameCount] any number of
    [SetFrameCount(true)] calls change nothing and [EnableFrameCount] is
    still refused: it only logs "application disabled". *)
Theorem SetFrameCount_true_keeps_application_disable
    (s0 s : state) (k : nat) (SenderName : string)
    (Hset : m_bFrameCount (this s) = true) :
  (exists s0', SetFrameCount true s0 = Some (tt, s0')
     /\ m_bDisabled (this s0')
        = m_bFrameCount (this s0) && m_bDisabled (this s0))
  /\ SetFrameCount true s = Some (tt, s)
  /\ exists s1, DisableFrameCount s = Some (tt, s1)
     /\ m_bDisabled (this s1) = true
     /\ repeatM k (SetFrameCount true) s1 = Some (tt, s1)
     /\ exists s2, EnableFrameCount USE_CHRONO SenderName s1 = Some (tt, s2)
        /\ this s2 = this s1 /\ os s2 = os s1
        /\ emitted s1 s2
             [EvLog Notice
                "SpoutFrameCount::EnableFrameCount : application disabled"].
Proof.
  split; [|split].
  - destruct (SetFrameCount_true_disabled s0) as (s0' & H & _ & Hd).
    exists s0'. auto.
  - by apply SetFrameCount_true_when_set.
  - destruct (DisableFrameCount_sets s) as (s1 & H1 & Hf & Hd & _).
    rewrite Hset in Hf.
    exists s1. repeat split; try assumption.
    + apply repeatM_fixed. by apply SetFrameCount_true_when_set.
    + eexists. split.
      * by apply EnableFrameCount_refused_disabled.
      * repeat split.
Qed.

End Flags.

(** The sender of "cam" after three publishes, with the registry flag set
    (and, for the first part, the fresh receiver). *)
Lemma SetFrameCount_true_keeps_application_disable_witness :
  m_bFrameCount (this demo_sender_state) = true
  /\ (exists s0', SetFrameCount true demo_fresh_state = Some (tt, s0')
        /\ m_bDisabled (this s0')
           = m_bFrameCount (this demo_fresh_state)
             && m_bDisabled (this demo_fresh_state))
  /\ SetFrameCount true demo_sender_state = Some (tt, demo_sender_state)
  /\ exists s1, DisableFrameCount demo_sender_state = Some (tt, s1)
     /\ m_bDisabled (this s1) = true
     /\ repeatM 2 (SetFrameCount true) s1 = Some (tt, s1)
     /\ exists s2, EnableFrameCount true "cam" s1 = Some (tt, s2)
        /\ this s2 = this s1 /\ os s2 = os s1
        /\ emitted s1 s2
             [EvLog Notice
                "SpoutFrameCount::EnableFrameCount : application disabled"].
Proof.
  split; [vm_compute; reflexivity|].
  apply (SetFrameCount_true_keeps_application_disable true
           demo_fresh_state demo_sender_state 2 "cam").
  vm_compute; reflexivity.
Defined.

(* ===================================================================== *)
(** ** The concrete systems are what the methods build *)
(* ===================================================================== *)

Lemma demo_object_constructed :
  new_spoutFrameCount true (demo_os ∅ 0)
  = Some (tt, {| this := demo_object; os := demo_os ∅ 0; trace := [] |}).
Proof. reflexivity. Qed.

Lemma demo_locked_state_created (answer : Z) :
  exists tr,
    CreateAccessMutex "cam"
      {| this := demo_object;
         os := demo_os {[ "cam_SpoutAccessMutex" := KMutex 1 ]} answer;
         trace := [] |}
    = Some (true, {| this := demo_locked_object;
                     os := demo_os {[ "cam_SpoutAccessMutex" := KMutex 2 ]} answer;
                     trace := tr |}).
Proof. eexists. vm_compute. reflexivity. Qed.

(* ===================================================================== *)
(** ** Access arbitration *)
(* ===================================================================== *)

Lemma IsKeyedMutex_null : IsKeyedMutex None = false.
Proof. reflexivity. Qed.

(** A wait on an open mutex handle is answered by the system. *)
Lemma WaitForSingleObject_mutex (n : string) (r : nat) (ms : Z) (s : state) :
  objects (os s) !! n = Some (KMutex r) ->
  WaitForSingleObject (Some (MutexHandle n)) ms s =
    Some (mutex_wait (os s) (calls (os s)),
          {| this := this s;
             os := set_calls (S (calls (os s))) (os s);
             trace := trace s ++ [EvWait (Some (MutexHandle n)) ms] |}).
Proof.
  intros Hobj. unfold WaitForSingleObject. munfold. cbn. rewrite Hobj.
  reflexivity.
Qed.

(** [CheckAccess] on an open mutex handle, by the answer of the wait. *)
Lemma CheckAccess_answer (n : string) (r : nat) (s : state) :
  m_hAccessMutex (this s) = Some (MutexHandle n) ->
  objects (os s) !! n = Some (KMutex r) ->
  exists s' logs,
    CheckAccess s
      = Some (mutex_wait (os s) (calls (os s)) =? WAIT_OBJECT_0, s')
    /\ this s' = this s
    /\ emitted s s' (EvWait (Some (MutexHandle n)) 67 :: logs)
    /\ Forall (λ e, named_lock_event e = false) logs
    /\ (mutex_wait (os s) (calls (os s)) = WAIT_ABANDONED ->
        logs = [EvLog Error "spoutFrameCount::CheckAccess - WAIT_ABANDONED"]).
Proof.
  intros Hh Hobj. unfold CheckAccess. munfold. rewrite Hh.
  rewrite (WaitForSingleObject_mutex n r 67 s Hobj).
  set (a := mutex_wait (os s) (calls (os s))).
  unfold WAIT_OBJECT_0, WAIT_ABANDONED, WAIT_TIMEOUT, WAIT_FAILED.
  destruct (a =? 0) eqn:E0.
  { exists {| this := this s; os := set_calls (S (calls (os s))) (os s);
              trace := trace s ++ [EvWait (Some (MutexHandle n)) 67] |}, [].
    repeat split; auto. intros ->. discriminate. }
  destruct (a =? 128) eqn:E1; [|destruct (a =? 258) eqn:E2;
    [|destruct (a =? 4294967295) eqn:E3]];
    log_unfold; munfold; cbn; eexists; eexists;
    (split; [reflexivity|]); cbn; unfold emitted; cbn;
    rewrite <- ?app_assoc; cbn;
    (split; [reflexivity|]); (split; [reflexivity|]);
    (split; [repeat constructor|]);
    intros Ha; try reflexivity; rewrite Ha in *; discriminate.
Qed.

(** [CheckKeyedAccess] on a texture that has a keyed mutex, by the answer
    of [AcquireSync]. *)
Lemma CheckKeyedAccess_answer (tex : ID3D11Texture2D) (s : state) :
  has_IDXGIKeyedMutex tex = true ->
  exists s' evs,
    CheckKeyedAccess (Some tex) s
      = Some (keyed_wait (os s) (calls (os s)) =? WAIT_OBJECT_0, s')
    /\ this s' = this s
    /\ emitted s s' (EvAcquireSync 0 67 :: evs)
    /\ Forall (λ e, named_lock_event e = false) evs
    /\ (keyed_wait (os s) (calls (os s)) = WAIT_ABANDONED ->
        evs = [EvLog Error "spoutDirectX::CheckKeyedAccess : WAIT_ABANDONED";
               EvReleaseSync 0; EvRelease]).
Proof.
  intros Hk. unfold CheckKeyedAccess. rewrite Hk.
  log_unfold. munfold. cbn.
  set (a := keyed_wait (os s) (calls (os s))).
  unfold WAIT_OBJECT_0, WAIT_ABANDONED, WAIT_TIMEOUT.
  destruct (a =? 0) eqn:E0; [|destruct (a =? 128) eqn:E1;
    [|destruct (a =? 258) eqn:E2]];
    cbn; eexists; eexists; (split; [reflexivity|]); cbn; unfold emitted; cbn;
    rewrite <- ?app_assoc; cbn;
    (split; [reflexivity|]); (split; [reflexivity|]);
    (split; [repeat constructor|]);
    intros Ha; try reflexivity; rewrite Ha in *; discriminate.
Qed.

(** C5, as stated, fails: a receiver whose wait on the access mutex of
    "cam" is answered WAIT_ABANDONED gets [false] from
    [CheckTextureAccess], not success. *)
Lemma abandoned_wait_refused_example :
  abandoned_wait None (demo_locked_state WAIT_ABANDONED)
  /\ fst <$> CheckTextureAccess None (demo_locked_state WAIT_ABANDONED)
     = Some false
  /\ fst <$> CheckTextureAccess None (demo_locked_state WAIT_ABANDONED)
     <> Some true.
Proof.
  split; [|split].
  - eapply (abandoned_named None _ "cam_SpoutAccessMutex" 2); reflexivity.
  - vm_compute. reflexivity.
  - vm_compute. discriminate.
Qed.

(** C5, amended. Whenever the wait of an acquire is answered "abandoned",
    on the named mutex or on the keyed mutex, [CheckTextureAccess] logs at
    error severity and returns [false]: the acquire is treated as failed.
    The object itself is left as it was. *)
Theorem CheckTextureAccess_abandoned_fails
    (D3D11texture : option ID3D11Texture2D) (s : state)
    (Hab : abandoned_wait D3D11texture s) :
  exists s' evs,
    CheckTextureAccess D3D11texture s = Some (false, s')
    /\ this s' = this s
    /\ emitted s s' evs
    /\ Exists (λ e, error_log e = true) evs.
Proof.
  unfold CheckTextureAccess. destruct Hab as [h r Hk Hh Hobj Ha|tex -> Hk Hi Ha].
  - rewrite Hk.
    destruct (CheckAccess_answer h r s Hh Hobj) as (s' & logs & Hrun & Ht & Hev & _ & Hlog).
    rewrite Ha in Hrun. specialize (Hlog Ha). subst logs.
    eexists s', _. repeat split; [exact Hrun|exact Ht|exact Hev|].
    apply Exists_cons_tl, Exists_cons_hd. reflexivity.
  - rewrite Hk.
    destruct (CheckKeyedAccess_answer tex s Hi) as (s' & evs & Hrun & Ht & Hev & _ & Hlog).
    rewrite Ha in Hrun. specialize (Hlog Ha). subst evs.
    eexists s', _. repeat split; [exact Hrun|exact Ht|exact Hev|].
    apply Exists_cons_tl, Exists_cons_hd. reflexivity.
Qed.

(** A receiver of "cam" whose wait on the access mutex is answered
    WAIT_ABANDONED. *)
Lemma CheckTextureAccess_abandoned_fails_witness :
  exists s' evs,
    CheckTextureAccess None (demo_locked_state WAIT_ABANDONED) = Some (false, s')
    /\ this s' = this (demo_locked_state WAIT_ABANDONED)
    /\ emitted (demo_locked_state WAIT_ABANDONED) s' evs
    /\ Exists (λ e, error_log e = true) evs.
Proof.
  apply (CheckTextureAccess_abandoned_fails None (demo_locked_state WAIT_ABANDONED)).
  eapply (abandoned_named None _ "cam_SpoutAccessMutex" 2); reflexivity.
Defined.

(** C6, as stated, fails: with a null texture and an open access mutex,
    the acquire waits on the mutex (67 ms) and, the wait timing out, returns
    [false]; the release calls [ReleaseMutex]. (Nor is a missing mutex handle
    enough: with a keyed texture the acquire still waits, on the keyed
    mutex.) *)
Lemma null_texture_still_waits_example :
  (exists s',
     CheckTextureAccess None (demo_locked_state WAIT_TIMEOUT) = Some (false, s')
     /\ emitted (demo_locked_state WAIT_TIMEOUT) s'
          [EvWait (Some (MutexHandle "cam_SpoutAccessMutex")) 67])
  /\ CheckTextureAccess None (demo_locked_state WAIT_TIMEOUT)
     <> Some (true, demo_locked_state WAIT_TIMEOUT)
  /\ AllowTextureAccess None (demo_locked_state WAIT_TIMEOUT)
     <> Some (tt, demo_locked_state WAIT_TIMEOUT)
  /\ (m_hAccessMutex demo_object = None
      /\ exists s',
           CheckTextureAccess (Some demo_keyed_texture)
             {| this := demo_object; os := demo_os ∅ WAIT_TIMEOUT; trace := [] |}
           = Some (false, s')
           /\ trace s'
              = [EvAcquireSync 0 67;
                 EvLog Error "spoutDirectX::CheckKeyedAccess : WAIT_TIMEOUT";
                 EvReleaseSync 0; EvRelease]).
Proof.
  split; [|split; [|split]].
  - eexists. split; [vm_compute; reflexivity|]. reflexivity.
  - vm_compute. discriminate.
  - vm_compute. discriminate.
  - split; [reflexivity|]. eexists. split; vm_compute; reflexivity.
Qed.

(** C6, amended. With no handle for the named access mutex, and a texture
    that is null or not keyed, acquire and release are no-ops: the acquire
    returns [true], and neither call waits, logs, or changes the object or
    the system. (A null texture alone only selects the named mutex.) *)
Theorem texture_access_without_mutex_handle
    (D3D11texture : option ID3D11Texture2D) (s : state)
    (Hnokey : IsKeyedMutex D3D11texture = false)
    (Hnull : m_hAccessMutex (this s) = None) :
  CheckTextureAccess D3D11texture s = Some (true, s)
  /\ AllowTextureAccess D3D11texture s = Some (tt, s).
Proof.
  unfold CheckTextureAccess, AllowTextureAccess, CheckAccess, AllowAccess.
  rewrite Hnokey. munfold. rewrite Hnull. split; reflexivity.
Qed.

(** A newly constructed object: no access mutex yet, null texture. *)
Lemma texture_access_without_mutex_handle_witness :
  CheckTextureAccess None
    {| this := demo_object; os := demo_os ∅ 0; trace := [] |}
  = Some (true, {| this := demo_object; os := demo_os ∅ 0; trace := [] |})
  /\ AllowTextureAccess None
       {| this := demo_object; os := demo_os ∅ 0; trace := [] |}
     = Some (tt, {| this := demo_object; os := demo_os ∅ 0; trace := [] |}).
Proof.
  apply (texture_access_without_mutex_handle None
           {| this := demo_object; os := demo_os ∅ 0; trace := [] |});
    reflexivity.
Defined.


(** *** One call touches one kind of lock *)

Lemma CheckAccess_no_keyed_event :
  emits_only (λ e, negb (keyed_lock_event e)) CheckAccess.
Proof. unfold CheckAccess, WaitForSingleObject. emits_auto. Qed.

Lemma AllowAccess_no_keyed_event :
  emits_only (λ e, negb (keyed_lock_event e)) AllowAccess.
Proof. unfold AllowAccess. emits_auto. Qed.

Lemma CheckKeyedAccess_no_named_event (pTexture : option ID3D11Texture2D) :
  emits_only (λ e, negb (named_lock_event e)) (CheckKeyedAccess pTexture).
Proof. unfold CheckKeyedAccess. emits_auto. Qed.

Lemma AllowKeyedAccess_no_named_event (pTexture : option ID3D11Texture2D) :
  emits_only (λ e, negb (named_lock_event e)) (AllowKeyedAccess pTexture).
Proof. unfold AllowKeyedAccess. emits_auto. Qed.

(** Whatever the state, a call keeps to the lock of its own texture
    argument: the capability is read from the argument of that call. *)
Lemma perform_lock_discipline (c : access_call) :
  emits_only (lock_discipline c) (perform c).
Proof.
  unfold lock_discipline.
  destruct c as [t|t]; unfold perform, CheckTextureAccess, AllowTextureAccess;
    cbn [call_texture]; destruct (IsKeyedMutex t).
  - apply emits_only_bind; [apply CheckKeyedAccess_no_named_event|].
    intros ?. apply emits_only_ret.
  - apply emits_only_bind; [apply CheckAccess_no_keyed_event|].
    intros ?. apply emits_only_ret.
  - apply AllowKeyedAccess_no_named_event.
  - apply AllowAccess_no_keyed_event.
Qed.

(** C8. For every sequence of acquire and release calls, from every state,
    the run returns, and each call emitted only events of the lock its
    texture selects: no wait or release on the named mutex for a keyed
    texture, no keyed-mutex operation for any other texture; in particular an
    acquire and the release after it on the same texture engage one strategy
    only. The selection is made from the texture argument of each call. *)
Theorem texture_access_strategies_exclusive
    (cs : list access_call) (s : state) :
  exists log s',
    perform_all cs s = Some (log, s')
    /\ log.*1 = cs
    /\ Forall (λ ce, Forall (λ e, lock_discipline ce.1 e = true) ce.2) log
    /\ emitted s s' (concat (log.*2)).
Proof.
  revert s. induction cs as [|c cs IH]; intros s.
  - exists [], s. cbn. unfold emitted. rewrite app_nil_r. repeat split.
    constructor.
  - destruct (perform_lock_discipline c s) as ([] & s1 & evs & Hrun & Hev & Hall).
    destruct (IH s1) as (log & s2 & Hrest & Hcalls & Hdisc & Hev2).
    exists ((c, evs) :: log), s2.
    cbn [perform_all]. munfold. rewrite Hrun, Hrest.
    unfold emitted in *. rewrite Hev, drop_app_length.
    split; [reflexivity|]. split; [cbn; by rewrite Hcalls|]. split.
    + constructor; assumption.
    + cbn. rewrite Hev2, Hev, app_assoc. reflexivity.
Qed.

(* ===================================================================== *)
(** ** Frame counter: enabling *)
(* ===================================================================== *)

Lemma demo_sender_state_reached :
  exists tr,
    demo_sender_run
    = Some (tt, {| this := this demo_sender_state;
                   os := os demo_sender_state; trace := tr |})
    /\ m_FrameCount (this demo_sender_state) = 3
    /\ m_hCountSemaphore (this demo_sender_state)
       = Some (SemaphoreHandle "cam_Count_Semaphore")
    /\ m_SenderName (this demo_sender_state) = "cam"
    /\ IsFrameCountEnabled demo_sender_state = Some (true, demo_sender_state).
Proof.
  eexists. split; [vm_compute; reflexivity|].
  split; [vm_compute; reflexivity|].
  split; [vm_compute; reflexivity|].
  split; vm_compute; reflexivity.
Qed.

Section Enabling.

Variable USE_CHRONO : bool.

(** The timers are reset without touching the counter, the fps estimate,
    the pacing period, any kernel object or the log. *)
Lemma reset_timers_frame (s : state) :
  exists s', reset_timers USE_CHRONO s = Some (tt, s')
    /\ counter_fields (this s') = counter_fields (this s)
    /\ fps_fields (this s') = fps_fields (this s)
    /\ m_millisForFrame (this s') = m_millisForFrame (this s)
    /\ os_untouched (os s) (os s')
    /\ trace s' = trace s.
Proof.
  unfold reset_timers, StartCounter, QueryPerformanceFrequency,
    QueryPerformanceCounter, os_untouched.
  destruct USE_CHRONO; munfold; cbn.
  - eexists. split; [reflexivity|]. cbn. by destruct (os s).
  - destruct (perf_frequency (os s)) eqn:Hf; cbn.
    + destruct (PrimFloat.ltb 0 0.0001); cbn; rewrite Hf; cbn;
        (eexists; split; [reflexivity|]); cbn; by destruct (os s).
    + eexists. split; [reflexivity|]. cbn. by destruct (os s).
Qed.

(** C7, as stated, fails: the sender of "cam" has published three frames;
    a second [EnableFrameCount("cam")] keeps the semaphore handle but sets
    the frame number back to 0. *)
Lemma EnableFrameCount_again_resets_example :
  m_FrameCount (this demo_sender_state) = 3
  /\ exists s',
       EnableFrameCount true "cam" demo_sender_state = Some (tt, s')
       /\ m_hCountSemaphore (this s') = m_hCountSemaphore (this demo_sender_state)
       /\ m_FrameCount (this s') = 0
       /\ m_FrameCount (this s') <> m_FrameCount (this demo_sender_state).
Proof.
  split; [vm_compute; reflexivity|].
  eexists. split; [vm_compute; reflexivity|].
  split; [vm_compute; reflexivity|].
  split; [vm_compute; reflexivity|].
  vm_compute. discriminate.
Qed.

(** C7, amended. [EnableFrameCount(name)] on a channel already enabled for
    the identical name keeps the semaphore handle, the names, the gates and
    the new-frame flag, touches no kernel object and only logs "already
    enabled"; but, like a first enable, it sets the frame number and the
    comparator to 0, the fps estimate to the refresh rate, and the timing
    accumulators and the pacing period to 0. *)
Theorem EnableFrameCount_same_name
    (SenderName : string) (h : HANDLE) (s : state)
    (Hset : m_bFrameCount (this s) = true)
    (Happ : m_bDisabled (this s) = false)
    (Hname : SenderName <> "")
    (Hhandle : m_hCountSemaphore (this s) = Some h)
    (Hsame : m_SenderName (this s) = SenderName) :
  exists s',
    EnableFrameCount USE_CHRONO SenderName s = Some (tt, s')
    /\ channel_fields (this s') = channel_fields (this s)
    /\ os_untouched (os s) (os s')
    /\ emitted s s'
         [EvLog Notice "SpoutFrameCount::EnableFrameCount already enabled [%s]"]
    /\ m_FrameCount (this s') = 0
    /\ m_LastFrameCount (this s') = 0
    /\ fps_fields (this s')
       = (0%float, 0%float,
          fold_left (λ _ f, double_of_Z f) (display_modes (os s)) 60%float)
    /\ m_millisForFrame (this s') = 0%float.
Proof.
  unfold EnableFrameCount. munfold. rewrite Hset, Happ. cbn.
  assert (String.eqb SenderName "" = false) as -> by by apply String.eqb_neq.
  unfold GetRefreshRate. munfold. cbn.
  match goal with
  | |- context [reset_timers USE_CHRONO ?s0] =>
      destruct (reset_timers_frame s0) as (s1 & -> & Hc & Hf & Hm & Hos & Htr)
  end.
  cbn in Hc, Hf, Hm, Hos, Htr.
  unfold counter_fields, fps_fields in Hc, Hf. cbn in Hc, Hf.
  injection Hc as Hc1 Hc2 Hc3 Hc4 Hc5 Hc6 Hc7 Hc8 Hc9.
  rewrite Hc2, Hhandle, Hc3, Hsame, String.eqb_refl. cbn.
  log_unfold. munfold. eexists. split; [reflexivity|]. cbn.
  unfold channel_fields, emitted, fps_fields. cbn.
  rewrite Hc1, Hc2, Hc3, Hc4, Hc5, Hc6, Hc7, Hc8, Hc9, Hf, Hm, Htr.
  rewrite Hhandle, Hsame. repeat split. exact Hos.
Qed.

End Enabling.

(** The sender of "cam" after three publishes enables "cam" again. *)
Lemma EnableFrameCount_same_name_witness :
  exists s',
    EnableFrameCount true "cam" demo_sender_state = Some (tt, s')
    /\ channel_fields (this s') = channel_fields (this demo_sender_state)
    /\ os_untouched (os demo_sender_state) (os s')
    /\ emitted demo_sender_state s'
         [EvLog Notice "SpoutFrameCount::EnableFrameCount already enabled [%s]"]
    /\ m_FrameCount (this s') = 0
    /\ m_LastFrameCount (this s') = 0
    /\ fps_fields (this s')
       = (0%float, 0%float,
          fold_left (λ _ f, double_of_Z f)
            (display_modes (os demo_sender_state)) 60%float)
    /\ m_millisForFrame (this s') = 0%float.
Proof.
  apply (EnableFrameCount_same_name true "cam"
           (SemaphoreHandle "cam_Count_Semaphore")
           demo_sender_state).
  - vm_compute; reflexivity.
  - vm_compute; reflexivity.
  - discriminate.
  - vm_compute; reflexivity.
  - vm_compute; reflexivity.
Defined.

(* ===================================================================== *)
(** ** Pacing *)
(* ===================================================================== *)

Lemma demo_paced_state_reached :
  exists tr,
    demo_paced_run
    = Some (tt, {| this := this demo_paced_state;
                   os := os demo_paced_state; trace := tr |}).
Proof. eexists. vm_compute. reflexivity. Qed.

(** C9, as stated, fails: after a first [HoldFps(60)], a call
    [HoldFps(30)] made 20 ms later is not a first call and 20 ms is less
    than the period of 30 fps (1000/30 ms), yet the call does not sleep: it
    compares with the period stored by the first call (1000/60 ms). *)
Lemma HoldFps_other_rate_no_sleep_example :
  first_hold true (this demo_paced_state) = false
  /\ (exists s1, pacing_clock true demo_paced_state = Some (inl 20000000, s1))
  /\ pacing_elapsed (this demo_paced_state) (inl 20000000) = 20%float
  /\ (20 <? 1000 / double_of_Z 30)%float = true
  /\ exists s',
       HoldFps true 30 demo_paced_state = Some (tt, s')
       /\ emitted demo_paced_state s' []
       /\ m_millisForFrame (this s') = (1000 / double_of_Z 60)%float.
Proof.
  split; [vm_compute; reflexivity|].
  split; [eexists; vm_compute; reflexivity|].
  split; [vm_compute; reflexivity|].
  split; [vm_compute; reflexivity|].
  eexists. split; [vm_compute; reflexivity|].
  split; vm_compute; reflexivity.
Qed.

Section Pacing.

Variable USE_CHRONO : bool.

(** C9, amended. [HoldFps(fps)] with [fps <= 0] changes nothing. A first
    effective call (no period stored) stores the period [1000/fps] ms and
    the clock reading, logs, and does not sleep. Any later call with
    [fps > 0] reads the clock, and sleeps exactly when the time elapsed since
    the stored timestamp is less than the stored period (that of the first
    call, whatever [fps] is now), for the whole milliseconds of the
    remainder; it then stores a fresh clock reading as the new timestamp.
    The counter and the fps estimate are not touched. *)
Theorem HoldFps_paces (fps : Z) (s : state) :
  (fps <= 0 -> HoldFps USE_CHRONO fps s = Some (tt, s))
  /\ (0 < fps -> first_hold USE_CHRONO (this s) = true ->
      exists r s1 s',
        pacing_clock USE_CHRONO s = Some (r, s1)
        /\ HoldFps USE_CHRONO fps s = Some (tt, s')
        /\ os s' = os s1
        /\ m_millisForFrame (this s') = (1000 / double_of_Z fps)%float
        /\ pacing_baseline USE_CHRONO (this s') = r
        /\ emitted s s' [EvLog Notice "spoutFrameCount::HoldFps(%d)"]
        /\ counter_fields (this s') = counter_fields (this s)
        /\ fps_fields (this s') = fps_fields (this s))
  /\ (0 < fps -> first_hold USE_CHRONO (this s) = false ->
      exists r1 s1 r2 s2 s',
        pacing_clock USE_CHRONO s = Some (r1, s1)
        /\ pacing_clock USE_CHRONO s1 = Some (r2, s2)
        /\ HoldFps USE_CHRONO fps s = Some (tt, s')
        /\ os s' = os s2
        /\ m_millisForFrame (this s') = m_millisForFrame (this s)
        /\ pacing_baseline USE_CHRONO (this s') = r2
        /\ emitted s s'
             (let elapsedTime := pacing_elapsed (this s) r1 in
              if (elapsedTime <? m_millisForFrame (this s))%float
              then [EvSleep (pacing_sleep USE_CHRONO
                               (m_millisForFrame (this s) - elapsedTime)%float)]
              else [])
        /\ counter_fields (this s') = counter_fields (this s)
        /\ fps_fields (this s') = fps_fields (this s)).
Proof.
  unfold HoldFps, first_hold, pacing_clock, pacing_baseline, pacing_sleep,
    GetCounter, QueryPerformanceCounter, steady_clock_now.
  split; [|split].
  - intros Hle. apply Z.leb_le in Hle. rewrite Hle. reflexivity.
  - intros Hpos Hfirst. apply Z.leb_gt in Hpos. rewrite Hpos.
    log_unfold. munfold.
    destruct USE_CHRONO; rewrite Hfirst; cbn.
    + do 3 eexists. split; [reflexivity|]. split; [reflexivity|].
      cbn. unfold emitted. by repeat split.
    + destruct (perf_frequency (os s)); cbn;
        (do 3 eexists; split; [reflexivity|]; split; [reflexivity|];
         cbn; unfold emitted; by repeat split).
  - intros Hpos Hlater. apply Z.leb_gt in Hpos. rewrite Hpos.
    log_unfold. munfold.
    destruct USE_CHRONO; rewrite Hlater; cbn.
    + match goal with
      | |- context [if ?c then _ else _] => destruct c eqn:E
      end; cbn;
        (do 5 eexists; split; [reflexivity|]; split; [reflexivity|];
         split; [reflexivity|]; cbn; unfold emitted; cbn;
         rewrite ?E, ?app_nil_r; by repeat split).
    + destruct (perf_frequency (os s)) eqn:Hf; cbn; rewrite ?Hf; cbn;
        match goal with
        | |- context [if ?c then _ else _] => destruct c eqn:E
        end; cbn; rewrite ?Hf; cbn;
        (do 5 eexists; split; [reflexivity|]; cbn; rewrite ?Hf; cbn;
         split; [reflexivity|];
         split; [reflexivity|]; cbn; unfold emitted; cbn;
         rewrite ?E, ?app_nil_r; by repeat split).
Qed.

End Pacing.

(** A call with rate 0, a first call at 60 fps, and the call after it. *)
Lemma HoldFps_paces_witness :
  HoldFps true 0 demo_paced_state = Some (tt, demo_paced_state)
  /\ (exists r s1 s',
        pacing_clock true {| this := demo_object; os := demo_os ∅ 0; trace := [] |}
          = Some (r, s1)
        /\ HoldFps true 60 {| this := demo_object; os := demo_os ∅ 0; trace := [] |}
           = Some (tt, s')
        /\ m_millisForFrame (this s') = (1000 / double_of_Z 60)%float
        /\ pacing_baseline true (this s') = r)
  /\ (exists r1 s1 s',
        pacing_clock true demo_paced_state = Some (r1, s1)
        /\ HoldFps true 60 demo_paced_state = Some (tt, s')
        /\ emitted demo_paced_state s'
             (let elapsedTime := pacing_elapsed (this demo_paced_state) r1 in
              if (elapsedTime <? m_millisForFrame (this demo_paced_state))%float
              then [EvSleep (pacing_sleep true
                      (m_millisForFrame (this demo_paced_state) - elapsedTime)%float)]
              else [])).
Proof.
  split; [|split].
  - apply (HoldFps_paces true 0 demo_paced_state). lia.
  - destruct (HoldFps_paces true 60
                {| this := demo_object; os := demo_os ∅ 0; trace := [] |})
      as (_ & H & _).
    destruct H as (r & s1 & s' & H1 & H2 & _ & H4 & H5 & _);
      [lia|vm_compute; reflexivity|].
    exists r, s1, s'. auto.
  - destruct (HoldFps_paces true 60 demo_paced_state) as (_ & _ & H).
    destruct H as (r1 & s1 & r2 & s2 & s' & H1 & _ & H3 & _ & _ & _ & H7 & _);
      [lia|vm_compute; reflexivity|].
    exists r1, s1, s'. auto.
Defined.

Example HoldFps_30_sleeps_13 :
  exists s1 s2,
    run (constructor true;; HoldFps true 30) zeroed (demo_os ∅ 0) = Some (tt, s1)
    /\ HoldFps true 30 s1 = Some (tt, s2)
    /\ trace s2 = trace s1 ++ [EvSleep 13].
Proof.
  do 2 eexists. split; [vm_compute; reflexivity|].
  split; vm_compute; reflexivity.
Qed.

(* ===================================================================== *)
(** ** Frame counter: publish and poll *)
(* ===================================================================== *)

Lemma demo_fresh_state_reached :
  exists tr,
    run (constructor true;; EnableFrameCount true "cam") zeroed (demo_os ∅ 0)
    = Some (tt, {| this := this demo_fresh_state;
                   os := os demo_fresh_state; trace := tr |}).
Proof. eexists. vm_compute. reflexivity. Qed.

Lemma os_untouched_refl (w : OS) : os_untouched w w.
Proof. unfold os_untouched. by destruct w. Qed.

Lemma os_untouched_set_calls (w w' : OS) (n : nat) :
  os_untouched w w' -> os_untouched w (set_calls n w').
Proof. unfold os_untouched. intros ->. by destruct w. Qed.

Lemma os_untouched_objects (w w' : OS) :
  os_untouched w w' -> objects w' = objects w.
Proof. unfold os_untouched. intros ->. reflexivity. Qed.

Section Counter.

Variable USE_CHRONO : bool.

(** The fps estimate is updated without touching the counter, the pacing
    period, any kernel object or the log. *)
Lemma UpdateSenderFps_frame (framecount : Z) (s : state) :
  exists s', UpdateSenderFps USE_CHRONO framecount s = Some (tt, s')
    /\ counter_fields (this s') = counter_fields (this s)
    /\ m_millisForFrame (this s') = m_millisForFrame (this s)
    /\ os_untouched (os s) (os s')
    /\ trace s' = trace s.
Proof.
  unfold UpdateSenderFps, GetCounter, QueryPerformanceCounter, steady_clock_now.
  destruct (0 <? framecount).
  2:{ exists s. repeat split. apply os_untouched_refl. }
  destruct USE_CHRONO; munfold; cbn.
  - repeat match goal with
           | |- context [if ?c then _ else _] => destruct c
           end; cbn;
      (eexists; split; [reflexivity|]); cbn; repeat split;
      unfold os_untouched; by destruct (os s).
  - destruct (perf_frequency (os s)); cbn;
      repeat match goal with
             | |- context [if ?c then _ else _] => destruct c
             end; cbn;
      (eexists; split; [reflexivity|]); cbn; repeat split;
      unfold os_untouched; by destruct (os s).
Qed.

End Counter.

Opaque UpdateSenderFps.

Lemma wrap_long_id (z : Z) : LONG_MIN <= z <= LONG_MAX -> wrap_long z = z.
Proof.
  unfold wrap_long, LONG_MIN, LONG_MAX. intros H.
  rewrite Z.mod_small; lia.
Qed.

Lemma wrap_long_succ_neq (z : Z) : wrap_long (z + 1) <> z.
Proof.
  unfold wrap_long, LONG_MIN. intros Heq.
  pose proof (Z.div_mod (z + 1 - -2147483648) 4294967296 ltac:(lia)).
  pose proof (Z.mod_pos_bound (z + 1 - -2147483648) 4294967296 ltac:(lia)).
  lia.
Qed.

Lemma set_objects_id (w : OS) : set_objects (objects w) w = w.
Proof. by destruct w. Qed.

Lemma set_objects_twice (a b : gmap string kobj) (w : OS) :
  set_objects a (set_objects b w) = set_objects a w.
Proof. reflexivity. Qed.

Section Polling.

Variable USE_CHRONO : bool.

(** The peek on a live semaphore: the count goes down and up again (or
    the wait times out on a zero count), the kernel object is as before, and
    the value captured is the count between the two steps. *)
Lemma GetNewFrame_peek_semaphore (h : string) (c : Z) (r : nat) (s : state) :
  objects (os s) !! h = Some (KSemaphore c r) ->
  0 <= c <= LONG_MAX ->
  GetNewFrame_peek (Some (SemaphoreHandle h)) s
  = Some (Some (Z.max 0 (c - 1)),
          {| this := this s; os := os s;
             trace := trace s ++ [EvWait (Some (SemaphoreHandle h)) 0] |}).
Proof.
  intros Hobj Hc. unfold GetNewFrame_peek, WaitForSingleObject, ReleaseSemaphore.
  munfold. cbn. rewrite Hobj.
  destruct (0 <? c) eqn:Hpos; cbn.
  - apply Z.ltb_lt in Hpos. rewrite lookup_insert_eq. cbn.
    assert ((c - 1 + 1 <=? LONG_MAX) = true) as -> by (apply Z.leb_le; lia).
    cbn. rewrite insert_insert_eq.
    replace (c - 1 + 1) with c by lia.
    rewrite (insert_id _ _ _ Hobj), set_objects_twice, set_objects_id.
    replace (Z.max 0 (c - 1)) with (c - 1) by lia. reflexivity.
  - apply Z.ltb_ge in Hpos. replace (Z.max 0 (c - 1)) with 0 by lia.
    reflexivity.
Qed.

(** The comparison of [GetNewFrame], for any observed value. *)
Lemma GetNewFrame_compare_spec (observed : Z) (s : state) :
  exists s',
    GetNewFrame_compare USE_CHRONO observed s
    = Some (negb (observed =? m_LastFrameCount (this s)) || (observed =? 0), s')
    /\ m_FrameCount (this s') = observed
    /\ channel_fields (set_m_bIsNewFrame false (this s'))
       = channel_fields (set_m_bIsNewFrame false (this s))
    /\ os_untouched (os s) (os s')
    /\ trace s' = trace s
    /\ (observed <> 0 ->
        m_bIsNewFrame (this s') = negb (observed =? m_LastFrameCount (this s))
        /\ m_LastFrameCount (this s') = observed)
    /\ (observed = 0 ->
        m_bIsNewFrame (this s') = m_bIsNewFrame (this s)
        /\ m_LastFrameCount (this s') = m_LastFrameCount (this s)).
Proof.
  unfold GetNewFrame_compare. munfold. cbn.
  destruct (observed =? 0) eqn:H0.
  - apply Z.eqb_eq in H0. rewrite orb_true_r.
    eexists. split; [reflexivity|]. cbn.
    repeat split; try done. apply os_untouched_refl.
  - apply Z.eqb_neq in H0. rewrite orb_false_r.
    destruct (observed =? m_LastFrameCount (this s)) eqn:Hl; cbn;
      rewrite ?Hl; cbn.
    + apply Z.eqb_eq in Hl.
      eexists. split; [reflexivity|]. cbn.
      repeat split; try done. apply os_untouched_refl.
    + match goal with
      | |- context [UpdateSenderFps USE_CHRONO ?k ?s0] =>
          destruct (UpdateSenderFps_frame USE_CHRONO k s0)
            as (s1 & -> & Hc & _ & Hos & Htr)
      end.
      cbn in Hc, Hos, Htr. unfold counter_fields in Hc. cbn in Hc.
      injection Hc as Hc1 Hc2 Hc3 Hc4 Hc5 Hc6 Hc7 Hc8 Hc9.
      eexists. split; [reflexivity|]. cbn. unfold channel_fields. cbn.
      rewrite Hc1, Hc2, Hc3, Hc4, Hc8, Hc9.
      repeat split; try done.
Qed.

(** [GetNewFrame] once the gates are passed and a handle is there. *)
Lemma GetNewFrame_reaches_peek (h : HANDLE) (s : state) :
  channel_enabled (this s) ->
  m_hCountSemaphore (this s) = Some h ->
  GetNewFrame USE_CHRONO s
  = (peek ← GetNewFrame_peek (Some h);
     match (peek : option Z) with
     | None => mret true
     | Some framecount => GetNewFrame_compare USE_CHRONO framecount
     end) s.
Proof.
  intros [Hf Hd] Hh. unfold GetNewFrame. munfold. rewrite Hf, Hd, Hh.
  reflexivity.
Qed.

End Polling.

(** The peek works on the kernel object only. *)
Lemma GetNewFrame_peek_this (h : option HANDLE) (s s1 : state) (r : option Z) :
  GetNewFrame_peek h s = Some (r, s1) -> this s1 = this s.
Proof.
  intros Hrun.
  apply (ensures_elim (GetNewFrame_peek h) (λ _ s', this s' = this s) s s1 r);
    [|exact Hrun].
  unfold GetNewFrame_peek, WaitForSingleObject, ReleaseSemaphore.
  ensures_auto; reflexivity.
Qed.

(** C2, as stated, fails: the first poll of a receiver on a channel that
    has never been published to observes 0 and returns [true], but
    [IsFrameNew()] still answers [false], where the stated formula
    ((observed != lastObserved) || observed == 0) gives [true]. *)
Lemma IsFrameNew_stale_on_zero_example :
  channel_enabled (this demo_fresh_state)
  /\ m_LastFrameCount (this demo_fresh_state) = 0
  /\ (exists s1,
        GetNewFrame_peek (Some (SemaphoreHandle "cam_Count_Semaphore"))
          demo_fresh_state
        = Some (Some 0, s1))
  /\ exists s' s'',
       GetNewFrame true demo_fresh_state = Some (true, s')
       /\ IsFrameNew s' = Some (false, s'')
       /\ negb (0 =? m_LastFrameCount (this demo_fresh_state)) || (0 =? 0) = true.
Proof.
  split; [split; vm_compute; reflexivity|].
  split; [vm_compute; reflexivity|].
  split; [eexists; vm_compute; reflexivity|].
  do 2 eexists. split; [vm_compute; reflexivity|].
  split; vm_compute; reflexivity.
Qed.

Section NewFrame.

Variable USE_CHRONO : bool.

(** C2, amended. A poll that reaches the peek and observes a value returns
    (observed != lastObserved) || (observed == 0) and records the observed
    value as the frame number. When the observed value is not 0, the flag
    answered by [IsFrameNew()] becomes (observed != lastObserved) and
    lastObserved becomes the observed value. When it is 0, the flag and
    lastObserved are left as they were. *)
Theorem GetNewFrame_sets_new_frame_flag
    (h : HANDLE) (observed : Z) (s s1 : state)
    (Hen : channel_enabled (this s))
    (Hh : m_hCountSemaphore (this s) = Some h)
    (Hpeek : GetNewFrame_peek (Some h) s = Some (Some observed, s1)) :
  exists s',
    GetNewFrame USE_CHRONO s
    = Some (negb (observed =? m_LastFrameCount (this s)) || (observed =? 0), s')
    /\ GetSenderFrame s' = Some (observed, s')
    /\ (observed <> 0 ->
        IsFrameNew s'
        = Some (negb (observed =? m_LastFrameCount (this s)), s')
        /\ m_LastFrameCount (this s') = observed)
    /\ (observed = 0 ->
        IsFrameNew s' = Some (m_bIsNewFrame (this s), s')
        /\ m_LastFrameCount (this s') = m_LastFrameCount (this s)).
Proof.
  rewrite (GetNewFrame_reaches_peek USE_CHRONO h s Hen Hh).
  unfold mbind, M_bind. rewrite Hpeek.
  pose proof (GetNewFrame_peek_this _ _ _ _ Hpeek) as Hthis.
  destruct (GetNewFrame_compare_spec USE_CHRONO observed s1)
    as (s' & Hrun & Hfc & _ & _ & _ & Hnz & Hz).
  rewrite Hthis in Hrun, Hnz, Hz.
  exists s'. split; [exact Hrun|].
  unfold GetSenderFrame, IsFrameNew. munfold.
  split; [by rewrite Hfc|]. split.
  - intros Hne. destruct (Hnz Hne) as [-> ->]. done.
  - intros He. destruct (Hz He) as [-> ->]. done.
Qed.

End NewFrame.

(** A poll that observes 3 with 0 recorded as the last observation. *)
Lemma GetNewFrame_sets_new_frame_flag_witness :
  exists s',
    GetNewFrame true demo_sender_state
    = Some (negb (3 =? m_LastFrameCount (this demo_sender_state)) || (3 =? 0), s')
    /\ GetSenderFrame s' = Some (3, s')
    /\ (3 <> 0 ->
        IsFrameNew s'
        = Some (negb (3 =? m_LastFrameCount (this demo_sender_state)), s')
        /\ m_LastFrameCount (this s') = 3)
    /\ (3 = 0 ->
        IsFrameNew s' = Some (m_bIsNewFrame (this demo_sender_state), s')
        /\ m_LastFrameCount (this s') = m_LastFrameCount (this demo_sender_state)).
Proof.
  eapply (GetNewFrame_sets_new_frame_flag true
            (SemaphoreHandle "cam_Count_Semaphore") 3
            demo_sender_state).
  - split; vm_compute; reflexivity.
  - vm_compute; reflexivity.
  - vm_compute; reflexivity.
Defined.

(** C4, as stated, fails: on a channel that has never been published to,
    two consecutive polls both return [true]. *)
Lemma two_polls_before_any_publish_example :
  exists s1 s2,
    GetNewFrame true demo_fresh_state = Some (true, s1)
    /\ GetNewFrame true s1 = Some (true, s2)
    /\ GetNewFrame true s1 <> Some (false, s2).
Proof.
  do 2 eexists. split; [vm_compute; reflexivity|].
  split; [vm_compute; reflexivity|].
  vm_compute. discriminate.
Qed.

Section TwoPolls.

Variable USE_CHRONO : bool.

(** A poll on a live semaphore, in one step. *)
Lemma GetNewFrame_semaphore (h : string) (c : Z) (r : nat) (s : state) :
  channel_enabled (this s) ->
  m_hCountSemaphore (this s) = Some (SemaphoreHandle h) ->
  objects (os s) !! h = Some (KSemaphore c r) ->
  0 <= c <= LONG_MAX ->
  exists s',
    GetNewFrame USE_CHRONO s
    = Some (negb (Z.max 0 (c - 1) =? m_LastFrameCount (this s))
            || (Z.max 0 (c - 1) =? 0), s')
    /\ m_FrameCount (this s') = Z.max 0 (c - 1)
    /\ channel_enabled (this s')
    /\ m_hCountSemaphore (this s') = Some (SemaphoreHandle h)
    /\ objects (os s') = objects (os s)
    /\ (Z.max 0 (c - 1) <> 0 -> m_LastFrameCount (this s') = Z.max 0 (c - 1))
    /\ (Z.max 0 (c - 1) = 0 ->
        m_LastFrameCount (this s') = m_LastFrameCount (this s)).
Proof.
  intros Hen Hh Hobj Hc.
  rewrite (GetNewFrame_reaches_peek USE_CHRONO (SemaphoreHandle h) s Hen Hh).
  unfold mbind, M_bind.
  rewrite (GetNewFrame_peek_semaphore h c r s Hobj Hc).
  match goal with
  | |- context [GetNewFrame_compare USE_CHRONO ?o ?s0] =>
      destruct (GetNewFrame_compare_spec USE_CHRONO o s0)
        as (s' & Hrun & Hfc & Hch & Hos & _ & Hnz & Hz)
  end.
  cbn in Hrun, Hch, Hos, Hnz, Hz.
  exists s'. split; [exact Hrun|]. split; [exact Hfc|].
  unfold channel_fields in Hch. cbn in Hch.
  injection Hch as _ Hc2 _ _ Hc6 Hc7.
  destruct Hen as [Hf Hd]. unfold channel_enabled.
  rewrite Hc2, Hc6, Hc7.
  split; [by split|]. split; [exact Hh|].
  split; [by apply os_untouched_objects|].
  split.
  - intros Hne. by destruct (Hnz Hne).
  - intros He. by destruct (Hz He).
Qed.

(** C4, amended. On an enabled channel whose semaphore shows at least one
    publish (count above 1) and an observed value different from the last one
    the object recorded, two consecutive polls with nothing in between
    return [true] and then [false]. *)
Theorem two_polls_after_new_frame
    (h : string) (c : Z) (r : nat) (s : state)
    (Hen : channel_enabled (this s))
    (Hh : m_hCountSemaphore (this s) = Some (SemaphoreHandle h))
    (Hobj : objects (os s) !! h = Some (KSemaphore c r))
    (Hc : 1 < c <= LONG_MAX)
    (Hnew : c - 1 <> m_LastFrameCount (this s)) :
  exists s1 s2,
    GetNewFrame USE_CHRONO s = Some (true, s1)
    /\ GetNewFrame USE_CHRONO s1 = Some (false, s2).
Proof.
  assert (Hmax : Z.max 0 (c - 1) = c - 1) by lia.
  destruct (GetNewFrame_semaphore h c r s Hen Hh Hobj ltac:(lia))
    as (s1 & Hrun1 & _ & Hen1 & Hh1 & Hobj1 & Hlast1 & _).
  rewrite Hmax in Hrun1, Hlast1.
  assert (Hobj' : objects (os s1) !! h = Some (KSemaphore c r))
    by by rewrite Hobj1.
  destruct (GetNewFrame_semaphore h c r s1 Hen1 Hh1 Hobj' ltac:(lia))
    as (s2 & Hrun2 & _).
  rewrite Hmax, Hlast1 in Hrun2 by lia.
  exists s1, s2. split.
  - rewrite Hrun1. f_equal. f_equal.
    apply Z.eqb_neq in Hnew. rewrite Hnew. reflexivity.
  - rewrite Hrun2. f_equal. f_equal.
    rewrite Z.eqb_refl. cbn. apply Z.eqb_neq. lia.
Qed.

End TwoPolls.

(** Two polls after three publishes (semaphore at 4, last observation 0). *)
Lemma two_polls_after_new_frame_witness :
  exists s1 s2,
    GetNewFrame true demo_sender_state = Some (true, s1)
    /\ GetNewFrame true s1 = Some (false, s2).
Proof.
  apply (two_polls_after_new_frame true "cam_Count_Semaphore" 4 1
           demo_sender_state).
  - split; vm_compute; reflexivity.
  - vm_compute; reflexivity.
  - vm_compute; reflexivity.
  - unfold LONG_MAX. lia.
  - vm_compute. discriminate.
Defined.

Section Publishing.

Variable USE_CHRONO : bool.

(** A publish on a live semaphore. When the count is positive and the
    release of 2 fits under the maximum, the count goes up by one and so does
    the frame number; in every other case the frame number stays. *)
Lemma SetNewFrame_semaphore (h : string) (c : Z) (r : nat) (s : state) :
  channel_enabled (this s) ->
  m_hCountSemaphore (this s) = Some (SemaphoreHandle h) ->
  objects (os s) !! h = Some (KSemaphore c r) ->
  exists s',
    SetNewFrame USE_CHRONO s = Some (tt, s')
    /\ channel_enabled (this s')
    /\ m_hCountSemaphore (this s') = Some (SemaphoreHandle h)
    /\ m_LastFrameCount (this s') = m_LastFrameCount (this s)
    /\ if (0 <? c) && (c + 1 <=? LONG_MAX)
       then m_FrameCount (this s') = wrap_long (m_FrameCount (this s) + 1)
            /\ objects (os s') = <[h := KSemaphore (c + 1) r]> (objects (os s))
       else m_FrameCount (this s') = m_FrameCount (this s).
Proof.
  intros [Hf Hd] Hh Hobj.
  unfold SetNewFrame, WaitForSingleObject, ReleaseSemaphore, channel_enabled.
  log_unfold. munfold. rewrite Hf, Hd, Hh. cbn. rewrite Hobj.
  destruct (0 <? c) eqn:Hpos; cbn.
  - rewrite lookup_insert_eq. cbn.
    replace (c - 1 + 2) with (c + 1) by lia.
    destruct (c + 1 <=? LONG_MAX) eqn:Hmax; cbn.
    + match goal with
      | |- context [UpdateSenderFps USE_CHRONO ?k ?s0] =>
          destruct (UpdateSenderFps_frame USE_CHRONO k s0)
            as (s1 & -> & Hc & _ & Hos & _)
      end.
      cbn in Hc, Hos. unfold counter_fields in Hc. cbn in Hc.
      injection Hc as Hc1 Hc2 Hc3 Hc4 Hc5 Hc6 Hc7 Hc8 Hc9.
      exists s1. split; [reflexivity|].
      rewrite Hc2, Hc5, Hc6, Hc8, Hc9, Hh.
      repeat split; try done.
      rewrite (os_untouched_objects _ _ Hos). cbn.
      by rewrite insert_insert_eq.
    + eexists. split; [reflexivity|]. cbn. by rewrite Hh.
  - eexists. split; [reflexivity|]. cbn. by rewrite Hh.
Qed.

(** Counts along successful publishes: from a semaphore at [c] with the
    frame number at [c - 1], [n] successful publishes lead to [c + n] and
    [c - 1 + n], and the count has stayed within the maximum. *)
Lemma published_counts (h : string) (r : nat) (n : nat) (s s' : state) :
  published USE_CHRONO n s s' ->
  forall c : Z,
    channel_enabled (this s) ->
    m_hCountSemaphore (this s) = Some (SemaphoreHandle h) ->
    objects (os s) !! h = Some (KSemaphore c r) ->
    0 < c <= LONG_MAX ->
    m_FrameCount (this s) = c - 1 ->
    channel_enabled (this s')
    /\ m_hCountSemaphore (this s') = Some (SemaphoreHandle h)
    /\ objects (os s') !! h = Some (KSemaphore (c + Z.of_nat n) r)
    /\ c + Z.of_nat n <= LONG_MAX
    /\ m_FrameCount (this s') = c - 1 + Z.of_nat n
    /\ m_LastFrameCount (this s') = m_LastFrameCount (this s).
Proof.
  induction 1 as [s|n s s1 s' Hrun Hinc Hrest IH]; intros c Hen Hh Hobj Hc Hfc.
  - rewrite Z.add_0_r. repeat split; try done; try apply Hen. lia. lia.
  - destruct (SetNewFrame_semaphore h c r s Hen Hh Hobj)
      as (s1' & Hrun' & Hen1 & Hh1 & Hl1 & Hcase).
    rewrite Hrun in Hrun'. injection Hrun' as <-.
    destruct ((0 <? c) && (c + 1 <=? LONG_MAX)) eqn:Hok; [|congruence].
    apply andb_true_iff in Hok as [_ Hmax]. apply Z.leb_le in Hmax.
    destruct Hcase as [Hfc1 Hobj1].
    rewrite Hfc, wrap_long_id in Hfc1 by (unfold LONG_MIN, LONG_MAX in *; lia).
    destruct (IH (c + 1) Hen1 Hh1) as (He & Hh' & Ho & Hm & Hf & Hl).
    + rewrite Hobj1. apply lookup_insert_eq.
    + lia.
    + lia.
    + repeat split; try apply He; try done.
      * rewrite Ho. do 2 f_equal. lia.
      * lia.
      * lia.
      * congruence.
Qed.

(** From a semaphore at [c], any [n] publishes that fit under the maximum
    succeed. *)
Lemma publishes_succeed (h : string) (r : nat) (n : nat) :
  forall (c : Z) (s : state),
    channel_enabled (this s) ->
    m_hCountSemaphore (this s) = Some (SemaphoreHandle h) ->
    objects (os s) !! h = Some (KSemaphore c r) ->
    0 < c ->
    c + Z.of_nat n <= LONG_MAX ->
    exists s', published USE_CHRONO n s s'.
Proof.
  induction n as [|n IH]; intros c s Hen Hh Hobj Hc Hmax.
  - exists s. constructor.
  - destruct (SetNewFrame_semaphore h c r s Hen Hh Hobj)
      as (s1 & Hrun & Hen1 & Hh1 & _ & Hcase).
    assert (Hok : (0 <? c) && (c + 1 <=? LONG_MAX) = true).
    { apply andb_true_iff. split; [apply Z.ltb_lt|apply Z.leb_le]; lia. }
    rewrite Hok in Hcase. destruct Hcase as [Hfc Hobj1].
    destruct (IH (c + 1) s1 Hen1 Hh1) as (s' & Hpub).
    + rewrite Hobj1. apply lookup_insert_eq.
    + lia.
    + lia.
    + exists s'. econstructor; [exact Hrun| |exact Hpub].
      rewrite Hfc. apply wrap_long_succ_neq.
Qed.

(** C1. On a fresh enabled channel (semaphore just created, count 1,
    producer frame number 0), after [N] successful [SetNewFrame()] calls with
    no poll in between, the producer's frame number is [N]; the semaphore
    holds [1 + N]; and a consumer on the same semaphore captures [N] in the
    peek of its poll, which it records as its frame number. *)
Theorem publishes_then_poll_observe_N
    (N : nat) (h : string) (r : nat)
    (producer consumer : spoutFrameCount) (w : OS) (s' : state)
    (Hen : channel_enabled producer)
    (Hh : m_hCountSemaphore producer = Some (SemaphoreHandle h))
    (Hzero : m_FrameCount producer = 0)
    (Hfresh : objects w !! h = Some (KSemaphore 1 r))
    (Hpub : published USE_CHRONO N
              {| this := producer; os := w; trace := [] |} s')
    (Hcen : channel_enabled consumer)
    (Hch : m_hCountSemaphore consumer = Some (SemaphoreHandle h)) :
  GetSenderFrame s' = Some (Z.of_nat N, s')
  /\ objects (os s') !! h = Some (KSemaphore (1 + Z.of_nat N) r)
  /\ (exists s1,
        run (GetNewFrame_peek (Some (SemaphoreHandle h))) consumer (os s')
        = Some (Some (Z.of_nat N), s1))
  /\ exists isNew s2,
       run (GetNewFrame USE_CHRONO) consumer (os s') = Some (isNew, s2)
       /\ GetSenderFrame s2 = Some (Z.of_nat N, s2).
Proof.
  destruct (published_counts h r N _ _ Hpub 1 Hen Hh Hfresh
              ltac:(unfold LONG_MAX; lia) ltac:(cbn; lia))
    as (_ & _ & Hobj & Hmax & Hfc & _).
  unfold GetSenderFrame. munfold.
  split; [rewrite Hfc; do 3 f_equal; lia|].
  split; [exact Hobj|].
  assert (Hpeek : Z.max 0 (1 + Z.of_nat N - 1) = Z.of_nat N) by lia.
  split.
  - eexists. rewrite (GetNewFrame_peek_semaphore h (1 + Z.of_nat N) r);
      [rewrite Hpeek; reflexivity|exact Hobj|lia].
  - destruct (GetNewFrame_semaphore USE_CHRONO h (1 + Z.of_nat N) r
                {| this := consumer; os := os s'; trace := [] |}
                Hcen Hch Hobj ltac:(lia))
      as (s2 & Hrun & Hfc2 & _).
    rewrite Hpeek in Hfc2.
    eexists _, s2. split; [exact Hrun|]. by rewrite Hfc2.
Qed.

End Publishing.

(** Three publishes on the fresh channel "cam", then the poll of a receiver. *)
Lemma publishes_then_poll_observe_N_witness :
  exists s',
    published true 3 demo_fresh_state s'
    /\ GetSenderFrame s' = Some (3, s')
    /\ objects (os s') !! "cam_Count_Semaphore" = Some (KSemaphore 4 1)
    /\ (exists s1,
          run (GetNewFrame_peek (Some (SemaphoreHandle "cam_Count_Semaphore")))
            demo_fresh_object (os s')
          = Some (Some 3, s1))
    /\ exists isNew s2,
         run (GetNewFrame true) demo_fresh_object (os s') = Some (isNew, s2)
         /\ GetSenderFrame s2 = Some (3, s2).
Proof.
  assert (H : exists s', published true 3 demo_fresh_state s').
  { eexists.
    do 3 (eapply published_S;
          [vm_compute; reflexivity|vm_compute; discriminate|]).
    apply published_O. }
  destruct H as [s' Hpub].
  exists s'. split; [exact Hpub|].
  apply (publishes_then_poll_observe_N true 3 "cam_Count_Semaphore" 1
           demo_fresh_object demo_fresh_object (os demo_fresh_state) s').
  - split; vm_compute; reflexivity.
  - vm_compute; reflexivity.
  - vm_compute; reflexivity.
  - vm_compute; reflexivity.
  - exact Hpub.
  - split; vm_compute; reflexivity.
  - vm_compute; reflexivity.
Defined.

(* ===================================================================== *)
(** ** Invariants along the history of a channel *)
(* ===================================================================== *)

Lemma fresh_insert_semaphore (objs : gmap string kobj) (n : string) (r : nat) :
  fresh_semaphores objs -> fresh_semaphores (<[n := KSemaphore 1 r]> objs).
Proof.
  intros H m c k. destruct (decide (n = m)) as [->|Hne].
  - rewrite lookup_insert_eq. by intros [= <- _].
  - rewrite lookup_insert_ne by done. apply H.
Qed.

Lemma fresh_insert_mutex (objs : gmap string kobj) (n : string) (r : nat) :
  fresh_semaphores objs -> fresh_semaphores (<[n := KMutex r]> objs).
Proof.
  intros H m c k. destruct (decide (n = m)) as [->|Hne].
  - rewrite lookup_insert_eq. discriminate.
  - rewrite lookup_insert_ne by done. apply H.
Qed.

Lemma fresh_insert_closed (objs : gmap string kobj) (h : HANDLE) (n : string)
    (k k' : kobj) :
  objs !! n = Some k -> close_object h k = Some k' ->
  fresh_semaphores objs -> fresh_semaphores (<[n := k']> objs).
Proof.
  intros Hn Hk H m c r. destruct (decide (n = m)) as [->|Hne].
  - rewrite lookup_insert_eq. intros [= ->].
    destruct h, k as [c0 [|[|r0]]|[|[|r0]]|]; cbn in Hk; simplify_eq;
      by eapply (H m c).
  - rewrite lookup_insert_ne by done. apply H.
Qed.

Lemma fresh_delete (objs : gmap string kobj) (n : string) :
  fresh_semaphores objs -> fresh_semaphores (delete n objs).
Proof.
  intros H m c r Hm. apply lookup_delete_Some in Hm as [_ Hm].
  by apply (H m c r).
Qed.

Lemma fresh_untouched (w w' : OS) :
  os_untouched w w' ->
  fresh_semaphores (objects w) -> fresh_semaphores (objects w').
Proof. intros H. by rewrite (os_untouched_objects _ _ H). Qed.

(** Closes the leaves left by [ensures_auto]. *)
Ltac inv_prepare :=
  unfold chan_inv, gate_inv, channel_enabled in *; cbn in *;
  repeat match goal with
         | H : _ /\ _ |- _ => destruct H
         | H : negb _ = true |- _ => apply negb_true_iff in H
         | H : negb _ = false |- _ => apply negb_false_iff in H
         | H : _ || _ = true |- _ => apply orb_true_iff in H
         | H : _ || _ = false |- _ => apply orb_false_iff in H
         | H : counter_fields _ = counter_fields _ |- _ =>
             unfold counter_fields in H; cbn in H; injection H as ?
         | H : channel_fields _ = channel_fields _ |- _ =>
             unfold channel_fields in H; cbn in H; injection H as ?
         | H : os_untouched _ _ |- _ =>
             apply os_untouched_objects in H; cbn in H
         end;
  repeat match goal with
         | H : objects (os _) = _ |- _ => rewrite H in *
         | H : m_hCountSemaphore (this _) = _ |- _ => rewrite H in *
         | H : m_FrameCount (this _) = _ |- _ => rewrite H in *
         | H : m_bFrameCount (this _) = _ |- _ => rewrite H in *
         | H : m_bDisabled (this _) = _ |- _ => rewrite H in *
         end.

Ltac inv_solve :=
  inv_prepare;
  repeat split; intros;
  try solve [ done | congruence | intuition congruence
            | intuition (eauto using fresh_insert_semaphore, fresh_insert_mutex,
                           fresh_insert_closed, fresh_delete) ].

(** A computation with a known frame, under a postcondition. *)
Lemma ensures_frame {A : Type} (m : M A) (R : state -> Prop)
    (Q : A -> state -> Prop) (s : state) :
  (forall a s', m s = Some (a, s') -> R s') ->
  (forall a s', R s' -> Q a s') ->
  ensures m Q s.
Proof.
  intros HR HQ. unfold ensures. destruct (m s) as [[a s']|] eqn:E; [|done].
  eapply HQ, HR, eq_refl.
Qed.

Section Invariant.

Variable USE_CHRONO : bool.
Variable unpublished : bool.

Lemma CloseHandle_post (h : HANDLE) (Q : unit -> state -> Prop) (s : state) :
  (forall objs,
      (fresh_semaphores (objects (os s)) -> fresh_semaphores objs) ->
      Q tt {| this := this s; os := set_objects objs (os s); trace := trace s |}) ->
  ensures (CloseHandle h) Q s.
Proof.
  intros HQ. unfold CloseHandle. ensures_auto.
  - apply HQ. eauto using fresh_insert_closed.
  - apply HQ. apply fresh_delete.
  - rewrite <- (state_eta s), <- (set_objects_id (os s)). by apply HQ.
Qed.

Lemma CreateSemaphoreA_post (name : string)
    (Q : option HANDLE * Z -> state -> Prop) (s : state) :
  (forall r objs,
      (fresh_semaphores (objects (os s)) -> fresh_semaphores objs) ->
      Q r {| this := this s; os := set_objects objs (os s); trace := trace s |}) ->
  ensures (CreateSemaphoreA name) Q s.
Proof.
  intros HQ. unfold CreateSemaphoreA. ensures_auto;
    try (rewrite <- (state_eta s), <- (set_objects_id (os s)); by apply HQ).
  - apply HQ. intros Hf.
    match goal with
    | H : objects (os s) !! name = Some (KSemaphore ?c _) |- _ =>
        rewrite (Hf _ _ _ H); by apply fresh_insert_semaphore
    end.
  - apply HQ. apply fresh_insert_semaphore.
Qed.

Lemma CreateMutexA_post (name : string)
    (Q : option HANDLE * Z -> state -> Prop) (s : state) :
  (forall r objs,
      (forall n, r.1 <> Some (SemaphoreHandle n)) ->
      (fresh_semaphores (objects (os s)) -> fresh_semaphores objs) ->
      Q r {| this := this s; os := set_objects objs (os s); trace := trace s |}) ->
  ensures (CreateMutexA name) Q s.
Proof.
  intros HQ. unfold CreateMutexA. ensures_auto;
    try (rewrite <- (state_eta s), <- (set_objects_id (os s)); by apply HQ);
    apply HQ; try done; apply fresh_insert_mutex.
Qed.

Lemma CleanupFrameCount_inv (s : state) :
  chan_inv unpublished s ->
  ensures CleanupFrameCount
    (λ _ s', chan_inv unpublished s' /\ m_hCountSemaphore (this s') = None) s.
Proof.
  intros Hinv. unfold CleanupFrameCount.
  do 3 ensures_step; [|inv_solve].
  ensures_auto. apply CloseHandle_post. intros objs Hobjs.
  unfold GetRefreshRate. ensures_auto. inv_solve.
Qed.

Lemma DisableFrameCount_inv (s : state) :
  chan_inv unpublished s ->
  ensures DisableFrameCount (λ _ s', chan_inv unpublished s') s.
Proof.
  intros Hinv. unfold DisableFrameCount. ensures_step.
  eapply ensures_weaken; [by apply CleanupFrameCount_inv|].
  intros [] s1 [H1 Hnone]. ensures_auto. inv_solve.
Qed.

Lemma reset_timers_post (Q : unit -> state -> Prop) (s : state) :
  (forall s',
      counter_fields (this s') = counter_fields (this s) ->
      os_untouched (os s) (os s') ->
      Q tt s') ->
  ensures (reset_timers USE_CHRONO) Q s.
Proof.
  intros HQ. unfold ensures.
  destruct (reset_timers_frame USE_CHRONO s) as (s' & -> & Hc & _ & _ & Hos & _).
  by apply HQ.
Qed.

Lemma UpdateSenderFps_post (framecount : Z) (Q : unit -> state -> Prop)
    (s : state) :
  (forall s',
      counter_fields (this s') = counter_fields (this s) ->
      os_untouched (os s) (os s') ->
      Q tt s') ->
  ensures (UpdateSenderFps USE_CHRONO framecount) Q s.
Proof.
  intros HQ. unfold ensures.
  destruct (UpdateSenderFps_frame USE_CHRONO framecount s)
    as (s' & -> & Hc & _ & Hos & _).
  by apply HQ.
Qed.

Ltac ensures_call :=
  match goal with
  | |- ensures (CloseHandle _) _ _ => apply CloseHandle_post; intros ? ?
  | |- ensures (CreateSemaphoreA _) _ _ =>
      apply CreateSemaphoreA_post; intros ? ? ?
  | |- ensures (CreateMutexA _) _ _ => apply CreateMutexA_post; intros ? ? ? ?
  | |- ensures (reset_timers _) _ _ => apply reset_timers_post; intros ? ? ?
  | |- ensures (UpdateSenderFps _ _) _ _ =>
      apply UpdateSenderFps_post; intros ? ? ?
  | |- _ => ensures_step
  end; cbn [this os trace].

Ltac ensures_calls := log_unfold; repeat ensures_call.

Lemma SetFrameCount_inv (bEnable : bool) (s : state) :
  chan_inv unpublished s ->
  ensures (SetFrameCount bEnable) (λ _ s', chan_inv unpublished s') s.
Proof.
  intros Hinv. unfold SetFrameCount, WriteDwordToRegistry, IsFrameCountEnabled.
  do 2 ensures_step.
  destruct bEnable.
  - ensures_calls; inv_solve.
  - ensures_step.
    eapply (ensures_weaken _
              (λ _ s', chan_inv unpublished s'
                       /\ m_hCountSemaphore (this s') = None)).
    + destruct (m_bFrameCount (this s)) eqn:Hf.
      2:{ apply ensures_ret. split; [done|]. apply Hinv. auto. }
      do 3 ensures_step. rewrite Hf. cbn.
      destruct (m_bDisabled (this s)) eqn:Hd.
      * unfold ensures. cbn. split; [done|]. apply Hinv. auto.
      * ensures_step. cbn iota. by apply CleanupFrameCount_inv.
    + intros [] s1 [H1 Hnone]. ensures_calls. inv_solve.
Qed.

Lemma EnableFrameCount_inv (SenderName : string) (s : state) :
  chan_inv unpublished s ->
  ensures (EnableFrameCount USE_CHRONO SenderName)
    (λ _ s', chan_inv unpublished s') s.
Proof.
  intros Hinv. unfold EnableFrameCount, GetRefreshRate, checked_copy.
  ensures_calls; inv_solve.
Qed.

Lemma HoldFps_inv (fps : Z) (s : state) :
  chan_inv unpublished s ->
  ensures (HoldFps USE_CHRONO fps) (λ _ s', chan_inv unpublished s') s.
Proof.
  intros Hinv.
  unfold HoldFps, GetCounter, QueryPerformanceCounter, steady_clock_now.
  ensures_calls; inv_solve.
Qed.

Lemma CreateAccessMutex_inv (SenderName : string) (s : state) :
  chan_inv unpublished s ->
  ensures (CreateAccessMutex SenderName) (λ _ s', chan_inv unpublished s') s.
Proof.
  intros Hinv. unfold CreateAccessMutex, checked_copy.
  ensures_calls; inv_solve.
Qed.

Lemma CloseAccessMutex_inv (s : state) :
  chan_inv unpublished s ->
  ensures CloseAccessMutex (λ _ s', chan_inv unpublished s') s.
Proof.
  intros Hinv. unfold CloseAccessMutex.
  ensures_calls; inv_solve.
Qed.

Lemma CheckTextureAccess_inv (t : option ID3D11Texture2D) (s : state) :
  chan_inv unpublished s ->
  ensures (CheckTextureAccess t) (λ _ s', chan_inv unpublished s') s.
Proof.
  intros Hinv.
  unfold CheckTextureAccess, CheckKeyedAccess, CheckAccess, WaitForSingleObject.
  ensures_calls; inv_solve.
Qed.

Lemma AllowTextureAccess_inv (t : option ID3D11Texture2D) (s : state) :
  chan_inv unpublished s ->
  ensures (AllowTextureAccess t) (λ _ s', chan_inv unpublished s') s.
Proof.
  intros Hinv.
  unfold AllowTextureAccess, AllowKeyedAccess, AllowAccess.
  ensures_calls; inv_solve.
Qed.

(** The peek under the invariant: on fresh semaphores it observes 0 (or
    nothing) and leaves them fresh. *)
Lemma GetNewFrame_peek_post (h : option HANDLE)
    (Q : option Z -> state -> Prop) (s : state) :
  (forall r s1,
      this s1 = this s ->
      (fresh_semaphores (objects (os s)) ->
       fresh_semaphores (objects (os s1)) /\ (r = None \/ r = Some 0)) ->
      Q r s1) ->
  ensures (GetNewFrame_peek h) Q s.
Proof.
  intros HQ.
  destruct h as [[n|n]|].
  - destruct (objects (os s) !! n) as [[c r| |]|] eqn:Hobj.
    + destruct (decide (0 <= c <= LONG_MAX)) as [Hc|Hc].
      * unfold ensures. rewrite (GetNewFrame_peek_semaphore n c r s Hobj Hc).
        apply HQ; [done|]. cbn. intros Hf. split; [done|].
        rewrite (Hf _ _ _ Hobj). auto.
      * unfold GetNewFrame_peek, WaitForSingleObject, ReleaseSemaphore.
        ensures_auto;
          repeat match goal with
                 | H : <[_:=_]> _ !! _ = _ |- _ => rewrite lookup_insert_eq in H
                 end;
          simplify_eq; apply HQ; try done; cbn; intros Hf;
          match goal with
          | H : objects (os s) !! _ = Some (KSemaphore _ _) |- _ =>
              pose proof (Hf _ _ _ H)
          end; unfold LONG_MAX in *; lia.
    + unfold GetNewFrame_peek, WaitForSingleObject, ReleaseSemaphore.
      ensures_auto; simplify_eq; apply HQ; try done; cbn; auto.
    + unfold GetNewFrame_peek, WaitForSingleObject, ReleaseSemaphore.
      ensures_auto; simplify_eq; apply HQ; try done; cbn; auto.
    + unfold GetNewFrame_peek, WaitForSingleObject, ReleaseSemaphore.
      ensures_auto; simplify_eq; apply HQ; try done; cbn; auto.
  - unfold GetNewFrame_peek, WaitForSingleObject, ReleaseSemaphore.
    ensures_auto; simplify_eq; apply HQ; try done; cbn; auto.
  - unfold GetNewFrame_peek, WaitForSingleObject, ReleaseSemaphore.
    ensures_auto; simplify_eq; apply HQ; try done; cbn; auto.
Qed.

Lemma GetNewFrame_compare_post (observed : Z) (Q : bool -> state -> Prop)
    (s : state) :
  (forall s',
      m_FrameCount (this s') = observed ->
      channel_fields (set_m_bIsNewFrame false (this s'))
      = channel_fields (set_m_bIsNewFrame false (this s)) ->
      os_untouched (os s) (os s') ->
      Q (negb (observed =? m_LastFrameCount (this s)) || (observed =? 0)) s') ->
  ensures (GetNewFrame_compare USE_CHRONO observed) Q s.
Proof.
  intros HQ. unfold ensures.
  destruct (GetNewFrame_compare_spec USE_CHRONO observed s)
    as (s' & -> & Hfc & Hch & Hos & _).
  by apply HQ.
Qed.

Lemma GetNewFrame_inv (s : state) :
  chan_inv unpublished s ->
  ensures (GetNewFrame USE_CHRONO)
    (λ isNew s', chan_inv unpublished s'
                 /\ (unpublished = true -> isNew = true)) s.
Proof.
  intros Hinv. unfold GetNewFrame.
  do 3 ensures_step; [ensures_auto; inv_solve|].
  ensures_step; [|ensures_auto; inv_solve].
  ensures_step. apply GetNewFrame_peek_post. intros r s1 Hthis Hfresh.
  destruct r as [framecount|];
    [|ensures_auto; unfold chan_inv in *; rewrite Hthis; inv_solve].
  apply GetNewFrame_compare_post. intros s' Hfc Hch Hos.
  rewrite Hthis in Hch.
  assert (Hzero : unpublished = true -> framecount = 0).
  { intros ->. destruct Hinv as [_ Hu]. destruct (Hu eq_refl) as [_ Hf].
    destruct (Hfresh Hf) as [_ [|]]; congruence. }
  split.
  - inv_prepare. repeat split; intros; try (intuition congruence).
  - intros Hu. rewrite (Hzero Hu). cbn. apply orb_true_r.
Qed.

Lemma constructor_inv (s : state) :
  (unpublished = true -> fresh_semaphores (objects (os s))) ->
  ensures (constructor USE_CHRONO) (λ _ s', chan_inv unpublished s') s.
Proof.
  intros Hfresh.
  unfold constructor, GetRefreshRate, ReadDwordFromRegistry, StartCounter,
    QueryPerformanceFrequency, QueryPerformanceCounter.
  ensures_calls; inv_solve.
Qed.

(** A publish keeps the general invariant (it is the one method that
    breaks the "nothing published" part). *)
Lemma SetNewFrame_inv (s : state) :
  chan_inv false s ->
  ensures (SetNewFrame USE_CHRONO) (λ _ s', chan_inv false s') s.
Proof.
  intros Hinv. unfold SetNewFrame, WaitForSingleObject, ReleaseSemaphore.
  ensures_calls; inv_solve.
Qed.

(** Every method keeps the invariant; with "nothing published", every
    method but [SetNewFrame]. *)
Lemma do_op_inv (op : channel_op) (s : state) :
  (unpublished = true -> is_publish op = false) ->
  chan_inv unpublished s ->
  ensures (do_op USE_CHRONO op) (λ _ s', chan_inv unpublished s') s.
Proof.
  intros Hop Hinv. destruct op; cbn [do_op].
  - by apply SetFrameCount_inv.
  - by apply EnableFrameCount_inv.
  - by apply DisableFrameCount_inv.
  - eapply ensures_weaken; [by apply CleanupFrameCount_inv|]. by intros ? ? [? _].
  - destruct unpublished; [by discriminate Hop|]. by apply SetNewFrame_inv.
  - apply ensures_bind.
    eapply ensures_weaken; [by apply GetNewFrame_inv|].
    intros ? ? [? _]. by apply ensures_ret.
  - by apply HoldFps_inv.
  - apply ensures_bind.
    eapply ensures_weaken; [by apply CreateAccessMutex_inv|].
    intros ? ? ?. by apply ensures_ret.
  - by apply CloseAccessMutex_inv.
  - apply ensures_bind.
    eapply ensures_weaken; [by apply CheckTextureAccess_inv|].
    intros ? ? ?. by apply ensures_ret.
  - by apply AllowTextureAccess_inv.
Qed.

End Invariant.

(** The invariant does not look at the log, and of the system it looks at
    the kernel objects only. *)
Lemma chan_inv_this_objects (u : bool) (s s' : state) :
  this s' = this s ->
  (u = true -> fresh_semaphores (objects (os s'))) ->
  chan_inv u s -> chan_inv u s'.
Proof.
  unfold chan_inv. intros -> Hf [Hg Hu]. split; [exact Hg|].
  intros H. destruct (Hu H). auto.
Qed.

Section Histories.

Variable USE_CHRONO : bool.
Variable unpublished : bool.

Lemma do_step_inv (st : step) (sys sys' : system) :
  (unpublished = true -> step_publishes st = false) ->
  (unpublished = true -> fresh_semaphores (objects (kernel sys))) ->
  sys_inv unpublished sys ->
  do_step USE_CHRONO st sys = Some sys' ->
  sys_inv unpublished sys'
  /\ (unpublished = true -> fresh_semaphores (objects (kernel sys'))).
Proof.
  intros Hst Hfresh Hinv Hrun. unfold sys_inv in *.
  destruct st as [|i op]; cbn in Hrun.
  - unfold new_spoutFrameCount, run in Hrun.
    destruct (constructor USE_CHRONO _) as [[[] s]|] eqn:Hc; [|done].
    injection Hrun as <-. cbn.
    pose proof (ensures_elim _ _ _ _ _
                  (constructor_inv USE_CHRONO unpublished
                     {| this := zeroed; os := kernel sys; trace := [] |}
                     Hfresh) Hc) as Hs.
    split; [|intros Hu; by destruct Hs as [_ Hs]; destruct (Hs Hu)].
    apply Forall_app. split.
    + eapply Forall_impl; [exact Hinv|]. intros o Ho.
      eapply chan_inv_this_objects; [| |exact Ho]; [done|]. cbn.
      intros Hu. destruct Hs as [_ Hs]. by destruct (Hs Hu).
    + constructor; [|constructor].
      eapply chan_inv_this_objects; [| |exact Hs]; [done|]. cbn.
      intros Hu. destruct Hs as [_ Hs]. by destruct (Hs Hu).
  - destruct (parties sys !! i) as [o|] eqn:Hi.
    2:{ injection Hrun as <-. auto. }
    unfold run in Hrun.
    destruct (do_op USE_CHRONO op _) as [[[] s]|] eqn:Hop; [|done].
    injection Hrun as <-. cbn.
    pose proof (Forall_lookup_1 _ _ _ _ Hinv Hi) as Ho.
    pose proof (ensures_elim _ _ _ _ _
                  (do_op_inv USE_CHRONO unpublished op
                     {| this := o; os := kernel sys; trace := [] |}
                     Hst Ho) Hop) as Hs.
    split; [|intros Hu; by destruct Hs as [_ Hs]; destruct (Hs Hu)].
    apply Forall_insert.
    + eapply Forall_impl; [exact Hinv|]. intros o' Ho'.
      eapply chan_inv_this_objects; [| |exact Ho']; [done|]. cbn.
      intros Hu. destruct Hs as [_ Hs]. by destruct (Hs Hu).
    + eapply chan_inv_this_objects; [| |exact Hs]; [done|]. cbn.
      intros Hu. destruct Hs as [_ Hs]. by destruct (Hs Hu).
Qed.

Lemma history_inv (steps : list step) (sys sys' : system) :
  (unpublished = true ->
   forallb (λ st, negb (step_publishes st)) steps = true) ->
  (unpublished = true -> fresh_semaphores (objects (kernel sys))) ->
  sys_inv unpublished sys ->
  history USE_CHRONO steps sys = Some sys' ->
  sys_inv unpublished sys'.
Proof.
  revert sys. induction steps as [|st steps IH]; intros sys Hsteps Hfresh Hinv Hrun.
  - cbn in Hrun. by injection Hrun as <-.
  - cbn in Hrun.
    destruct (do_step USE_CHRONO st sys) as [sys1|] eqn:Hst; [|done].
    destruct (do_step_inv st sys sys1) as [Hinv1 Hfresh1]; try done.
    + intros Hu. specialize (Hsteps Hu). cbn in Hsteps.
      apply andb_true_iff in Hsteps as [Hs _]. by apply negb_true_iff.
    + apply (IH sys1); try done.
      intros Hu. specialize (Hsteps Hu). cbn in Hsteps.
      by apply andb_true_iff in Hsteps as [_ Hs].
Qed.

End Histories.

(* ===================================================================== *)
(** ** Frame counter: fail-open polls *)
(* ===================================================================== *)

Lemma fresh_empty : fresh_semaphores ∅.
Proof. intros n c r H. by rewrite lookup_empty in H. Qed.

Lemma GetNewFrame_peek_runs (h : option HANDLE) :
  emits_only (λ _, true) (GetNewFrame_peek h).
Proof.
  unfold GetNewFrame_peek, WaitForSingleObject, ReleaseSemaphore. emits_auto.
Qed.

Section FailOpen.

Variable USE_CHRONO : bool.

(** A poll always returns. *)
Lemma GetNewFrame_runs (s : state) :
  exists isNew s', GetNewFrame USE_CHRONO s = Some (isNew, s').
Proof.
  unfold GetNewFrame. log_unfold. munfold.
  destruct (negb (m_bFrameCount (this s)) || m_bDisabled (this s)); [by eauto|].
  destruct (m_hCountSemaphore (this s)) as [h|]; [|by eauto].
  destruct (GetNewFrame_peek_runs (Some h) s) as (r & s1 & _ & -> & _).
  destruct r as [framecount|]; [|by eauto].
  destruct (GetNewFrame_compare_spec USE_CHRONO framecount s1) as (s' & -> & _).
  eauto.
Qed.

(** A poll on a gated object, or on one without semaphore handle, returns
    [true] and leaves the object as it is. *)
Lemma GetNewFrame_gated (s : state) :
  m_bFrameCount (this s) = false \/ m_bDisabled (this s) = true
  \/ m_hCountSemaphore (this s) = None ->
  exists s', GetNewFrame USE_CHRONO s = Some (true, s') /\ this s' = this s.
Proof.
  intros Hcase. unfold GetNewFrame. log_unfold. munfold.
  destruct (m_bFrameCount (this s)) eqn:Hf; cbn; [|by eauto].
  destruct (m_bDisabled (this s)) eqn:Hd; cbn; [by eauto|].
  destruct Hcase as [|[|Hh]]; try done. rewrite Hh. eauto.
Qed.

End FailOpen.

(* ===================================================================== *)
(** ** Worked traces *)
(* ===================================================================== *)

(** An acquire and a release on a keyed texture, by a receiver that also
    holds the named mutex open: only the keyed mutex is touched. *)
Example keyed_pair_trace :
  exists log s',
    perform_all [AcquireCall (Some demo_keyed_texture);
                 ReleaseCall (Some demo_keyed_texture)]
      (demo_locked_state WAIT_OBJECT_0) = Some (log, s')
    /\ log.*2 = [[EvAcquireSync 0 67; EvRelease]; [EvReleaseSync 0; EvRelease]].
Proof. do 2 eexists. split; vm_compute; reflexivity. Qed.

(** The same pair with a null texture: only the named mutex is touched. *)
Example named_pair_trace :
  exists log s',
    perform_all [AcquireCall None; ReleaseCall None]
      (demo_locked_state WAIT_OBJECT_0) = Some (log, s')
    /\ log.*2 = [[EvWait (Some (MutexHandle "cam_SpoutAccessMutex")) 67];
                 [EvReleaseMutex (MutexHandle "cam_SpoutAccessMutex")]].
Proof. do 2 eexists. split; vm_compute; reflexivity. Qed.

(** Three publishes, then three polls by the same object: new, not new,
    not new; the frame number read back is 3. *)
Example publish_poll_trace :
  exists s1 s2 s3,
    GetNewFrame true demo_sender_state = Some (true, s1)
    /\ GetNewFrame true s1 = Some (false, s2)
    /\ GetNewFrame true s2 = Some (false, s3)
    /\ m_FrameCount (this s3) = 3
    /\ objects (os s3) !! "cam_Count_Semaphore" = Some (KSemaphore 4 1).
Proof.
  do 3 eexists. split; [vm_compute; reflexivity|].
  split; [vm_compute; reflexivity|].
  split; [vm_compute; reflexivity|].
  split; vm_compute; reflexivity.
Qed.

(* ===================================================================== *)
(** ** The semaphore counts stay in range *)
(* ===================================================================== *)

Lemma bounded_insert (objs : gmap string kobj) (n : string) (k : kobj) :
  (forall c r, k = KSemaphore c r -> 0 <= c <= LONG_MAX) ->
  bounded_semaphores objs -> bounded_semaphores (<[n := k]> objs).
Proof.
  intros Hk H m c r. destruct (decide (n = m)) as [->|Hne].
  - rewrite lookup_insert_eq. intros [= ->]. by apply (Hk c r).
  - rewrite lookup_insert_ne by done. apply H.
Qed.

Lemma bounded_delete (objs : gmap string kobj) (n : string) :
  bounded_semaphores objs -> bounded_semaphores (delete n objs).
Proof.
  intros H m c r Hm. apply lookup_delete_Some in Hm as [_ Hm].
  by apply (H m c r).
Qed.

Section Keeps.

Context {A B : Type} (I : OS -> Prop).

Lemma keeps_ret (a : A) : keeps I (mret a).
Proof. intros s Hs. exact Hs. Qed.

Lemma keeps_bind (m : M A) (f : A -> M B) :
  keeps I m -> (forall a, keeps I (f a)) -> keeps I (m ≫= f).
Proof.
  intros Hm Hf s Hs. apply ensures_bind.
  eapply ensures_weaken; [by apply Hm|]. intros a s1 H1. by apply Hf.
Qed.

End Keeps.

Lemma keeps_get_this (I : OS -> Prop) : keeps I get_this.
Proof. by intros s Hs. Qed.

Lemma keeps_get_os (I : OS -> Prop) : keeps I get_os.
Proof. by intros s Hs. Qed.

Lemma keeps_modify_this (I : OS -> Prop) f : keeps I (modify_this f).
Proof. by intros s Hs. Qed.

Lemma keeps_emit (I : OS -> Prop) (e : event) : keeps I (emit e).
Proof. by intros s Hs. Qed.

Lemma keeps_abort {A : Type} (I : OS -> Prop) : keeps I (@abort A).
Proof. by intros s Hs. Qed.

(** Each system call keeps the counts in range. *)
Lemma next_answer_in_range {A : Type} (oracle : OS -> nat -> A) :
  keeps in_range (next_answer oracle).
Proof. intros s Hs. unfold next_answer. ensures_auto. exact Hs. Qed.

Lemma WaitForSingleObject_in_range (h : option HANDLE) (ms : Z) :
  keeps in_range (WaitForSingleObject h ms).
Proof.
  intros s Hs. unfold WaitForSingleObject. ensures_auto; try exact Hs.
  unfold in_range. cbn. apply bounded_insert; [|exact Hs].
  intros c' r' [= <- <-].
  match goal with
  | H : objects (os s) !! _ = Some (KSemaphore ?c _), H' : (0 <? ?c) = true |- _ =>
      pose proof (Hs _ _ _ H); apply Z.ltb_lt in H'; lia
  end.
Qed.

Lemma ReleaseSemaphore_in_range (h : option HANDLE) (n : Z) :
  keeps in_range (ReleaseSemaphore h n).
Proof.
  intros s Hs. unfold ReleaseSemaphore. ensures_auto; try exact Hs.
  unfold in_range. cbn. apply bounded_insert; [|exact Hs].
  intros c' r' [= <- <-].
  match goal with
  | H : objects (os s) !! _ = Some (KSemaphore ?c _),
    H' : (0 <? n) && (?c + n <=? LONG_MAX) = true |- _ =>
      pose proof (Hs _ _ _ H); apply andb_true_iff in H' as [H1 H2];
      apply Z.ltb_lt in H1; apply Z.leb_le in H2; lia
  end.
Qed.

Lemma CreateSemaphoreA_in_range (name : string) :
  keeps in_range (CreateSemaphoreA name).
Proof.
  intros s Hs. unfold CreateSemaphoreA. ensures_auto; try exact Hs;
    unfold in_range; cbn; (apply bounded_insert; [|exact Hs]);
    intros c' r' [= <- <-].
  - match goal with
    | H : objects (os s) !! _ = Some (KSemaphore ?c _) |- _ =>
        exact (Hs _ _ _ H)
    end.
  - unfold LONG_MAX. lia.
Qed.

Lemma CreateMutexA_in_range (name : string) :
  keeps in_range (CreateMutexA name).
Proof.
  intros s Hs. unfold CreateMutexA. ensures_auto; try exact Hs;
    unfold in_range; cbn; (apply bounded_insert; [|exact Hs]);
    intros c' r'; discriminate.
Qed.

Lemma CloseHandle_in_range (h : HANDLE) : keeps in_range (CloseHandle h).
Proof.
  intros s Hs. unfold CloseHandle. ensures_auto; try exact Hs;
    unfold in_range; cbn.
  - apply bounded_insert; [|exact Hs]. intros c' r' ->.
    match goal with
    | H : objects (os s) !! _ = Some ?k, H' : close_object h ?k = Some _ |- _ =>
        destruct h, k as [c0 [|[|r0]]|[|[|r0]]|]; cbn in H'; simplify_eq;
        exact (Hs _ _ _ H)
    end.
  - by apply bounded_delete.
Qed.

Lemma WriteDwordToRegistry_in_range (v : Z) :
  keeps in_range (WriteDwordToRegistry v).
Proof. by intros s Hs. Qed.

(** Breaks a method down to its system calls. *)
Ltac keeps_step :=
  match goal with
  | |- keeps _ (WaitForSingleObject _ _) => apply WaitForSingleObject_in_range
  | |- keeps _ (ReleaseSemaphore _ _) => apply ReleaseSemaphore_in_range
  | |- keeps _ (CreateSemaphoreA _) => apply CreateSemaphoreA_in_range
  | |- keeps _ (CreateMutexA _) => apply CreateMutexA_in_range
  | |- keeps _ (CloseHandle _) => apply CloseHandle_in_range
  | |- keeps _ (WriteDwordToRegistry _) => apply WriteDwordToRegistry_in_range
  | |- keeps _ (next_answer _) => apply next_answer_in_range
  | |- keeps _ (mbind _ _) => apply keeps_bind; [|intros ?]
  | |- keeps _ (mret _) => apply keeps_ret
  | |- keeps _ get_this => apply keeps_get_this
  | |- keeps _ get_os => apply keeps_get_os
  | |- keeps _ (modify_this _) => apply keeps_modify_this
  | |- keeps _ (emit _) => apply keeps_emit
  | |- keeps _ abort => apply keeps_abort
  | |- keeps _ (if ?b then _ else _) => destruct b
  | |- keeps _ (match ?x with _ => _ end) => destruct x
  end.

Ltac keeps_auto := log_unfold; repeat keeps_step.

Transparent UpdateSenderFps.

Lemma do_op_in_range (chrono : bool) (op : channel_op) :
  keeps in_range (do_op chrono op).
Proof.
  destruct op; cbn [do_op];
    unfold SetFrameCount, IsFrameCountEnabled, EnableFrameCount, reset_timers,
      DisableFrameCount, CleanupFrameCount, GetRefreshRate, StartCounter,
      SetNewFrame, GetNewFrame, GetNewFrame_peek, GetNewFrame_compare,
      UpdateSenderFps, HoldFps, GetCounter, QueryPerformanceCounter,
      QueryPerformanceFrequency, steady_clock_now,
      CreateAccessMutex, CloseAccessMutex, CheckTextureAccess,
      AllowTextureAccess, CheckKeyedAccess, CheckAccess, AllowKeyedAccess,
      AllowAccess, checked_copy;
    keeps_auto.
Qed.

Opaque UpdateSenderFps.

Lemma constructor_in_range (chrono : bool) : keeps in_range (constructor chrono).
Proof.
  unfold constructor, GetRefreshRate, ReadDwordFromRegistry, StartCounter,
    QueryPerformanceCounter, QueryPerformanceFrequency.
  keeps_auto.
Qed.

Lemma do_step_in_range (chrono : bool) (st : step) (sys sys' : system) :
  in_range (kernel sys) ->
  do_step chrono st sys = Some sys' ->
  in_range (kernel sys').
Proof.
  intros Hin Hrun. destruct st as [|i op]; cbn in Hrun.
  - unfold new_spoutFrameCount, run in Hrun.
    destruct (constructor chrono _) as [[[] s]|] eqn:Hc; [|done].
    injection Hrun as <-. cbn.
    exact (ensures_elim _ _ _ _ _
             (constructor_in_range chrono
                {| this := zeroed; os := kernel sys; trace := [] |} Hin) Hc).
  - destruct (parties sys !! i) as [o|]; [|by injection Hrun as <-].
    unfold run in Hrun.
    destruct (do_op chrono op _) as [[[] s]|] eqn:Hop; [|done].
    injection Hrun as <-. cbn.
    exact (ensures_elim _ _ _ _ _
             (do_op_in_range chrono op
                {| this := o; os := kernel sys; trace := [] |} Hin) Hop).
Qed.

Lemma history_keeps_range (chrono : bool) (steps : list step) :
  forall sys sys' : system,
    in_range (kernel sys) ->
    history chrono steps sys = Some sys' ->
    in_range (kernel sys').
Proof.
  induction steps as [|st steps IH]; intros sys sys' Hin Hrun; cbn in Hrun.
  - by injection Hrun as <-.
  - destruct (do_step chrono st sys) as [sys1|] eqn:Hst; [|done].
    eauto using do_step_in_range.
Qed.

Lemma bounded_singleton (n : string) (c : Z) (r : nat) :
  0 <= c <= LONG_MAX -> bounded_semaphores {[ n := KSemaphore c r ]}.
Proof.
  intros Hc m c' r' H. apply lookup_singleton_Some in H as [_ [= <- _]].
  exact Hc.
Qed.

(* ===================================================================== *)
(** ** A poll does not disturb the system *)
(* ===================================================================== *)

Lemma os_untouched_trans (w1 w2 w3 : OS) :
  os_untouched w1 w2 -> os_untouched w2 w3 -> os_untouched w1 w3.
Proof. unfold os_untouched. intros -> ->. reflexivity. Qed.

Lemma GetNewFrame_peek_untouched (h : option HANDLE) (s : state) :
  bounded_semaphores (objects (os s)) ->
  ensures (GetNewFrame_peek h)
    (λ _ s1, this s1 = this s /\ os_untouched (os s) (os s1)) s.
Proof.
  intros Hin.
  destruct h as [[n|n]|].
  - destruct (objects (os s) !! n) as [[c r| |]|] eqn:Hobj.
    + unfold ensures.
      rewrite (GetNewFrame_peek_semaphore n c r s Hobj (Hin _ _ _ Hobj)).
      cbn. split; [done|apply os_untouched_refl].
    + unfold GetNewFrame_peek, WaitForSingleObject, ReleaseSemaphore.
      ensures_auto; simplify_eq; (split; [done|apply os_untouched_refl]).
    + unfold GetNewFrame_peek, WaitForSingleObject, ReleaseSemaphore.
      ensures_auto; simplify_eq; (split; [done|apply os_untouched_refl]).
    + unfold GetNewFrame_peek, WaitForSingleObject, ReleaseSemaphore.
      ensures_auto; simplify_eq; (split; [done|apply os_untouched_refl]).
  - unfold GetNewFrame_peek, WaitForSingleObject, ReleaseSemaphore.
    ensures_auto; simplify_eq;
      (split; [done|]);
      first [apply os_untouched_refl
            |apply os_untouched_set_calls, os_untouched_refl].
  - unfold GetNewFrame_peek, WaitForSingleObject, ReleaseSemaphore.
    ensures_auto; simplify_eq; (split; [done|apply os_untouched_refl]).
Qed.

Lemma GetNewFrame_untouched (chrono : bool) (s : state) :
  bounded_semaphores (objects (os s)) ->
  ensures (GetNewFrame chrono) (λ _ s', os_untouched (os s) (os s')) s.
Proof.
  intros Hin. unfold GetNewFrame.
  do 3 ensures_step; [ensures_auto; apply os_untouched_refl|].
  ensures_step; [|ensures_auto; apply os_untouched_refl].
  ensures_step.
  eapply ensures_weaken; [by apply GetNewFrame_peek_untouched|].
  intros r s1 [Hthis Hos1]. cbn beta.
  destruct r as [framecount|]; [|by apply ensures_ret].
  unfold ensures.
  destruct (GetNewFrame_compare_spec chrono framecount s1)
    as (s2 & -> & _ & _ & Hos2 & _).
  by apply (os_untouched_trans _ (os s1)).
Qed.

(** X2. A poll is non-destructive, whatever the state of the polling
    object: with the semaphore counts in range, [GetNewFrame()] returns and
    leaves every kernel object (each semaphore with its count), the registry
    and the rest of the system exactly as they were; only clock readings and
    wait answers may have been consumed. *)
Theorem GetNewFrame_leaves_system
    (chrono : bool) (s : state)
    (Hin : bounded_semaphores (objects (os s))) :
  exists isNew s',
    GetNewFrame chrono s = Some (isNew, s')
    /\ os_untouched (os s) (os s')
    /\ objects (os s') = objects (os s).
Proof.
  destruct (GetNewFrame_runs chrono s) as (isNew & s' & Hrun).
  exists isNew, s'. split; [exact Hrun|].
  pose proof (ensures_elim _ _ _ _ _ (GetNewFrame_untouched chrono s Hin) Hrun)
    as Hos.
  split; [exact Hos|]. by apply os_untouched_objects.
Qed.

Lemma GetNewFrame_leaves_system_witness :
  exists isNew s',
    GetNewFrame true demo_sender_state = Some (isNew, s')
    /\ os_untouched (os demo_sender_state) (os s')
    /\ objects (os s') = objects (os demo_sender_state).
Proof.
  apply (GetNewFrame_leaves_system true demo_sender_state).
  change (bounded_semaphores {[ "cam_Count_Semaphore" := KSemaphore 4 1 ]}).
  apply bounded_singleton. unfold LONG_MAX. lia.
Defined.

(* ===================================================================== *)
(** ** Publishes move a count up by one, and down at the maximum *)
(* ===================================================================== *)

Lemma sem_count_insert_eq (w : OS) (n : string) (c : Z) (r : nat) :
  sem_count (set_objects (<[n := KSemaphore c r]> (objects w)) w) n = Some c.
Proof. unfold sem_count. cbn. by rewrite lookup_insert_eq. Qed.

Lemma sem_count_insert_ne (w : OS) (n m : string) (k : kobj) :
  n <> m ->
  sem_count (set_objects (<[n := k]> (objects w)) w) m = sem_count w m.
Proof. intros Hne. unfold sem_count. cbn. by rewrite lookup_insert_ne. Qed.

Lemma sem_count_untouched (w w' : OS) (n : string) :
  os_untouched w w' -> sem_count w' n = sem_count w n.
Proof. intros H. unfold sem_count. by rewrite (os_untouched_objects _ _ H). Qed.

Transparent UpdateSenderFps.

Lemma SetNewFrame_runs (chrono : bool) :
  emits_only (λ _, true) (SetNewFrame chrono).
Proof.
  unfold SetNewFrame, WaitForSingleObject, ReleaseSemaphore, UpdateSenderFps,
    GetCounter, QueryPerformanceCounter, steady_clock_now.
  emits_auto.
Qed.

Opaque UpdateSenderFps.

(** What one [SetNewFrame()] call, by any object, does to the count of a
    semaphore: nothing, or one up; or, at the maximum only, one down. *)
Lemma SetNewFrame_count_step (chrono : bool) (s : state) (n : string) (c : Z) :
  bounded_semaphores (objects (os s)) ->
  sem_count (os s) n = Some c ->
  ensures (SetNewFrame chrono)
    (λ _ s', exists c', sem_count (os s') n = Some c'
                        /\ (c' = c \/ c' = c + 1
                            \/ (c' = c - 1 /\ c = LONG_MAX))) s.
Proof.
  intros Hin Hc. unfold SetNewFrame, WaitForSingleObject, ReleaseSemaphore.
  assert (Hsame : forall w', os_untouched (os s) w' ->
            exists c', sem_count w' n = Some c'
                       /\ (c' = c \/ c' = c + 1 \/ (c' = c - 1 /\ c = LONG_MAX))).
  { intros w' Hw. exists c. rewrite (sem_count_untouched _ _ _ Hw). auto. }
  ensures_auto;
    repeat match goal with
           | H : objects (set_objects _ _) !! _ = _ |- _ => cbn in H
           | H : <[_:=_]> _ !! _ = _ |- _ => rewrite lookup_insert_eq in H
           end;
    simplify_eq;
    try (apply Hsame; first [apply os_untouched_refl
                            |apply os_untouched_set_calls, os_untouched_refl]).
  - (* the wait and the release both succeed *)
    apply UpdateSenderFps_post. intros s' _ Hos. cbn in Hos.
    rewrite (sem_count_untouched _ _ n Hos).
    rewrite set_objects_twice, insert_insert_eq.
    match goal with
    | H : objects (os s) !! ?m = Some (KSemaphore ?c0 _) |- _ =>
        destruct (decide (m = n)) as [->|Hne];
        [ rewrite sem_count_insert_eq; unfold sem_count in Hc;
          rewrite H in Hc; injection Hc as <-; eexists; split; [reflexivity|];
          right; left; lia
        | rewrite sem_count_insert_ne by done; eauto ]
    end.
  - (* the wait succeeds, the release fails *)
    match goal with
    | H : objects (os s) !! ?m = Some (KSemaphore ?c0 _),
      H' : (0 <? 2) && (?c0 - 1 + 2 <=? LONG_MAX) = false |- _ =>
        pose proof (Hin _ _ _ H); cbn [Z.ltb Z.compare andb] in H';
        apply Z.leb_gt in H';
        destruct (decide (m = n)) as [->|Hne];
        [ rewrite sem_count_insert_eq; unfold sem_count in Hc;
          rewrite H in Hc; injection Hc as <-; eexists; split; [reflexivity|];
          right; right; lia
        | rewrite sem_count_insert_ne by done; eauto ]
    end.
Qed.

(** X3. At the maximum count the publish arithmetic loses a unit: an
    enabled sender whose semaphore stands at LONG_MAX takes one unit with the
    wait, fails to release 2, logs the failure, and returns with the frame
    number unchanged and the semaphore at LONG_MAX - 1. *)
Theorem SetNewFrame_at_maximum
    (chrono : bool) (n : string) (r : nat) (s : state)
    (Hen : channel_enabled (this s))
    (Hh : m_hCountSemaphore (this s) = Some (SemaphoreHandle n))
    (Hobj : objects (os s) !! n = Some (KSemaphore LONG_MAX r)) :
  exists s',
    SetNewFrame chrono s = Some (tt, s')
    /\ this s' = this s
    /\ objects (os s') = <[n := KSemaphore (LONG_MAX - 1) r]> (objects (os s))
    /\ emitted s s'
         [EvWait (Some (SemaphoreHandle n)) 0;
          EvLog Error "spoutFrameCount::SetNewFrame - ReleaseSemaphore failed"].
Proof.
  destruct Hen as [Hf Hd].
  unfold SetNewFrame, WaitForSingleObject, ReleaseSemaphore.
  log_unfold. munfold. rewrite Hf, Hd, Hh. cbn. rewrite Hobj. cbn.
  rewrite lookup_insert_eq. cbn.
  eexists. split; [reflexivity|]. cbn. unfold emitted. cbn.
  rewrite <- app_assoc. by repeat split.
Qed.

Lemma SetNewFrame_at_maximum_witness :
  exists s',
    SetNewFrame true demo_saturated_state = Some (tt, s')
    /\ this s' = this demo_saturated_state
    /\ objects (os s')
       = <["cam_Count_Semaphore" := KSemaphore (LONG_MAX - 1) 1]>
           (objects (os demo_saturated_state))
    /\ emitted demo_saturated_state s'
         [EvWait (Some (SemaphoreHandle "cam_Count_Semaphore")) 0;
          EvLog Error "spoutFrameCount::SetNewFrame - ReleaseSemaphore failed"].
Proof.
  apply (SetNewFrame_at_maximum true "cam_Count_Semaphore" 1
           demo_saturated_state).
  - split; vm_compute; reflexivity.
  - vm_compute; reflexivity.
  - vm_compute; reflexivity.
Defined.

(* ===================================================================== *)
(** ** What a receiver reads never goes back *)
(* ===================================================================== *)

Lemma do_step_count (chrono : bool) (st : step) (sys sys' : system)
    (n : string) (c : Z) :
  bounded_semaphores (objects (kernel sys)) ->
  publish_or_poll st = true ->
  do_step chrono st sys = Some sys' ->
  sem_count (kernel sys) n = Some c ->
  exists c', sem_count (kernel sys') n = Some c'
    /\ (c' = c
        \/ (step_publishes st = true
            /\ (c' = c + 1 \/ (c' = c - 1 /\ c = LONG_MAX)))).
Proof.
  intros Hin Hkind Hrun Hc.
  destruct st as [|i op]; [done|]. cbn in Hrun.
  destruct (parties sys !! i) as [o|]; [|injection Hrun as <-; eauto].
  unfold run in Hrun.
  destruct (do_op chrono op _) as [[[] s]|] eqn:Hop; [|done].
  injection Hrun as <-. cbn.
  destruct op; try done; cbn [do_op] in Hop.
  - pose proof (ensures_elim _ _ _ _ _
                  (SetNewFrame_count_step chrono
                     {| this := o; os := kernel sys; trace := [] |} n c Hin Hc)
                  Hop) as (c' & Hc' & Hcase).
    exists c'. split; [exact Hc'|]. cbn. intuition.
  - unfold mbind, M_bind in Hop.
    destruct (GetNewFrame chrono _) as [[b s1]|] eqn:Hrun1; [|done].
    injection Hop as <-.
    pose proof (ensures_elim _ _ _ _ _
                  (GetNewFrame_untouched chrono
                     {| this := o; os := kernel sys; trace := [] |} Hin) Hrun1)
      as Hos.
    exists c. rewrite (sem_count_untouched _ _ n Hos). auto.
Qed.

Lemma publish_steps_cons (st : step) (steps : list step) :
  publish_steps (st :: steps)
  = (if step_publishes st then 1 else 0) + publish_steps steps.
Proof.
  unfold publish_steps. rewrite filter_cons.
  destruct (step_publishes st).
  - rewrite decide_True by done. rewrite length_cons. lia.
  - rewrite decide_False by done. lia.
Qed.

Lemma publish_steps_nonneg (steps : list step) : 0 <= publish_steps steps.
Proof. unfold publish_steps. lia. Qed.

(** Along publishes and polls by any parties, a semaphore count rises by
    at most the number of publishes and never falls, as long as the
    publishes fit under the maximum. *)
Lemma history_count_monotone (chrono : bool) (steps : list step) :
  forall (sys sys' : system) (n : string) (c : Z),
    bounded_semaphores (objects (kernel sys)) ->
    forallb publish_or_poll steps = true ->
    history chrono steps sys = Some sys' ->
    sem_count (kernel sys) n = Some c ->
    c + publish_steps steps <= LONG_MAX ->
    exists c', sem_count (kernel sys') n = Some c'
      /\ c <= c' <= c + publish_steps steps.
Proof.
  induction steps as [|st steps IH]; intros sys sys' n c Hin Hkind Hrun Hc Hmax.
  - cbn in Hrun. injection Hrun as <-. exists c. split; [done|].
    unfold publish_steps. cbn. lia.
  - cbn in Hrun, Hkind. apply andb_true_iff in Hkind as [Hst Hrest].
    destruct (do_step chrono st sys) as [sys1|] eqn:Hstep; [|done].
    rewrite publish_steps_cons in Hmax |- *.
    pose proof (publish_steps_nonneg steps) as Hnn.
    destruct (do_step_count chrono st sys sys1 n c Hin Hst Hstep Hc)
      as (c1 & Hc1 & Hcase).
    pose proof (do_step_in_range chrono st sys sys1 Hin Hstep) as Hin1.
    assert (Hc1' : c <= c1 <= c + (if step_publishes st then 1 else 0)).
    { destruct Hcase as [->|[Hp [->|[-> ->]]]].
      - destruct (step_publishes st); lia.
      - rewrite Hp. lia.
      - rewrite Hp in Hmax. lia. }
    destruct (IH sys1 sys' n c1 Hin1 Hrest Hrun Hc1) as (c' & Hc' & Hb).
    + lia.
    + exists c'. split; [exact Hc'|]. lia.
Qed.

Lemma sem_count_Some (w : OS) (n : string) (c : Z) :
  sem_count w n = Some c <-> exists r, objects w !! n = Some (KSemaphore c r).
Proof.
  unfold sem_count. split.
  - destruct (objects w !! n) as [[c0 r| |]|]; try done.
    intros [= ->]. eauto.
  - intros [r ->]. done.
Qed.

(** X4. What a receiver reads never goes back. An enabled receiver polls;
    then any parties publish and poll in any order (the publishes fitting
    under the maximum count); then the receiver polls again: the frame number
    it reads the second time is at least the one it read first, and exceeds
    it by at most the number of publishes in between. *)
Theorem receiver_frame_never_goes_back
    (chrono : bool) (n : string) (c : Z) (r : nat) (s s1 s2 : state)
    (others : list spoutFrameCount) (steps : list step) (sys' : system)
    (isNew1 isNew2 : bool)
    (Hen : channel_enabled (this s))
    (Hh : m_hCountSemaphore (this s) = Some (SemaphoreHandle n))
    (Hin : bounded_semaphores (objects (os s)))
    (Hobj : objects (os s) !! n = Some (KSemaphore c r))
    (Hpoll1 : GetNewFrame chrono s = Some (isNew1, s1))
    (Hkind : forallb publish_or_poll steps = true)
    (Hhist : history chrono steps {| parties := others; kernel := os s1 |}
             = Some sys')
    (Hmax : c + publish_steps steps <= LONG_MAX)
    (Hpoll2 : run (GetNewFrame chrono) (this s1) (kernel sys')
              = Some (isNew2, s2)) :
  m_FrameCount (this s1) <= m_FrameCount (this s2)
  /\ m_FrameCount (this s2) <= m_FrameCount (this s1) + publish_steps steps.
Proof.
  destruct (GetNewFrame_semaphore chrono n c r s Hen Hh Hobj (Hin _ _ _ Hobj))
    as (s1' & Hrun1 & Hfc1 & Hen1 & Hh1 & Hobj1 & _).
  rewrite Hpoll1 in Hrun1. injection Hrun1 as _ <-.
  assert (Hin1 : bounded_semaphores (objects (os s1))) by by rewrite Hobj1.
  assert (Hc1 : sem_count (os s1) n = Some c).
  { apply sem_count_Some. exists r. by rewrite Hobj1. }
  destruct (history_count_monotone chrono steps
              {| parties := others; kernel := os s1 |} sys' n c
              Hin1 Hkind Hhist Hc1 Hmax) as (c' & Hc' & Hb).
  apply sem_count_Some in Hc' as [r' Hobj'].
  pose proof (history_keeps_range chrono steps
                {| parties := others; kernel := os s1 |} sys' Hin1 Hhist)
    as Hin'.
  destruct (GetNewFrame_semaphore chrono n c' r'
              {| this := this s1; os := kernel sys'; trace := [] |}
              Hen1 Hh1 Hobj' (Hin' _ _ _ Hobj'))
    as (s2' & Hrun2 & Hfc2 & _).
  unfold run in Hpoll2. rewrite Hpoll2 in Hrun2. injection Hrun2 as _ <-.
  rewrite Hfc1, Hfc2. lia.
Qed.

Lemma receiver_frame_never_goes_back_witness :
  exists isNew1 s1 sys' isNew2 s2,
    GetNewFrame true demo_fresh_state = Some (isNew1, s1)
    /\ history true [Call 0 OpSetNewFrame; Call 0 OpSetNewFrame]
         {| parties := [demo_fresh_object]; kernel := os s1 |} = Some sys'
    /\ run (GetNewFrame true) (this s1) (kernel sys') = Some (isNew2, s2)
    /\ m_FrameCount (this s1) <= m_FrameCount (this s2)
    /\ m_FrameCount (this s2)
       <= m_FrameCount (this s1)
          + publish_steps [Call 0 OpSetNewFrame; Call 0 OpSetNewFrame].
Proof.
  do 5 eexists.
  split; [vm_compute; reflexivity|].
  split; [vm_compute; reflexivity|].
  split; [vm_compute; reflexivity|].
  eapply (receiver_frame_never_goes_back true "cam_Count_Semaphore" 1 1
            demo_fresh_state _ _ [demo_fresh_object]
            [Call 0 OpSetNewFrame; Call 0 OpSetNewFrame]).
  - split; vm_compute; reflexivity.
  - vm_compute; reflexivity.
  - change (bounded_semaphores {[ "cam_Count_Semaphore" := KSemaphore 1 1 ]}).
    apply bounded_singleton. unfold LONG_MAX. lia.
  - vm_compute; reflexivity.
  - vm_compute; reflexivity.
  - reflexivity.
  - vm_compute; reflexivity.
  - vm_compute. discriminate.
  - vm_compute; reflexivity.
Defined.

(* ===================================================================== *)
(** ** Enabling a channel: opening, failing, long names *)
(* ===================================================================== *)

Section EnablePaths.

Variable USE_CHRONO : bool.

(** [EnableFrameCount] up to the creation of the semaphore, for an object
    that passes the gates and holds no semaphore handle. *)
Lemma EnableFrameCount_no_handle (SenderName : string) (s : state) :
  channel_enabled (this s) ->
  SenderName <> "" ->
  m_hCountSemaphore (this s) = None ->
  exists s0,
    this s0 = set_m_millisForFrame 0%float
                (set_m_SenderFps
                   (fold_left (λ _ f, double_of_Z f) (display_modes (os s)) 60%float)
                   (set_m_FrameTimeNumber 0%float
                      (set_m_FrameTimeTotal 0%float
                         (set_m_LastFrameCount 0
                            (set_m_FrameCount 0 (this s))))))
    /\ os s0 = os s /\ trace s0 = trace s
    /\ exists s1,
         reset_timers USE_CHRONO s0 = Some (tt, s1)
         /\ counter_fields (this s1) = counter_fields (this s0)
         /\ os_untouched (os s) (os s1)
         /\ trace s1 = trace s
         /\ EnableFrameCount USE_CHRONO SenderName s
            = (SpoutLogNotice "SpoutFrameCount::EnableFrameCount : sender name [%s]";;
               name ← checked_copy 256 SenderName;
               modify_this (set_m_SenderName name);;
               semname ← checked_copy 256 (count_semaphore_name SenderName);
               modify_this (set_m_CountSemaphoreName semname);;
               r ← CreateSemaphoreA semname;
               if r.2 =? ERROR_INVALID_HANDLE then
                 SpoutLogError "    Invalid semaphore handle"
               else
                 (if r.2 =? ERROR_ALREADY_EXISTS
                  then SpoutLogNotice "    Semaphore already exists"
                  else mret tt);;
                 match r.1 with
                 | None => SpoutLogError "    Unknown error"
                 | Some h =>
                     modify_this (set_m_hCountSemaphore (Some h));;
                     SpoutLogNotice "    Semaphore handle [0x%.7X]"
                 end) s1.
Proof.
  intros [Hf Hd] Hname Hnone.
  eexists {| this := _; os := os s; trace := trace s |}.
  split; [reflexivity|]. split; [reflexivity|]. split; [reflexivity|].
  match goal with
  | |- context [reset_timers USE_CHRONO ?s0] =>
      destruct (reset_timers_frame USE_CHRONO s0)
        as (s1 & Hrun & Hc & _ & _ & Hos & Htr)
  end.
  exists s1. split; [exact Hrun|]. split; [exact Hc|].
  split; [exact Hos|]. split; [exact Htr|].
  unfold EnableFrameCount at 1. munfold. rewrite Hf, Hd. cbn.
  assert (String.eqb SenderName "" = false) as -> by by apply String.eqb_neq.
  unfold GetRefreshRate. munfold. cbn. rewrite Hrun.
  unfold counter_fields in Hc. cbn in Hc.
  injection Hc as _ Hc2 _ _ _ _ _ _ _.
  rewrite Hc2, Hnone. cbn. reflexivity.
Qed.

Lemma length_append (a b : string) :
  String.length (String.append a b) = (String.length a + String.length b)%nat.
Proof. induction a as [|ch a IH]; [done|]. simpl. by f_equal. Qed.

Lemma os_untouched_can_allocate (w w' : OS) :
  os_untouched w w' -> can_allocate w' = can_allocate w.
Proof. unfold os_untouched. by intros ->. Qed.

Lemma checked_copy_fits (size : Z) (src : string) (s : state) :
  Z.of_nat (String.length src) < size ->
  checked_copy size src s = Some (src, s).
Proof.
  intros H. unfold checked_copy. apply Z.ltb_lt in H. by rewrite H.
Qed.

(** The first enable of an object: the semaphore is opened or created, the
    names are stored. *)
Lemma EnableFrameCount_first
    (SenderName : string) (s : state)
    (Hen : channel_enabled (this s))
    (Hname : SenderName <> "")
    (Hnone : m_hCountSemaphore (this s) = None)
    (Hlen : Z.of_nat (String.length (count_semaphore_name SenderName)) < 256)
    (Halloc : can_allocate (os s) = true)
    (Hfree : semaphore_or_free
               (objects (os s) !! count_semaphore_name SenderName)) :
  exists s',
    EnableFrameCount USE_CHRONO SenderName s = Some (tt, s')
    /\ m_hCountSemaphore (this s')
       = Some (SemaphoreHandle (count_semaphore_name SenderName))
    /\ m_SenderName (this s') = SenderName
    /\ m_CountSemaphoreName (this s') = count_semaphore_name SenderName
    /\ m_FrameCount (this s') = 0
    /\ m_LastFrameCount (this s') = 0
    /\ channel_enabled (this s')
    /\ objects (os s')
       = <[count_semaphore_name SenderName
           := opened_semaphore
                (objects (os s) !! count_semaphore_name SenderName)]>
           (objects (os s)).
Proof.
  destruct (EnableFrameCount_no_handle SenderName s Hen Hname Hnone)
    as (s0 & Hthis0 & _ & _ & s1 & _ & Hc & Hos & _ & ->).
  rewrite Hthis0 in Hc. unfold counter_fields in Hc. cbn in Hc.
  injection Hc as Hc1 Hc2 Hc3 Hc4 Hc5 Hc6 Hc7 Hc8 Hc9.
  destruct Hen as [Hf Hd].
  assert (Hlen' : Z.of_nat (String.length SenderName) < 256).
  { unfold count_semaphore_name in Hlen. rewrite length_append in Hlen. lia. }
  log_unfold. munfold. cbn.
  rewrite (checked_copy_fits 256 SenderName) by exact Hlen'. cbn.
  rewrite (checked_copy_fits 256 (count_semaphore_name SenderName))
    by exact Hlen. cbn.
  unfold CreateSemaphoreA. munfold. cbn.
  rewrite (os_untouched_objects _ _ Hos), (os_untouched_can_allocate _ _ Hos),
    Halloc.
  unfold channel_enabled.
  destruct Hfree as [Hfree|(c & r & Hfree)]; rewrite Hfree; cbn;
    (eexists; split; [reflexivity|]); cbn;
    rewrite Hc5, Hc6, Hc8, Hc9; by repeat split.
Qed.

(** X5. Opening a channel. An object that passes the gates and has no
    semaphore handle enables a sender name that is not empty and short enough
    for the buffer, on a system that can give a handle and where the
    semaphore name is unused or a semaphore. Then [EnableFrameCount] returns
    with the handle of the semaphore named <name>_Count_Semaphore, the names
    stored, frame number and comparator at 0; an existing semaphore is
    opened with its count kept (one more handle), a missing one is created
    at count 1. *)
Theorem EnableFrameCount_opens
    (SenderName : string) (s : state)
    (Hen : channel_enabled (this s))
    (Hname : SenderName <> "")
    (Hnone : m_hCountSemaphore (this s) = None)
    (Hlen : Z.of_nat (String.length (count_semaphore_name SenderName)) < 256)
    (Halloc : can_allocate (os s) = true)
    (Hfree : semaphore_or_free
               (objects (os s) !! count_semaphore_name SenderName)) :
  exists s',
    EnableFrameCount USE_CHRONO SenderName s = Some (tt, s')
    /\ m_hCountSemaphore (this s')
       = Some (SemaphoreHandle (count_semaphore_name SenderName))
    /\ m_SenderName (this s') = SenderName
    /\ m_CountSemaphoreName (this s') = count_semaphore_name SenderName
    /\ m_FrameCount (this s') = 0
    /\ m_LastFrameCount (this s') = 0
    /\ channel_enabled (this s')
    /\ objects (os s')
       = <[count_semaphore_name SenderName
           := opened_semaphore
                (objects (os s) !! count_semaphore_name SenderName)]>
           (objects (os s)).
Proof.
  exact (EnableFrameCount_first SenderName s Hen Hname Hnone Hlen Halloc Hfree).
Qed.

(** X6. When the semaphore cannot be had, the channel stays closed and the
    methods fail open. An object that passes the gates and has no semaphore
    handle enables a sender name that is not empty and short enough for the
    buffer, on a system that cannot give a handle or where the semaphore
    name belongs to an object of another kind. [EnableFrameCount] logs an
    error and returns without handle and without touching a kernel object;
    afterwards a poll returns [true] and a publish leaves the frame number
    at 0. *)
Theorem EnableFrameCount_fails_open
    (SenderName : string) (s : state)
    (Hen : channel_enabled (this s))
    (Hname : SenderName <> "")
    (Hnone : m_hCountSemaphore (this s) = None)
    (Hlen : Z.of_nat (String.length (count_semaphore_name SenderName)) < 256)
    (Hfail : can_allocate (os s) = false
             \/ ~ semaphore_or_free
                    (objects (os s) !! count_semaphore_name SenderName)) :
  exists s' evs,
    EnableFrameCount USE_CHRONO SenderName s = Some (tt, s')
    /\ m_hCountSemaphore (this s') = None
    /\ objects (os s') = objects (os s)
    /\ emitted s s' evs /\ Exists (λ e, error_log e = true) evs
    /\ (exists s2, GetNewFrame USE_CHRONO s' = Some (true, s2))
    /\ (exists s3, SetNewFrame USE_CHRONO s' = Some (tt, s3)
                   /\ m_FrameCount (this s3) = 0).
Proof.
  destruct (EnableFrameCount_no_handle SenderName s Hen Hname Hnone)
    as (s0 & Hthis0 & _ & _ & s1 & _ & Hc & Hos & Htr & ->).
  rewrite Hthis0 in Hc. unfold counter_fields in Hc. cbn in Hc.
  injection Hc as Hc1 Hc2 Hc3 Hc4 Hc5 Hc6 Hc7 Hc8 Hc9.
  rewrite Hnone in Hc2.
  destruct Hen as [Hf Hd].
  assert (Hlen' : Z.of_nat (String.length SenderName) < 256).
  { unfold count_semaphore_name in Hlen. rewrite length_append in Hlen. lia. }
  assert (Hafter : forall s',
            m_hCountSemaphore (this s') = None ->
            m_bFrameCount (this s') = true ->
            m_bDisabled (this s') = false ->
            m_FrameCount (this s') = 0 ->
            (exists s2, GetNewFrame USE_CHRONO s' = Some (true, s2))
            /\ (exists s3, SetNewFrame USE_CHRONO s' = Some (tt, s3)
                           /\ m_FrameCount (this s3) = 0)).
  { intros s' Hh' Hf' Hd' Hz'. split.
    - destruct (GetNewFrame_gated USE_CHRONO s') as (s2 & Hrun & _); eauto.
    - unfold SetNewFrame, WaitForSingleObject. log_unfold. munfold.
      rewrite Hf', Hd', Hh'. cbn. eexists. split; [reflexivity|]. exact Hz'. }
  log_unfold. munfold. cbn.
  rewrite (checked_copy_fits 256 SenderName) by exact Hlen'. cbn.
  rewrite (checked_copy_fits 256 (count_semaphore_name SenderName))
    by exact Hlen. cbn.
  unfold CreateSemaphoreA. munfold. cbn.
  rewrite (os_untouched_objects _ _ Hos), (os_untouched_can_allocate _ _ Hos).
  unfold emitted.
  destruct (objects (os s) !! count_semaphore_name SenderName)
    as [[c r|r|]|] eqn:Hobj; cbn.
  - destruct Hfail as [Ha|Hnf]; [|destruct Hnf; right; eauto].
    rewrite Ha. cbn.
    do 2 eexists. split; [reflexivity|]. cbn. rewrite Htr, <- app_assoc. cbn.
    split; [exact Hc2|]. split; [by apply os_untouched_objects|].
    split; [reflexivity|]. split; [by apply Exists_cons_tl, Exists_cons_hd|].
    apply Hafter; cbn; congruence.
  - do 2 eexists. split; [reflexivity|]. cbn. rewrite Htr, <- app_assoc. cbn.
    split; [exact Hc2|]. split; [by apply os_untouched_objects|].
    split; [reflexivity|]. split; [by apply Exists_cons_tl, Exists_cons_hd|].
    apply Hafter; cbn; congruence.
  - do 2 eexists. split; [reflexivity|]. cbn. rewrite Htr, <- app_assoc. cbn.
    split; [exact Hc2|]. split; [by apply os_untouched_objects|].
    split; [reflexivity|]. split; [by apply Exists_cons_tl, Exists_cons_hd|].
    apply Hafter; cbn; congruence.
  - destruct Hfail as [Ha|Hnf]; [|destruct Hnf; by left].
    rewrite Ha. cbn.
    do 2 eexists. split; [reflexivity|]. cbn. rewrite Htr, <- app_assoc. cbn.
    split; [exact Hc2|]. split; [by apply os_untouched_objects|].
    split; [reflexivity|]. split; [by apply Exists_cons_tl, Exists_cons_hd|].
    apply Hafter; cbn; congruence.
Qed.

(** X7. A sender name too long for the buffer ends the process. For an
    object that passes the gates and holds no semaphore handle, a non-empty
    sender name whose semaphore name (the name and the 16 characters of the
    suffix) does not fit the 256-character buffer with its terminator, that
    is a name of 240 characters or more, makes [EnableFrameCount] run into
    the invalid-parameter handler; shorter names never do. *)
Theorem EnableFrameCount_long_name
    (SenderName : string) (s : state)
    (Hen : channel_enabled (this s))
    (Hname : SenderName <> "")
    (Hnone : m_hCountSemaphore (this s) = None) :
  EnableFrameCount USE_CHRONO SenderName s = None
  <-> 240 <= Z.of_nat (String.length SenderName).
Proof.
  destruct (EnableFrameCount_no_handle SenderName s Hen Hname Hnone)
    as (s0 & _ & _ & _ & s1 & _ & _ & _ & _ & ->).
  assert (Hlen : Z.of_nat (String.length (count_semaphore_name SenderName))
                 = Z.of_nat (String.length SenderName) + 16).
  { unfold count_semaphore_name. rewrite length_append. cbn. lia. }
  log_unfold. munfold. cbn. unfold checked_copy at 1.
  destruct (Z.of_nat (String.length SenderName) <? 256) eqn:H1; cbn.
  2:{ apply Z.ltb_ge in H1. split; [lia|done]. }
  unfold checked_copy. rewrite Hlen.
  destruct (Z.of_nat (String.length SenderName) + 16 <? 256) eqn:H2; cbn.
  2:{ apply Z.ltb_ge in H2. split; [lia|done]. }
  apply Z.ltb_lt in H2. split; [|lia].
  unfold CreateSemaphoreA. munfold. cbn.
  destruct (objects (os s1) !! count_semaphore_name SenderName)
    as [[c r|r|]|]; cbn; try discriminate;
    destruct (can_allocate (os s1)); cbn; discriminate.
Qed.

End EnablePaths.

(** A late receiver: the semaphore of "cam" exists at count 7. *)
Lemma EnableFrameCount_opens_witness :
  exists s',
    EnableFrameCount true "cam"
      (demo_unopened_state {[ "cam_Count_Semaphore" := KSemaphore 7 1 ]})
    = Some (tt, s')
    /\ m_hCountSemaphore (this s')
       = Some (SemaphoreHandle (count_semaphore_name "cam"))
    /\ m_SenderName (this s') = "cam"
    /\ m_CountSemaphoreName (this s') = count_semaphore_name "cam"
    /\ m_FrameCount (this s') = 0
    /\ m_LastFrameCount (this s') = 0
    /\ channel_enabled (this s')
    /\ objects (os s')
       = <[count_semaphore_name "cam"
           := opened_semaphore
                (objects (os (demo_unopened_state
                                {[ "cam_Count_Semaphore" := KSemaphore 7 1 ]}))
                   !! count_semaphore_name "cam")]>
           (objects (os (demo_unopened_state
                           {[ "cam_Count_Semaphore" := KSemaphore 7 1 ]}))).
Proof.
  apply (EnableFrameCount_opens true "cam"
           (demo_unopened_state {[ "cam_Count_Semaphore" := KSemaphore 7 1 ]})).
  - split; vm_compute; reflexivity.
  - discriminate.
  - vm_compute; reflexivity.
  - vm_compute; reflexivity.
  - vm_compute; reflexivity.
  - right. exists 7, 1%nat. vm_compute; reflexivity.
Defined.

(** The name of the semaphore of "cam" is taken by a mutex. *)
Lemma EnableFrameCount_fails_open_witness :
  exists s' evs,
    EnableFrameCount true "cam"
      (demo_unopened_state {[ "cam_Count_Semaphore" := KMutex 1 ]})
    = Some (tt, s')
    /\ m_hCountSemaphore (this s') = None
    /\ objects (os s')
       = objects (os (demo_unopened_state
                        {[ "cam_Count_Semaphore" := KMutex 1 ]}))
    /\ emitted (demo_unopened_state {[ "cam_Count_Semaphore" := KMutex 1 ]})
         s' evs
    /\ Exists (λ e, error_log e = true) evs
    /\ (exists s2, GetNewFrame true s' = Some (true, s2))
    /\ (exists s3, SetNewFrame true s' = Some (tt, s3)
                   /\ m_FrameCount (this s3) = 0).
Proof.
  apply (EnableFrameCount_fails_open true "cam"
           (demo_unopened_state {[ "cam_Count_Semaphore" := KMutex 1 ]})).
  - split; vm_compute; reflexivity.
  - discriminate.
  - vm_compute; reflexivity.
  - vm_compute; reflexivity.
  - right. intros [H|(c & r & H)]; vm_compute in H; discriminate.
Defined.

(** A name of 240 characters. *)
Lemma EnableFrameCount_long_name_witness :
  EnableFrameCount true demo_long_name (demo_unopened_state ∅) = None
  <-> 240 <= Z.of_nat (String.length demo_long_name).
Proof.
  apply (EnableFrameCount_long_name true demo_long_name
           (demo_unopened_state ∅)).
  - split; vm_compute; reflexivity.
  - vm_compute. discriminate.
  - vm_compute; reflexivity.
Defined.

(* ===================================================================== *)
(** ** Lifetimes of the kernel objects *)
(* ===================================================================== *)

Lemma CloseHandle_closed (h : HANDLE) (s : state) :
  CloseHandle h s
  = Some (tt, {| this := this s;
                 os := set_objects (closed_handle h (objects (os s))) (os s);
                 trace := trace s |}).
Proof.
  unfold CloseHandle, closed_handle. munfold.
  destruct (objects (os s) !! handle_name h) as [k|] eqn:Hk.
  - destruct (close_object h k); reflexivity.
  - rewrite set_objects_id. by destruct s.
Qed.

Lemma closed_opened_semaphore (n : string) (objs : gmap string kobj) :
  live_semaphore_or_free (objs !! n) ->
  closed_handle (SemaphoreHandle n) (<[n := opened_semaphore (objs !! n)]> objs)
  = objs.
Proof.
  intros [H|(c & r & H)]; unfold closed_handle; cbn [handle_name];
    rewrite lookup_insert_eq, H; cbn.
  - by apply delete_insert_id.
  - rewrite insert_insert_eq. by apply insert_id.
Qed.

Lemma live_semaphore_is_free (k : option kobj) :
  live_semaphore_or_free k -> semaphore_or_free k.
Proof. intros [H|(c & r & H)]; [by left|right; eauto]. Qed.

(** [CleanupFrameCount] on an object that holds a semaphore handle. *)
Lemma CleanupFrameCount_closes (h : HANDLE) (s : state) :
  m_hCountSemaphore (this s) = Some h ->
  exists s',
    CleanupFrameCount s = Some (tt, s')
    /\ objects (os s') = closed_handle h (objects (os s))
    /\ m_hCountSemaphore (this s') = None
    /\ m_SenderName (this s') = ""
    /\ m_FrameCount (this s') = 0
    /\ m_LastFrameCount (this s') = 0
    /\ m_hAccessMutex (this s') = m_hAccessMutex (this s)
    /\ m_bFrameCount (this s') = m_bFrameCount (this s)
    /\ m_bDisabled (this s') = m_bDisabled (this s).
Proof.
  intros Hh. unfold CleanupFrameCount, GetRefreshRate. log_unfold. munfold.
  rewrite Hh. cbn. rewrite CloseHandle_closed. cbn.
  eexists. split; [reflexivity|]. cbn. by repeat split.
Qed.

Lemma list_ascii_of_string_app (a b : string) :
  String.list_ascii_of_string (String.append a b)
  = String.list_ascii_of_string a ++ String.list_ascii_of_string b.
Proof. induction a as [|ch a IH]; [done|]. simpl. by f_equal. Qed.

(** Two sender names with the same suffixed name are the same name. *)
Lemma append_suffix_inj (a b suffix : string) :
  String.append a suffix = String.append b suffix -> a = b.
Proof.
  intros H. apply (f_equal String.list_ascii_of_string) in H.
  rewrite !list_ascii_of_string_app in H. apply app_inv_tail in H.
  rewrite <- (String.string_of_list_ascii_of_string a),
          <- (String.string_of_list_ascii_of_string b).
  by rewrite H.
Qed.

Lemma closed_handle_other (h : HANDLE) (n : string) (objs : gmap string kobj) :
  handle_name h <> n -> closed_handle h objs !! n = objs !! n.
Proof.
  intros Hne. unfold closed_handle.
  destruct (objs !! handle_name h) as [k|]; [|done].
  destruct (close_object h k).
  - by rewrite lookup_insert_ne.
  - by rewrite lookup_delete_ne.
Qed.

Section Lifetimes.

Variable USE_CHRONO : bool.

(** X8. A receiver that joins a running sender. The semaphore of the name
    exists with a count [c] above 1 (the sender has published [c - 1]
    frames). After [EnableFrameCount], the first [GetNewFrame] returns
    [true] and stores [c - 1] as frame number and comparator; the count of
    the semaphore is still [c], with one more handle. *)
Theorem late_receiver_first_poll
    (SenderName : string) (c : Z) (r : nat) (s : state)
    (Hen : channel_enabled (this s))
    (Hname : SenderName <> "")
    (Hnone : m_hCountSemaphore (this s) = None)
    (Hlen : Z.of_nat (String.length (count_semaphore_name SenderName)) < 256)
    (Halloc : can_allocate (os s) = true)
    (Hobj : objects (os s) !! count_semaphore_name SenderName
            = Some (KSemaphore c r))
    (Hc : 1 < c <= LONG_MAX) :
  exists s' s'',
    EnableFrameCount USE_CHRONO SenderName s = Some (tt, s')
    /\ GetNewFrame USE_CHRONO s' = Some (true, s'')
    /\ m_FrameCount (this s'') = c - 1
    /\ m_LastFrameCount (this s'') = c - 1
    /\ objects (os s'') !! count_semaphore_name SenderName
       = Some (KSemaphore c (S r)).
Proof.
  destruct (EnableFrameCount_first USE_CHRONO SenderName s Hen Hname Hnone
              Hlen Halloc)
    as (s' & Hrun & Hh & _ & _ & _ & Hl & Hen' & Hobjs).
  { right. eauto. }
  rewrite Hobj in Hobjs. cbn in Hobjs.
  assert (Hobj' : objects (os s') !! count_semaphore_name SenderName
                  = Some (KSemaphore c (S r))).
  { rewrite Hobjs. apply lookup_insert_eq. }
  destruct (GetNewFrame_semaphore USE_CHRONO _ c (S r) s' Hen' Hh Hobj')
    as (s'' & Hpoll & Hf & _ & _ & Hkeep & Hlast & _); [lia|].
  replace (Z.max 0 (c - 1)) with (c - 1) in * by lia.
  exists s', s''. split; [exact Hrun|]. split.
  - rewrite Hpoll, Hl. f_equal. f_equal.
    assert ((c - 1 =? 0) = false) as -> by (apply Z.eqb_neq; lia).
    by rewrite orb_false_r.
  - split; [exact Hf|]. split; [apply Hlast; lia|]. by rewrite Hkeep.
Qed.

(** X9. Enabling and cleaning up is a round trip on the kernel objects.
    For an object that passes the gates and has no semaphore handle, a name
    that is not empty and short enough for the buffer, and a system that can
    give a handle: where the name of the semaphore is unused, or a semaphore
    that somebody holds, [EnableFrameCount] followed by [CleanupFrameCount]
    leaves the kernel objects as they were: a semaphore created by the enable is gone
    again, one that existed keeps its count and its other handles. The
    object is left without handle and sender name, at frame 0. *)
Theorem EnableFrameCount_CleanupFrameCount_round_trip
    (SenderName : string) (s : state)
    (Hen : channel_enabled (this s))
    (Hname : SenderName <> "")
    (Hnone : m_hCountSemaphore (this s) = None)
    (Hlen : Z.of_nat (String.length (count_semaphore_name SenderName)) < 256)
    (Halloc : can_allocate (os s) = true)
    (Hlive : live_semaphore_or_free
               (objects (os s) !! count_semaphore_name SenderName)) :
  exists s' s'',
    EnableFrameCount USE_CHRONO SenderName s = Some (tt, s')
    /\ CleanupFrameCount s' = Some (tt, s'')
    /\ objects (os s'') = objects (os s)
    /\ m_hCountSemaphore (this s'') = None
    /\ m_SenderName (this s'') = ""
    /\ m_FrameCount (this s'') = 0
    /\ channel_enabled (this s'').
Proof.
  destruct (EnableFrameCount_first USE_CHRONO SenderName s Hen Hname Hnone
              Hlen Halloc (live_semaphore_is_free _ Hlive))
    as (s' & Hrun & Hh & _ & _ & _ & _ & [Hf Hd] & Hobjs).
  destruct (CleanupFrameCount_closes _ s' Hh)
    as (s'' & Hclean & Hobjs' & Hh' & Hn' & Hfc & _ & _ & Hf' & Hd').
  exists s', s''. split; [exact Hrun|]. split; [exact Hclean|].
  split; [|split; [exact Hh'|split; [exact Hn'|split; [exact Hfc|]]]].
  - rewrite Hobjs', Hobjs. by apply closed_opened_semaphore.
  - split; congruence.
Qed.

(** [EnableFrameCount] up to the creation of the semaphore, for an object
    that passes the gates and holds a handle for another sender name. *)
Lemma EnableFrameCount_other_name (SenderName : string) (h : HANDLE)
    (s : state) :
  channel_enabled (this s) ->
  SenderName <> "" ->
  m_hCountSemaphore (this s) = Some h ->
  m_SenderName (this s) <> SenderName ->
  exists s1,
    counter_fields (this s1)
    = counter_fields (set_m_LastFrameCount 0 (set_m_FrameCount 0 (this s)))
    /\ os_untouched (os s) (os s1)
    /\ trace s1 = trace s
    /\ EnableFrameCount USE_CHRONO SenderName s
       = (SpoutLogNotice "SpoutFrameCount::EnableFrameCount : sender name [%s]";;
          CloseHandle h;;
          modify_this (set_m_hCountSemaphore None);;
          modify_this (set_m_CountSemaphoreName "");;
          name ← checked_copy 256 SenderName;
          modify_this (set_m_SenderName name);;
          semname ← checked_copy 256 (count_semaphore_name SenderName);
          modify_this (set_m_CountSemaphoreName semname);;
          r ← CreateSemaphoreA semname;
          if r.2 =? ERROR_INVALID_HANDLE then
            SpoutLogError "    Invalid semaphore handle"
          else
            (if r.2 =? ERROR_ALREADY_EXISTS
             then SpoutLogNotice "    Semaphore already exists"
             else mret tt);;
            match r.1 with
            | None => SpoutLogError "    Unknown error"
            | Some h =>
                modify_this (set_m_hCountSemaphore (Some h));;
                SpoutLogNotice "    Semaphore handle [0x%.7X]"
            end) s1.
Proof.
  intros [Hf Hd] Hname Hh Hother.
  match goal with
  | |- context [counter_fields ?t] =>
      destruct (reset_timers_frame USE_CHRONO
                  {| this := set_m_millisForFrame 0%float
                       (set_m_SenderFps
                          (fold_left (λ _ f, double_of_Z f)
                             (display_modes (os s)) 60%float)
                          (set_m_FrameTimeNumber 0%float
                             (set_m_FrameTimeTotal 0%float
                                (set_m_LastFrameCount 0
                                   (set_m_FrameCount 0 (this s))))));
                     os := os s; trace := trace s |})
        as (s1 & Hrun & Hc & _ & _ & Hos & Htr)
  end.
  exists s1. split; [exact Hc|]. split; [exact Hos|]. split; [exact Htr|].
  unfold EnableFrameCount at 1. munfold. rewrite Hf, Hd. cbn.
  assert (String.eqb SenderName "" = false) as -> by by apply String.eqb_neq.
  unfold GetRefreshRate. munfold. cbn. rewrite Hrun.
  unfold counter_fields in Hc. cbn in Hc.
  injection Hc as _ Hc2 Hc3 _ _ _ _ _ _.
  rewrite Hc2, Hc3, Hh. cbn.
  assert (String.eqb SenderName (m_SenderName (this s)) = false) as ->
    by (apply String.eqb_neq; congruence).
  cbn. rewrite !CloseHandle_closed. reflexivity.
Qed.

(** X10. Switching to another sender gives the old semaphore back. An
    object enabled for one sender enables another name (not empty, short
    enough, its semaphore name unused or a semaphore, on a system that can
    give a handle). The handle of the old semaphore is closed before the
    new one is opened: the kernel objects afterwards are those after
    closing the old handle, with the new semaphore opened or created, and
    the object holds the new handle and name. *)
Theorem EnableFrameCount_switches_sender
    (SenderName : string) (s : state)
    (Hen : channel_enabled (this s))
    (Hname : SenderName <> "")
    (Hh : m_hCountSemaphore (this s)
          = Some (SemaphoreHandle (count_semaphore_name (m_SenderName (this s)))))
    (Hother : m_SenderName (this s) <> SenderName)
    (Hlen : Z.of_nat (String.length (count_semaphore_name SenderName)) < 256)
    (Halloc : can_allocate (os s) = true)
    (Hfree : semaphore_or_free
               (objects (os s) !! count_semaphore_name SenderName)) :
  exists s',
    EnableFrameCount USE_CHRONO SenderName s = Some (tt, s')
    /\ m_hCountSemaphore (this s')
       = Some (SemaphoreHandle (count_semaphore_name SenderName))
    /\ m_SenderName (this s') = SenderName
    /\ m_FrameCount (this s') = 0
    /\ m_LastFrameCount (this s') = 0
    /\ objects (os s')
       = <[count_semaphore_name SenderName
           := opened_semaphore
                (objects (os s) !! count_semaphore_name SenderName)]>
           (closed_handle
              (SemaphoreHandle (count_semaphore_name (m_SenderName (this s))))
              (objects (os s))).
Proof.
  destruct (EnableFrameCount_other_name SenderName _ s Hen Hname Hh Hother)
    as (s1 & Hc & Hos & _ & ->).
  unfold counter_fields in Hc. cbn in Hc.
  injection Hc as Hc1 Hc2 Hc3 Hc4 Hc5 Hc6 Hc7 Hc8 Hc9.
  assert (Hlen' : Z.of_nat (String.length SenderName) < 256).
  { unfold count_semaphore_name in Hlen. rewrite length_append in Hlen. lia. }
  assert (Hne : handle_name
                  (SemaphoreHandle (count_semaphore_name (m_SenderName (this s))))
                <> count_semaphore_name SenderName).
  { cbn. intros Heq. apply Hother. by apply append_suffix_inj in Heq. }
  log_unfold. munfold. cbn. rewrite CloseHandle_closed. cbn.
  rewrite (checked_copy_fits 256 SenderName) by exact Hlen'. cbn.
  rewrite (checked_copy_fits 256 (count_semaphore_name SenderName))
    by exact Hlen. cbn.
  unfold CreateSemaphoreA. munfold. cbn.
  rewrite (closed_handle_other _ _ _ Hne).
  rewrite (os_untouched_objects _ _ Hos), (os_untouched_can_allocate _ _ Hos),
    Halloc.
  destruct Hfree as [Hfree|(c & r & Hfree)]; rewrite Hfree; cbn;
    (eexists; split; [reflexivity|]); cbn;
    rewrite Hc5, Hc6; by repeat split.
Qed.

End Lifetimes.

(** A receiver joins the sender of "cam", which has published six frames. *)
Lemma late_receiver_first_poll_witness :
  exists s' s'',
    EnableFrameCount true "cam"
      (demo_unopened_state {[ "cam_Count_Semaphore" := KSemaphore 7 1 ]})
    = Some (tt, s')
    /\ GetNewFrame true s' = Some (true, s'')
    /\ m_FrameCount (this s'') = 7 - 1
    /\ m_LastFrameCount (this s'') = 7 - 1
    /\ objects (os s'') !! count_semaphore_name "cam"
       = Some (KSemaphore 7 (S 1)).
Proof.
  apply (late_receiver_first_poll true "cam" 7 1
           (demo_unopened_state {[ "cam_Count_Semaphore" := KSemaphore 7 1 ]})).
  - split; vm_compute; reflexivity.
  - discriminate.
  - vm_compute; reflexivity.
  - vm_compute; reflexivity.
  - vm_compute; reflexivity.
  - vm_compute; reflexivity.
  - unfold LONG_MAX. lia.
Defined.

(** The first object of sender "cam": the semaphore does not exist yet. *)
Lemma EnableFrameCount_CleanupFrameCount_round_trip_witness :
  exists s' s'',
    EnableFrameCount true "cam" (demo_unopened_state ∅) = Some (tt, s')
    /\ CleanupFrameCount s' = Some (tt, s'')
    /\ objects (os s'') = objects (os (demo_unopened_state ∅))
    /\ m_hCountSemaphore (this s'') = None
    /\ m_SenderName (this s'') = ""
    /\ m_FrameCount (this s'') = 0
    /\ channel_enabled (this s'').
Proof.
  apply (EnableFrameCount_CleanupFrameCount_round_trip true "cam"
           (demo_unopened_state ∅)).
  - split; vm_compute; reflexivity.
  - discriminate.
  - vm_compute; reflexivity.
  - vm_compute; reflexivity.
  - vm_compute; reflexivity.
  - left. vm_compute; reflexivity.
Defined.

(** The receiver of "cam" switches to sender "tv". *)
Lemma EnableFrameCount_switches_sender_witness :
  exists s',
    EnableFrameCount true "tv" demo_fresh_state = Some (tt, s')
    /\ m_hCountSemaphore (this s')
       = Some (SemaphoreHandle (count_semaphore_name "tv"))
    /\ m_SenderName (this s') = "tv"
    /\ m_FrameCount (this s') = 0
    /\ m_LastFrameCount (this s') = 0
    /\ objects (os s')
       = <[count_semaphore_name "tv"
           := opened_semaphore
                (objects (os demo_fresh_state) !! count_semaphore_name "tv")]>
           (closed_handle
              (SemaphoreHandle
                 (count_semaphore_name (m_SenderName (this demo_fresh_state))))
              (objects (os demo_fresh_state))).
Proof.
  apply (EnableFrameCount_switches_sender true "tv" demo_fresh_state).
  - split; vm_compute; reflexivity.
  - discriminate.
  - vm_compute; reflexivity.
  - vm_compute. discriminate.
  - vm_compute; reflexivity.
  - vm_compute; reflexivity.
  - left. vm_compute; reflexivity.
Defined.

(* ===================================================================== *)
(** ** The access mutex: creation, closing, lost handles *)
(* ===================================================================== *)

Lemma closed_opened_mutex (n : string) (objs : gmap string kobj) :
  live_mutex_or_free (objs !! n) ->
  closed_handle (MutexHandle n) (<[n := opened_mutex (objs !! n)]> objs) = objs.
Proof.
  intros [H|(r & H)]; unfold closed_handle; cbn [handle_name];
    rewrite lookup_insert_eq, H; cbn.
  - by apply delete_insert_id.
  - rewrite insert_insert_eq. by apply insert_id.
Qed.

Lemma live_mutex_is_free (k : option kobj) :
  live_mutex_or_free k -> mutex_or_free k.
Proof. intros [H|(r & H)]; [by left|right; eauto]. Qed.

(** A successful [CreateAccessMutex]. *)
Lemma CreateAccessMutex_opens (SenderName : string) (s : state) :
  Z.of_nat (String.length (access_mutex_name SenderName)) < 512 ->
  can_allocate (os s) = true ->
  mutex_or_free (objects (os s) !! access_mutex_name SenderName) ->
  exists evs,
    CreateAccessMutex SenderName s
    = Some (true,
            {| this := set_m_hAccessMutex
                         (Some (MutexHandle (access_mutex_name SenderName)))
                         (this s);
               os := set_objects
                       (<[access_mutex_name SenderName
                          := opened_mutex
                               (objects (os s) !! access_mutex_name SenderName)]>
                          (objects (os s)))
                       (os s);
               trace := trace s ++ evs |}).
Proof.
  intros Hlen Halloc Hfree. unfold CreateAccessMutex. munfold.
  change (String.append SenderName "_SpoutAccessMutex")
    with (access_mutex_name SenderName).
  rewrite (checked_copy_fits 512 (access_mutex_name SenderName)) by exact Hlen.
  unfold CreateMutexA. log_unfold. munfold. cbn. rewrite Halloc.
  destruct Hfree as [Hfree|(r & Hfree)]; rewrite Hfree; cbn;
    eexists; reflexivity.
Qed.

Lemma CloseAccessMutex_closes (h : HANDLE) (s : state) :
  m_hAccessMutex (this s) = Some h ->
  CloseAccessMutex s
  = Some (tt, {| this := set_m_hAccessMutex None (this s);
                 os := set_objects (closed_handle h (objects (os s))) (os s);
                 trace := trace s |}).
Proof.
  intros Hh. unfold CloseAccessMutex. munfold. rewrite Hh.
  rewrite CloseHandle_closed. reflexivity.
Qed.

(** X11. Creating and closing the access mutex is a round trip on the
    kernel objects. Where the name <name>_SpoutAccessMutex fits the
    512-character buffer and is unused, or a mutex that somebody holds, and
    the system can give a handle, [CreateAccessMutex] returns [true] and
    stores the handle of that mutex; [CloseAccessMutex] after it leaves the
    kernel objects as they were before the two calls, and the object without
    mutex handle. *)
Theorem CreateAccessMutex_CloseAccessMutex_round_trip
    (SenderName : string) (s : state)
    (Hlen : Z.of_nat (String.length (access_mutex_name SenderName)) < 512)
    (Halloc : can_allocate (os s) = true)
    (Hlive : live_mutex_or_free
               (objects (os s) !! access_mutex_name SenderName)) :
  exists s' s'',
    CreateAccessMutex SenderName s = Some (true, s')
    /\ m_hAccessMutex (this s')
       = Some (MutexHandle (access_mutex_name SenderName))
    /\ CloseAccessMutex s' = Some (tt, s'')
    /\ objects (os s'') = objects (os s)
    /\ m_hAccessMutex (this s'') = None.
Proof.
  destruct (CreateAccessMutex_opens SenderName s Hlen Halloc
              (live_mutex_is_free _ Hlive)) as (evs & Hrun).
  eexists _, _. split; [exact Hrun|]. split; [reflexivity|].
  split; [by apply CloseAccessMutex_closes|]. split; [|reflexivity].
  cbn. by apply closed_opened_mutex.
Qed.

(** X12. A second [CreateAccessMutex] loses the handle of the first. The
    object, which holds no semaphore, creates the access mutex of one sender
    and then of another (or of the same again), and is destroyed. The second
    call overwrites the stored handle without closing it, so the destructor
    closes the second handle only: the kernel objects at the end are those
    after the first call alone, the first mutex still open. *)
Theorem CreateAccessMutex_twice_loses_handle
    (first second : string) (s : state)
    (Hsem : m_hCountSemaphore (this s) = None)
    (Hlen1 : Z.of_nat (String.length (access_mutex_name first)) < 512)
    (Hlen2 : Z.of_nat (String.length (access_mutex_name second)) < 512)
    (Halloc : can_allocate (os s) = true)
    (Hfree : mutex_or_free (objects (os s) !! access_mutex_name first))
    (Hlive : live_mutex_or_free
               (objects (os s) !! access_mutex_name second)) :
  exists s1 s2 s3,
    CreateAccessMutex first s = Some (true, s1)
    /\ CreateAccessMutex second s1 = Some (true, s2)
    /\ destructor s2 = Some (tt, s3)
    /\ m_hAccessMutex (this s3) = None
    /\ objects (os s3)
       = <[access_mutex_name first
           := opened_mutex (objects (os s) !! access_mutex_name first)]>
           (objects (os s)).
Proof.
  destruct (CreateAccessMutex_opens first s Hlen1 Halloc Hfree)
    as (evs1 & Hrun1).
  set (objs1 := <[access_mutex_name first
                  := opened_mutex (objects (os s) !! access_mutex_name first)]>
                  (objects (os s))) in *.
  assert (Hlive1 : live_mutex_or_free (objs1 !! access_mutex_name second)).
  { unfold objs1.
    destruct (decide (access_mutex_name first = access_mutex_name second))
      as [Heq|Hne].
    - rewrite <- Heq, lookup_insert_eq. right.
      destruct Hfree as [->|(r & ->)]; cbn; eauto.
    - by rewrite lookup_insert_ne. }
  match type of Hrun1 with
  | _ = Some (_, ?st) =>
      destruct (CreateAccessMutex_opens second st Hlen2 Halloc
                  (live_mutex_is_free _ Hlive1)) as (evs2 & Hrun2)
  end.
  eexists _, _, _. split; [exact Hrun1|]. split; [exact Hrun2|].
  unfold destructor. munfold. cbn. rewrite Hsem. cbn.
  rewrite CloseHandle_closed. cbn.
  split; [reflexivity|]. split; [reflexivity|]. cbn.
  by apply closed_opened_mutex.
Qed.

(** X13. When the mutex cannot be had, [CreateAccessMutex] reports it and
    the access check is left open. Where the system cannot give a handle, or
    the name belongs to an object of another kind, [CreateAccessMutex] logs
    an error and returns [false], changing neither the object nor the kernel
    objects; on an object without mutex handle, [CheckAccess] afterwards
    returns [true] without waiting. *)
Theorem CreateAccessMutex_fails_open
    (SenderName : string) (s : state)
    (Hnone : m_hAccessMutex (this s) = None)
    (Hlen : Z.of_nat (String.length (access_mutex_name SenderName)) < 512)
    (Hfail : can_allocate (os s) = false
             \/ ~ mutex_or_free
                    (objects (os s) !! access_mutex_name SenderName)) :
  exists s' msg,
    CreateAccessMutex SenderName s = Some (false, s')
    /\ this s' = this s
    /\ os s' = os s
    /\ emitted s s' [EvLog Error msg]
    /\ CheckAccess s' = Some (true, s').
Proof.
  assert (Hcheck : forall s', this s' = this s ->
            CheckAccess s' = Some (true, s')).
  { intros s' Ht. unfold CheckAccess. munfold. by rewrite Ht, Hnone. }
  unfold CreateAccessMutex. munfold.
  change (String.append SenderName "_SpoutAccessMutex")
    with (access_mutex_name SenderName).
  rewrite (checked_copy_fits 512 (access_mutex_name SenderName)) by exact Hlen.
  unfold CreateMutexA, emitted. log_unfold. munfold. cbn.
  destruct (objects (os s) !! access_mutex_name SenderName)
    as [[c r|r|]|] eqn:Hobj; cbn.
  - eexists _, _. split; [reflexivity|]. cbn.
    repeat split. by apply Hcheck.
  - destruct Hfail as [Ha|Hnf]; [|destruct Hnf; right; eauto].
    rewrite Ha. cbn.
    eexists _, _. split; [reflexivity|]. cbn.
    repeat split. by apply Hcheck.
  - eexists _, _. split; [reflexivity|]. cbn.
    repeat split. by apply Hcheck.
  - destruct Hfail as [Ha|Hnf]; [|destruct Hnf; by left].
    rewrite Ha. cbn.
    eexists _, _. split; [reflexivity|]. cbn.
    repeat split. by apply Hcheck.
Qed.

(** A receiver opens and closes the access mutex that the sender of "cam"
    holds. *)
Lemma CreateAccessMutex_CloseAccessMutex_round_trip_witness :
  exists s' s'',
    CreateAccessMutex "cam"
      (demo_unopened_state {[ "cam_SpoutAccessMutex" := KMutex 1 ]})
    = Some (true, s')
    /\ m_hAccessMutex (this s') = Some (MutexHandle (access_mutex_name "cam"))
    /\ CloseAccessMutex s' = Some (tt, s'')
    /\ objects (os s'')
       = objects (os (demo_unopened_state
                        {[ "cam_SpoutAccessMutex" := KMutex 1 ]}))
    /\ m_hAccessMutex (this s'') = None.
Proof.
  apply (CreateAccessMutex_CloseAccessMutex_round_trip "cam"
           (demo_unopened_state {[ "cam_SpoutAccessMutex" := KMutex 1 ]})).
  - vm_compute; reflexivity.
  - vm_compute; reflexivity.
  - right. exists 0%nat. vm_compute; reflexivity.
Defined.

(** The sender of "cam" creates its access mutex twice. *)
Lemma CreateAccessMutex_twice_loses_handle_witness :
  exists s1 s2 s3,
    CreateAccessMutex "cam" (demo_unopened_state ∅) = Some (true, s1)
    /\ CreateAccessMutex "cam" s1 = Some (true, s2)
    /\ destructor s2 = Some (tt, s3)
    /\ m_hAccessMutex (this s3) = None
    /\ objects (os s3)
       = <[access_mutex_name "cam"
           := opened_mutex (objects (os (demo_unopened_state ∅))
                              !! access_mutex_name "cam")]>
           (objects (os (demo_unopened_state ∅))).
Proof.
  apply (CreateAccessMutex_twice_loses_handle "cam" "cam"
           (demo_unopened_state ∅)).
  - vm_compute; reflexivity.
  - vm_compute; reflexivity.
  - vm_compute; reflexivity.
  - vm_compute; reflexivity.
  - left. vm_compute; reflexivity.
  - left. vm_compute; reflexivity.
Defined.

(** The name of the access mutex of "cam" is taken by a semaphore. *)
Lemma CreateAccessMutex_fails_open_witness :
  exists s' msg,
    CreateAccessMutex "cam"
      (demo_unopened_state {[ "cam_SpoutAccessMutex" := KSemaphore 1 1 ]})
    = Some (false, s')
    /\ this s'
       = this (demo_unopened_state
                 {[ "cam_SpoutAccessMutex" := KSemaphore 1 1 ]})
    /\ os s'
       = os (demo_unopened_state
               {[ "cam_SpoutAccessMutex" := KSemaphore 1 1 ]})
    /\ emitted
         (demo_unopened_state {[ "cam_SpoutAccessMutex" := KSemaphore 1 1 ]})
         s' [EvLog Error msg]
    /\ CheckAccess s' = Some (true, s').
Proof.
  apply (CreateAccessMutex_fails_open "cam"
           (demo_unopened_state {[ "cam_SpoutAccessMutex" := KSemaphore 1 1 ]})).
  - vm_compute; reflexivity.
  - vm_compute; reflexivity.
  - right. intros [H|(r & H)]; vm_compute in H; discriminate.
Defined.

(* ===================================================================== *)
(** ** The result of an acquire, by the answer of the wait *)
(* ===================================================================== *)

(** X14. The named mutex: the result of an acquire by the answer of the
    wait. For a texture that is null or not keyed, on an object whose handle
    names an existing mutex, [CheckTextureAccess] waits once, up to 67 ms,
    and returns [true] exactly when the wait is answered WAIT_OBJECT_0. The
    fields of the object stay as they are. After the wait it only logs
    errors, and it logs none exactly when the answer is WAIT_OBJECT_0 or
    WAIT_TIMEOUT: a time-out is the one failure that is silent. *)
Theorem CheckTextureAccess_named_answer
    (D3D11texture : option ID3D11Texture2D) (n : string) (r : nat) (s : state)
    (Hnokey : IsKeyedMutex D3D11texture = false)
    (Hh : m_hAccessMutex (this s) = Some (MutexHandle n))
    (Hobj : objects (os s) !! n = Some (KMutex r)) :
  exists s' logs,
    CheckTextureAccess D3D11texture s
    = Some (mutex_wait (os s) (calls (os s)) =? WAIT_OBJECT_0, s')
    /\ this s' = this s
    /\ emitted s s' (EvWait (Some (MutexHandle n)) 67 :: logs)
    /\ Forall (λ e, error_log e = true) logs
    /\ (logs = [] <-> mutex_wait (os s) (calls (os s)) = WAIT_OBJECT_0
                      \/ mutex_wait (os s) (calls (os s)) = WAIT_TIMEOUT).
Proof.
  unfold CheckTextureAccess. rewrite Hnokey.
  unfold CheckAccess. munfold. rewrite Hh.
  rewrite (WaitForSingleObject_mutex n r 67 s Hobj).
  set (a := mutex_wait (os s) (calls (os s))).
  unfold WAIT_OBJECT_0, WAIT_ABANDONED, WAIT_TIMEOUT, WAIT_FAILED.
  destruct (a =? 0) eqn:E0.
  { apply Z.eqb_eq in E0.
    eexists _, []. split; [reflexivity|]. cbn. unfold emitted. cbn.
    repeat split; auto. }
  apply Z.eqb_neq in E0.
  destruct (a =? 128) eqn:E1; [|destruct (a =? 258) eqn:E2;
    [|destruct (a =? 4294967295) eqn:E3]];
    log_unfold; munfold; cbn;
    eexists _, _; (split; [reflexivity|]); cbn; unfold emitted; cbn;
    rewrite <- ?app_assoc; cbn;
    (split; [reflexivity|]); (split; [reflexivity|]);
    (split; [repeat constructor|]).
  - apply Z.eqb_eq in E1. split; [discriminate|]. intros [?|?]; lia.
  - apply Z.eqb_eq in E2. split; [|done]. auto.
  - apply Z.eqb_neq in E1, E2. split; [discriminate|]. intros [?|?]; lia.
  - apply Z.eqb_neq in E1, E2. split; [discriminate|]. intros [?|?]; lia.
Qed.

(** X15. The keyed mutex: the result of an acquire by the answer of
    [AcquireSync]. For a texture flagged as keyed: without the keyed-mutex
    interface the acquire is refused at once, with no wait, log or change.
    With the interface, [CheckTextureAccess] calls [AcquireSync(0, 67)] once
    and returns [true] exactly when it is answered WAIT_OBJECT_0, then only
    releasing the interface; on every other answer it calls [ReleaseSync(0)]
    on the mutex it did not get before releasing the interface, after an
    error log when the answer is WAIT_ABANDONED or WAIT_TIMEOUT and none
    otherwise. The object is not changed. *)
Theorem CheckTextureAccess_keyed_answer
    (tex : ID3D11Texture2D) (s : state)
    (Hkey : IsKeyedMutex (Some tex) = true) :
  if has_IDXGIKeyedMutex tex then
    exists s' logs,
      CheckTextureAccess (Some tex) s
      = Some (keyed_wait (os s) (calls (os s)) =? WAIT_OBJECT_0, s')
      /\ this s' = this s
      /\ emitted s s'
           (EvAcquireSync 0 67
            :: if keyed_wait (os s) (calls (os s)) =? WAIT_OBJECT_0
               then [EvRelease]
               else logs ++ [EvReleaseSync 0; EvRelease])
      /\ Forall (λ e, error_log e = true) logs
      /\ (logs = [] <-> keyed_wait (os s) (calls (os s)) <> WAIT_ABANDONED
                        /\ keyed_wait (os s) (calls (os s)) <> WAIT_TIMEOUT)
  else CheckTextureAccess (Some tex) s = Some (false, s).
Proof.
  unfold CheckTextureAccess. rewrite Hkey. unfold CheckKeyedAccess.
  destruct (has_IDXGIKeyedMutex tex); [|reflexivity].
  log_unfold. munfold. cbn.
  set (a := keyed_wait (os s) (calls (os s))).
  unfold WAIT_OBJECT_0, WAIT_ABANDONED, WAIT_TIMEOUT.
  destruct (a =? 0) eqn:E0.
  { apply Z.eqb_eq in E0.
    eexists _, []. split; [reflexivity|]. cbn. unfold emitted. cbn.
    rewrite <- ?app_assoc. cbn. repeat split; auto; lia. }
  destruct (a =? 128) eqn:E1; [|destruct (a =? 258) eqn:E2]; cbn.
  - apply Z.eqb_eq in E1.
    eexists _, [_]. split; [reflexivity|]. cbn. unfold emitted. cbn.
    rewrite <- ?app_assoc. cbn.
    repeat split; auto; try discriminate; intros [? ?]; lia.
  - apply Z.eqb_eq in E2.
    eexists _, [_]. split; [reflexivity|]. cbn. unfold emitted. cbn.
    rewrite <- ?app_assoc. cbn.
    repeat split; auto; try discriminate; intros [? ?]; lia.
  - apply Z.eqb_neq in E1, E2.
    eexists _, []. split; [reflexivity|]. cbn. unfold emitted. cbn.
    rewrite <- ?app_assoc. cbn. repeat split; auto.
Qed.

(** A receiver of "cam" whose wait on the access mutex times out. *)
Lemma CheckTextureAccess_named_answer_witness :
  exists s' logs,
    CheckTextureAccess None (demo_locked_state WAIT_TIMEOUT)
    = Some (mutex_wait (os (demo_locked_state WAIT_TIMEOUT))
              (calls (os (demo_locked_state WAIT_TIMEOUT))) =? WAIT_OBJECT_0,
            s')
    /\ this s' = this (demo_locked_state WAIT_TIMEOUT)
    /\ emitted (demo_locked_state WAIT_TIMEOUT) s'
         (EvWait (Some (MutexHandle "cam_SpoutAccessMutex")) 67 :: logs)
    /\ Forall (λ e, error_log e = true) logs
    /\ (logs = []
        <-> mutex_wait (os (demo_locked_state WAIT_TIMEOUT))
              (calls (os (demo_locked_state WAIT_TIMEOUT))) = WAIT_OBJECT_0
            \/ mutex_wait (os (demo_locked_state WAIT_TIMEOUT))
                 (calls (os (demo_locked_state WAIT_TIMEOUT))) = WAIT_TIMEOUT).
Proof.
  apply (CheckTextureAccess_named_answer None "cam_SpoutAccessMutex" 2
           (demo_locked_state WAIT_TIMEOUT)).
  - reflexivity.
  - vm_compute; reflexivity.
  - vm_compute; reflexivity.
Defined.

(** A keyed texture whose [AcquireSync] times out. *)
Lemma CheckTextureAccess_keyed_answer_witness :
  exists s' logs,
    CheckTextureAccess (Some demo_keyed_texture)
      (demo_locked_state WAIT_TIMEOUT)
    = Some (keyed_wait (os (demo_locked_state WAIT_TIMEOUT))
              (calls (os (demo_locked_state WAIT_TIMEOUT))) =? WAIT_OBJECT_0,
            s')
    /\ this s' = this (demo_locked_state WAIT_TIMEOUT)
    /\ emitted (demo_locked_state WAIT_TIMEOUT) s'
         (EvAcquireSync 0 67
          :: if keyed_wait (os (demo_locked_state WAIT_TIMEOUT))
                  (calls (os (demo_locked_state WAIT_TIMEOUT))) =? WAIT_OBJECT_0
             then [EvRelease]
             else logs ++ [EvReleaseSync 0; EvRelease])
    /\ Forall (λ e, error_log e = true) logs
    /\ (logs = []
        <-> keyed_wait (os (demo_locked_state WAIT_TIMEOUT))
              (calls (os (demo_locked_state WAIT_TIMEOUT))) <> WAIT_ABANDONED
            /\ keyed_wait (os (demo_locked_state WAIT_TIMEOUT))
                 (calls (os (demo_locked_state WAIT_TIMEOUT))) <> WAIT_TIMEOUT).
Proof.
  apply (CheckTextureAccess_keyed_answer demo_keyed_texture
           (demo_locked_state WAIT_TIMEOUT)).
  vm_compute; reflexivity.
Defined.

(* ===================================================================== *)
(** ** The registry setting and new objects; the default rate *)
(* ===================================================================== *)

Lemma fold_left_last {A B : Type} (g : B -> A) (l : list B) (a : A) :
  fold_left (λ _ x, g x) l a
  = match last l with Some x => g x | None => a end.
Proof.
  revert a. induction l as [|x l IH]; intros a; [done|].
  cbn [fold_left]. rewrite IH, last_cons. by destruct (last l).
Qed.

(** X16. The default rate is the frequency of the last display mode.
    [GetRefreshRate] returns, whatever the state, the frequency of the last
    display mode the system enumerates, 60 when it enumerates none; it
    changes nothing. *)
Theorem GetRefreshRate_last_mode (s : state) :
  GetRefreshRate s
  = Some (match last (display_modes (os s)) with
          | Some dmDisplayFrequency => double_of_Z dmDisplayFrequency
          | None => 60%float
          end, s).
Proof.
  unfold GetRefreshRate. munfold. by rewrite fold_left_last.
Qed.

Section Registry.

Variable USE_CHRONO : bool.

Lemma constructor_total : emits_only (λ _, true) (constructor USE_CHRONO).
Proof.
  unfold constructor, GetRefreshRate, ReadDwordFromRegistry, StartCounter,
    QueryPerformanceFrequency, QueryPerformanceCounter.
  emits_auto.
Qed.

Lemma constructor_post (s : state) :
  ensures (constructor USE_CHRONO)
    (λ _ s',
       m_bFrameCount (this s')
       = match reg_Framecount (os s) with
         | Some d => d =? 1
         | None => false
         end
       /\ m_bDisabled (this s') = false
       /\ m_hCountSemaphore (this s') = None
       /\ m_hAccessMutex (this s') = None
       /\ os_untouched (os s) (os s')) s.
Proof.
  unfold constructor, GetRefreshRate, ReadDwordFromRegistry, StartCounter,
    QueryPerformanceFrequency, QueryPerformanceCounter.
  ensures_auto;
    repeat match goal with
           | H : reg_Framecount (os s) = _ |- _ => rewrite H
           end;
    repeat split; try reflexivity;
    first [apply os_untouched_refl
          |apply os_untouched_set_calls, os_untouched_refl].
Qed.

(** The constructor returns; the gates and handles of the new object. *)
Lemma constructor_runs (s : state) :
  exists s',
    constructor USE_CHRONO s = Some (tt, s')
    /\ m_bFrameCount (this s')
       = match reg_Framecount (os s) with
         | Some d => d =? 1
         | None => false
         end
    /\ m_bDisabled (this s') = false
    /\ m_hCountSemaphore (this s') = None
    /\ m_hAccessMutex (this s') = None
    /\ os_untouched (os s) (os s').
Proof.
  destruct (constructor_total s) as ([] & s' & evs & Hrun & _).
  exists s'. split; [exact Hrun|].
  exact (ensures_elim _ _ _ _ _ (constructor_post s) Hrun).
Qed.

(** [CleanupFrameCount] returns, and touches nothing of the system but the
    kernel objects. *)
Lemma CleanupFrameCount_system (s : state) :
  exists s' objs,
    CleanupFrameCount s = Some (tt, s')
    /\ os s' = set_objects objs (os s)
    /\ m_hCountSemaphore (this s') = None.
Proof.
  unfold CleanupFrameCount, GetRefreshRate. log_unfold. munfold.
  destruct (m_hCountSemaphore (this s)) as [h|] eqn:Hh; cbn.
  - rewrite CloseHandle_closed. cbn. eexists _, _. by repeat split.
  - exists s, (objects (os s)). by rewrite set_objects_id.
Qed.

(** [SetFrameCount] returns; the flag of the object, and the registry
    whenever it is written. *)
Lemma SetFrameCount_runs (bEnable : bool) (s : state) :
  exists s',
    SetFrameCount bEnable s = Some (tt, s')
    /\ m_bFrameCount (this s') = bEnable
    /\ (bEnable = false -> m_bDisabled (this s') = false)
    /\ (m_bFrameCount (this s) = false -> m_bDisabled (this s') = false)
    /\ reg_Framecount (os s')
       = if bEnable && m_bFrameCount (this s)
         then reg_Framecount (os s)
         else Some (if bEnable then 1 else 0).
Proof.
  unfold SetFrameCount, IsFrameCountEnabled, WriteDwordToRegistry. munfold.
  destruct bEnable; cbn.
  - destruct (m_bFrameCount (this s)) eqn:Hf; cbn.
    + exists s. repeat split; done.
    + eexists. split; [reflexivity|]. by repeat split.
  - destruct (CleanupFrameCount_system s) as (s1 & objs & Hclean & Hos & _).
    destruct (m_bFrameCount (this s)) eqn:Hf; cbn; rewrite ?Hf; cbn;
      [destruct (m_bDisabled (this s)) eqn:Hd; cbn; [|rewrite Hclean; cbn]|];
      (eexists; split; [reflexivity|]); cbn; rewrite ?Hos; by repeat split.
Qed.

(** X17. The setting reaches the objects made afterwards. [SetFrameCount]
    always returns and leaves the object's flag at its argument. When it
    writes the registry, that is when disabling, or when enabling an object
    whose flag was off (or the registry still holds 1), every object
    constructed afterwards starts with the flag at the same value and
    without application disable. *)
Theorem SetFrameCount_reaches_new_objects
    (bEnable : bool) (s : state)
    (Hwrite : bEnable = false \/ m_bFrameCount (this s) = false
              \/ reg_Framecount (os s) = Some 1) :
  exists s' s2,
    SetFrameCount bEnable s = Some (tt, s')
    /\ m_bFrameCount (this s') = bEnable
    /\ new_spoutFrameCount USE_CHRONO (os s') = Some (tt, s2)
    /\ m_bFrameCount (this s2) = bEnable
    /\ m_bDisabled (this s2) = false.
Proof.
  destruct (SetFrameCount_runs bEnable s) as (s' & Hrun & Hf & _ & _ & Hreg).
  destruct (constructor_runs {| this := zeroed; os := os s'; trace := [] |})
    as (s2 & Hnew & Hf2 & Hd2 & _).
  exists s', s2. split; [exact Hrun|]. split; [exact Hf|].
  split; [exact Hnew|]. split; [|exact Hd2].
  rewrite Hf2. cbn. rewrite Hreg.
  destruct bEnable; cbn; [|done].
  destruct (m_bFrameCount (this s)) eqn:Hfs; [|done].
  destruct Hwrite as [?|[?|Hreg1]]; [done|done|by rewrite Hreg1].
Qed.

(** X18. Off and on again clears an application disable. From any state,
    [SetFrameCount(false)] followed by [SetFrameCount(true)] returns with
    the object passing both gates, holding no semaphore handle, and the
    registry flag at 1. *)
Theorem SetFrameCount_off_on_enables (s : state) :
  exists s' s'',
    SetFrameCount false s = Some (tt, s')
    /\ SetFrameCount true s' = Some (tt, s'')
    /\ channel_enabled (this s'')
    /\ reg_Framecount (os s'') = Some 1.
Proof.
  destruct (SetFrameCount_runs false s) as (s' & Hrun & Hf & _ & _ & _).
  destruct (SetFrameCount_runs true s') as (s'' & Hrun' & Hf' & _ & Hd' & Hreg).
  exists s', s''. split; [exact Hrun|]. split; [exact Hrun'|].
  split; [split; [exact Hf'|by apply Hd']|].
  by rewrite Hreg, Hf.
Qed.

End Registry.

(** The flag is turned off by an object of the demo system. *)
Lemma SetFrameCount_reaches_new_objects_witness :
  exists s' s2,
    SetFrameCount false demo_fresh_state = Some (tt, s')
    /\ m_bFrameCount (this s') = false
    /\ new_spoutFrameCount true (os s') = Some (tt, s2)
    /\ m_bFrameCount (this s2) = false
    /\ m_bDisabled (this s2) = false.
Proof.
  apply (SetFrameCount_reaches_new_objects true false demo_fresh_state).
  left. reflexivity.
Defined.

(* ===================================================================== *)
(** ** The window of the fps estimate *)
(* ===================================================================== *)

Local Open Scope float_scope.



Local Close Scope float_scope.

Transparent UpdateSenderFps.

Section FpsWindow.

Variable USE_CHRONO : bool.


Opaque UpdateSenderFps.



End FpsWindow.


(* ===================================================================== *)
(** ** No object holds a handle of a semaphore that is gone *)
(* ===================================================================== *)

Lemma semaphore_handles_closed (h : HANDLE) (objs : gmap string kobj)
    (n : string) :
  semaphore_handles (closed_handle h objs) n
  = match h with
    | SemaphoreHandle m =>
        (semaphore_handles objs n - (if decide (m = n) then 1 else 0))%nat
    | MutexHandle _ => semaphore_handles objs n
    end.
Proof.
  unfold closed_handle, semaphore_handles.
  destruct h as [m|m]; cbn [handle_name];
    destruct (objs !! m) as [k|] eqn:Hm.
  - destruct (decide (m = n)) as [<-|Hne].
    + rewrite Hm. destruct k as [c [|[|r]]|r|]; cbn;
        rewrite ?lookup_delete_eq, ?lookup_insert_eq; try done; lia.
    + destruct (close_object (SemaphoreHandle m) k);
        rewrite ?lookup_delete_ne, ?lookup_insert_ne by done;
        destruct (objs !! n) as [[]|]; lia.
  - destruct (decide (m = n)) as [<-|Hne]; [rewrite Hm|];
      destruct (objs !! _) as [[]|]; lia.
  - destruct (decide (m = n)) as [<-|Hne].
    + rewrite Hm. destruct k as [c r|[|[|r]]|]; cbn;
        rewrite ?lookup_delete_eq, ?lookup_insert_eq; done.
    + destruct (close_object (MutexHandle m) k);
        by rewrite ?lookup_delete_ne, ?lookup_insert_ne by done.
  - done.
Qed.

Lemma semaphore_handles_opened (m n : string) (objs : gmap string kobj) :
  semaphore_or_free (objs !! m) ->
  semaphore_handles (<[m := opened_semaphore (objs !! m)]> objs) n
  = (semaphore_handles objs n + (if decide (m = n) then 1 else 0))%nat.
Proof.
  intros Hfree. unfold semaphore_handles.
  destruct (decide (m = n)) as [<-|Hne].
  - rewrite lookup_insert_eq.
    destruct Hfree as [->|(c & r & ->)]; cbn; lia.
  - rewrite lookup_insert_ne by done. lia.
Qed.

Lemma semaphore_handles_opened_mutex (m n : string)
    (objs : gmap string kobj) :
  mutex_or_free (objs !! m) ->
  semaphore_handles (<[m := opened_mutex (objs !! m)]> objs) n
  = semaphore_handles objs n.
Proof.
  intros Hfree. unfold semaphore_handles.
  destruct (decide (m = n)) as [<-|Hne].
  - rewrite lookup_insert_eq.
    by destruct Hfree as [->|(r & ->)].
  - by rewrite lookup_insert_ne.
Qed.

Lemma semaphore_handles_count (m n : string) (c c' : Z) (r : nat)
    (objs : gmap string kobj) :
  objs !! m = Some (KSemaphore c r) ->
  semaphore_handles (<[m := KSemaphore c' r]> objs) n
  = semaphore_handles objs n.
Proof.
  intros Hm. unfold semaphore_handles.
  destruct (decide (m = n)) as [<-|Hne].
  - by rewrite lookup_insert_eq, Hm.
  - by rewrite lookup_insert_ne.
Qed.

Lemma handles_kept_refl (s : state) : handles_kept s s.
Proof. by repeat split. Qed.

Lemma handles_kept_trans (s1 s2 s3 : state) :
  handles_kept s1 s2 -> handles_kept s2 s3 -> handles_kept s1 s3.
Proof.
  intros (H1 & H2 & H3) (H1' & H2' & H3').
  split; [congruence|split; [congruence|]].
  intros n. by rewrite H3', H3.
Qed.

Lemma handles_kept_untouched (s s' : state) :
  counter_fields (this s') = counter_fields (this s) ->
  os_untouched (os s) (os s') ->
  handles_kept s s'.
Proof.
  intros Hc Hos. unfold counter_fields in Hc.
  injection Hc as Hc1 Hc2 _ _ _ _ _ _ _.
  split; [done|split; [done|]]. intros n.
  by rewrite (os_untouched_objects _ _ Hos).
Qed.

Lemma accounted_kept (others : string -> nat) (s s' : state) :
  handles_kept s s' -> accounted others s -> accounted others s'.
Proof.
  intros (H1 & H2 & H3) [Ht Hn]. split.
  - unfold access_handle_typed in *. by rewrite H2.
  - intros n. unfold holds_semaphore. rewrite H1, H3. apply Hn.
Qed.

Section Accounting.

Variable USE_CHRONO : bool.

Ltac kept_leaf :=
  repeat match goal with
         | H : counter_fields _ = counter_fields _ |- _ =>
             unfold counter_fields in H; cbn in H; injection H as ?
         | H : os_untouched _ _ |- _ =>
             apply os_untouched_objects in H; cbn in H
         end;
  repeat match goal with
         | H : objects (set_objects _ _) !! _ = _ |- _ => cbn in H
         | H : <[_:=_]> _ !! _ = _ |- _ => rewrite lookup_insert_eq in H
         end;
  simplify_eq;
  unfold handles_kept; cbn;
  repeat match goal with
         | H : objects (os _) = _ |- _ => rewrite H
         end;
  rewrite ?insert_insert_eq;
  repeat split; try done; try congruence;
  intros;
  repeat (erewrite semaphore_handles_count by eassumption);
  try done.

(** Publishing, polling, pacing and the access calls keep every handle. *)
Lemma SetNewFrame_keeps_handles (s : state) :
  ensures (SetNewFrame USE_CHRONO) (λ _ s', handles_kept s s') s.
Proof.
  unfold SetNewFrame, WaitForSingleObject, ReleaseSemaphore.
  log_unfold.
  repeat match goal with
         | |- ensures (UpdateSenderFps _ _) _ _ =>
             apply UpdateSenderFps_post; intros ? ? ?
         | |- _ => ensures_step
         end;
    kept_leaf.
Qed.

Ltac kept_auto :=
  log_unfold;
  repeat match goal with
         | |- ensures (UpdateSenderFps _ _) _ _ =>
             apply UpdateSenderFps_post; intros ? ? ?
         | |- ensures (reset_timers _) _ _ =>
             apply reset_timers_post; intros ? ? ?
         | |- _ => ensures_step
         end;
  kept_leaf.

Lemma GetNewFrame_keeps_handles (s : state) :
  ensures (GetNewFrame USE_CHRONO) (λ _ s', handles_kept s s') s.
Proof.
  unfold GetNewFrame, GetNewFrame_peek, GetNewFrame_compare,
    WaitForSingleObject, ReleaseSemaphore.
  kept_auto.
Qed.

Lemma HoldFps_keeps_handles (fps : Z) (s : state) :
  ensures (HoldFps USE_CHRONO fps) (λ _ s', handles_kept s s') s.
Proof.
  unfold HoldFps, GetCounter, QueryPerformanceCounter, steady_clock_now.
  kept_auto.
Qed.

Lemma CheckTextureAccess_keeps_handles (t : option ID3D11Texture2D)
    (s : state) :
  ensures (CheckTextureAccess t) (λ _ s', handles_kept s s') s.
Proof.
  unfold CheckTextureAccess, CheckKeyedAccess, CheckAccess, WaitForSingleObject.
  kept_auto.
Qed.

Lemma AllowTextureAccess_keeps_handles (t : option ID3D11Texture2D)
    (s : state) :
  ensures (AllowTextureAccess t) (λ _ s', handles_kept s s') s.
Proof.
  unfold AllowTextureAccess, AllowKeyedAccess, AllowAccess.
  kept_auto.
Qed.

(** The calls that open and close handles, with what they do to the
    kernel objects. *)
Lemma CloseHandle_closed_post (h : HANDLE) (Q : unit -> state -> Prop)
    (s : state) :
  Q tt {| this := this s;
          os := set_objects (closed_handle h (objects (os s))) (os s);
          trace := trace s |} ->
  ensures (CloseHandle h) Q s.
Proof. intros HQ. unfold ensures. by rewrite CloseHandle_closed. Qed.

Lemma CreateSemaphoreA_opened_post (name : string)
    (Q : option HANDLE * Z -> state -> Prop) (s : state) :
  (forall r objs,
      (r.1 = None /\ objs = objects (os s))
      \/ (r.1 = Some (SemaphoreHandle name)
          /\ semaphore_or_free (objects (os s) !! name)
          /\ objs = <[name := opened_semaphore (objects (os s) !! name)]>
                      (objects (os s))) ->
      Q r {| this := this s; os := set_objects objs (os s);
             trace := trace s |}) ->
  ensures (CreateSemaphoreA name) Q s.
Proof.
  intros HQ. unfold CreateSemaphoreA. ensures_auto;
    try (rewrite <- (state_eta s), <- (set_objects_id (os s));
         apply HQ; by left).
  - apply HQ. right. cbn. split; [done|]. split; [right; eauto|done].
  - apply HQ. right. cbn. split; [done|]. split; [by left|done].
Qed.

Lemma CreateMutexA_opened_post (name : string)
    (Q : option HANDLE * Z -> state -> Prop) (s : state) :
  (forall r objs,
      (r.1 = None /\ objs = objects (os s))
      \/ (r.1 = Some (MutexHandle name)
          /\ mutex_or_free (objects (os s) !! name)
          /\ objs = <[name := opened_mutex (objects (os s) !! name)]>
                      (objects (os s))) ->
      Q r {| this := this s; os := set_objects objs (os s);
             trace := trace s |}) ->
  ensures (CreateMutexA name) Q s.
Proof.
  intros HQ. unfold CreateMutexA. ensures_auto;
    try (rewrite <- (state_eta s), <- (set_objects_id (os s));
         apply HQ; by left).
  - apply HQ. right. cbn. split; [done|]. split; [right; eauto|done].
  - apply HQ. right. cbn. split; [done|]. split; [by left|done].
Qed.

Ltac acc_calls :=
  log_unfold;
  repeat match goal with
         | |- ensures (CloseHandle _) _ _ => apply CloseHandle_closed_post
         | |- ensures (CreateSemaphoreA _) _ _ =>
             apply CreateSemaphoreA_opened_post; intros ? ? ?
         | |- ensures (CreateMutexA _) _ _ =>
             apply CreateMutexA_opened_post; intros ? ? ?
         | |- ensures (reset_timers _) _ _ =>
             apply reset_timers_post; intros ? ? ?
         | |- _ => ensures_step
         end.

Ltac acc_prepare :=
  repeat match goal with
         | H : counter_fields _ = counter_fields _ |- _ =>
             unfold counter_fields in H; cbn in H; injection H as ?
         | H : os_untouched _ _ |- _ =>
             apply os_untouched_objects in H; cbn in H
         | H : _ \/ _ |- _ => destruct H
         | H : _ /\ _ |- _ => destruct H
         | H : accounted _ _ |- _ => destruct H
         end;
  unfold accounted; cbn in *; simplify_eq;
  repeat match goal with
         | H : objects (os _) = _ |- _ => rewrite H in *
         | H : m_hCountSemaphore (this _) = _ |- _ => rewrite H in *
         | H : m_hAccessMutex (this _) = _ |- _ => rewrite H in *
         end.

Ltac acc_typed :=
  unfold access_handle_typed in *; cbn; intros;
  repeat match goal with
         | H : m_hAccessMutex (this _) = _ |- _ => rewrite H in *
         end;
  try done; try congruence.

Ltac acc_count :=
  let n := fresh "n" in
  intros n;
  repeat match goal with
         | H : forall n : string, (_ <= _)%nat |- _ => specialize (H n)
         end;
  unfold holds_semaphore in *; cbn in *;
  repeat match goal with
         | H : m_hCountSemaphore _ = _ |- _ => rewrite H in *
         | H : objects (os _) = _ |- _ => rewrite H in *
         end;
  rewrite ?semaphore_handles_opened, ?semaphore_handles_opened_mutex,
    ?semaphore_handles_closed by done;
  repeat match goal with
         | |- context [match ?h with SemaphoreHandle _ => _
                                     | MutexHandle _ => _ end] =>
             destruct h
         | H : context [match ?h with SemaphoreHandle _ => _
                                      | MutexHandle _ => _ end] |- _ =>
             destruct h
         | |- context [match ?o with Some _ => _ | None => _ end] =>
             destruct o
         | H : context [match ?o with Some _ => _ | None => _ end] |- _ =>
             destruct o
         end;
  repeat case_decide; simplify_eq; try lia;
  try (exfalso;
       match goal with
       | Ht : access_handle_typed _,
         He : m_hAccessMutex _ = Some (SemaphoreHandle ?m) |- _ =>
           exact (Ht m He)
       end).

Ltac acc_leaf := acc_prepare; (split; [acc_typed|acc_count]).

Lemma CleanupFrameCount_accounted (others : string -> nat) (s : state) :
  accounted others s ->
  ensures CleanupFrameCount (λ _ s', accounted others s') s.
Proof.
  intros Hacc. unfold CleanupFrameCount, GetRefreshRate.
  acc_calls; acc_leaf.
Qed.

Lemma DisableFrameCount_accounted (others : string -> nat) (s : state) :
  accounted others s ->
  ensures DisableFrameCount (λ _ s', accounted others s') s.
Proof.
  intros Hacc. unfold DisableFrameCount, CleanupFrameCount, GetRefreshRate.
  acc_calls; acc_leaf.
Qed.

Lemma SetFrameCount_accounted (others : string -> nat) (bEnable : bool)
    (s : state) :
  accounted others s ->
  ensures (SetFrameCount bEnable) (λ _ s', accounted others s') s.
Proof.
  intros Hacc.
  unfold SetFrameCount, WriteDwordToRegistry, IsFrameCountEnabled,
    CleanupFrameCount, GetRefreshRate.
  acc_calls; acc_leaf.
Qed.

Lemma EnableFrameCount_accounted (others : string -> nat)
    (SenderName : string) (s : state) :
  accounted others s ->
  ensures (EnableFrameCount USE_CHRONO SenderName)
    (λ _ s', accounted others s') s.
Proof.
  intros Hacc. unfold EnableFrameCount, GetRefreshRate, checked_copy.
  acc_calls; acc_leaf.
Qed.

Lemma CreateAccessMutex_accounted (others : string -> nat)
    (SenderName : string) (s : state) :
  accounted others s ->
  ensures (CreateAccessMutex SenderName) (λ _ s', accounted others s') s.
Proof.
  intros Hacc. unfold CreateAccessMutex, checked_copy.
  acc_calls; acc_leaf.
Qed.

Lemma CloseAccessMutex_accounted (others : string -> nat) (s : state) :
  accounted others s ->
  ensures CloseAccessMutex (λ _ s', accounted others s') s.
Proof.
  intros Hacc. unfold CloseAccessMutex.
  acc_calls; acc_leaf.
Qed.

Lemma do_op_accounted (others : string -> nat) (op : channel_op)
    (s : state) :
  accounted others s ->
  ensures (do_op USE_CHRONO op) (λ _ s', accounted others s') s.
Proof.
  intros Hacc.
  assert (Hkept : forall s', handles_kept s s' -> accounted others s')
    by (intros s' Hk; by apply (accounted_kept others s s')).
  destruct op; cbn [do_op].
  - by apply SetFrameCount_accounted.
  - by apply EnableFrameCount_accounted.
  - by apply DisableFrameCount_accounted.
  - by apply CleanupFrameCount_accounted.
  - eapply ensures_weaken; [apply SetNewFrame_keeps_handles|]. eauto.
  - apply ensures_bind.
    eapply ensures_weaken; [apply GetNewFrame_keeps_handles|].
    intros ? s' Hk. apply ensures_ret. eauto.
  - eapply ensures_weaken; [apply HoldFps_keeps_handles|]. eauto.
  - apply ensures_bind.
    eapply ensures_weaken; [by apply CreateAccessMutex_accounted|].
    intros ? s' Hk. by apply ensures_ret.
  - by apply CloseAccessMutex_accounted.
  - apply ensures_bind.
    eapply ensures_weaken; [apply CheckTextureAccess_keeps_handles|].
    intros ? s' Hk. apply ensures_ret. eauto.
  - eapply ensures_weaken; [apply AllowTextureAccess_keeps_handles|]. eauto.
Qed.

Lemma holders_app (ps qs : list spoutFrameCount) (n : string) :
  holders (ps ++ qs) n = (holders ps n + holders qs n)%nat.
Proof. unfold holders. apply sum_list_with_app. Qed.

Lemma holders_middle (ps qs : list spoutFrameCount) (o : spoutFrameCount)
    (n : string) :
  holders (ps ++ o :: qs) n
  = (holders ps n + holders qs n + holds_semaphore o n)%nat.
Proof. rewrite holders_app. unfold holders. cbn. lia. Qed.

Lemma holders_insert (ps : list spoutFrameCount) (i : nat)
    (o o' : spoutFrameCount) (n : string) :
  ps !! i = Some o ->
  exists others : nat,
    holders ps n = (others + holds_semaphore o n)%nat
    /\ holders (<[i := o']> ps) n = (others + holds_semaphore o' n)%nat.
Proof.
  intros Hi.
  exists (holders (take i ps) n + holders (drop (S i) ps) n)%nat. split.
  - rewrite <- (take_drop_middle ps i o Hi) at 1. apply holders_middle.
  - rewrite insert_take_drop by (by eapply lookup_lt_Some).
    apply holders_middle.
Qed.

Lemma do_step_accounted (st : step) (sys sys' : system) :
  handles_accounted sys ->
  do_step USE_CHRONO st sys = Some sys' ->
  handles_accounted sys'.
Proof.
  intros [Htyped Hcount] Hrun. destruct st as [|i op]; cbn in Hrun.
  - unfold new_spoutFrameCount, run in Hrun.
    destruct (constructor_runs USE_CHRONO
                {| this := zeroed; os := kernel sys; trace := [] |})
      as (s' & Hc & _ & _ & Hsem & Hmut & Hos).
    rewrite Hc in Hrun. injection Hrun as <-. split; cbn [parties kernel].
    + apply Forall_app. split; [done|]. constructor; [|constructor].
      intros name. by rewrite Hmut.
    + intros n. rewrite holders_app, (os_untouched_objects _ _ Hos).
      cbn [os]. unfold holders at 2. cbn. unfold holds_semaphore.
      rewrite Hsem. specialize (Hcount n). lia.
  - destruct (parties sys !! i) as [o|] eqn:Hi;
      [|by injection Hrun as <-].
    unfold run in Hrun.
    destruct (do_op USE_CHRONO op _) as [[[] s]|] eqn:Hop; [|done].
    injection Hrun as <-.
    set (others := λ n, (holders (parties sys) n - holds_semaphore o n)%nat).
    assert (Hacc : accounted others
                     {| this := o; os := kernel sys; trace := [] |}).
    { split; cbn.
      - exact (Forall_lookup_1 _ _ _ _ Htyped Hi).
      - intros n. unfold others.
        destruct (holders_insert (parties sys) i o o n Hi) as (k & Hk & _).
        specialize (Hcount n). lia. }
    pose proof (ensures_elim _ _ _ _ _
                  (do_op_accounted others op _ Hacc) Hop) as [Ht' Hc'].
    split; cbn [parties kernel].
    + by apply Forall_insert.
    + intros n.
      destruct (holders_insert (parties sys) i o (this s) n Hi)
        as (k & Hk & ->).
      specialize (Hc' n). unfold others in Hc'. lia.
Qed.

Lemma history_accounted (steps : list step) :
  forall sys sys' : system,
    handles_accounted sys ->
    history USE_CHRONO steps sys = Some sys' ->
    handles_accounted sys'.
Proof.
  induction steps as [|st steps IH]; intros sys sys' Hacc Hrun; cbn in Hrun.
  - by injection Hrun as <-.
  - destruct (do_step USE_CHRONO st sys) as [sys1|] eqn:Hst; [|done].
    eauto using do_step_accounted.
Qed.

(** X30. No object holds a handle of a semaphore that is gone. Along
    every history of constructions and method calls by any number of
    objects sharing a system, starting where every handle held is accounted
    for (as with no objects yet): whenever an object holds a semaphore
    handle, that semaphore exists in the kernel, with at least as many open
    handles as there are objects holding it. Enabling, switching, cleaning
    up and disabling by one object never closes the semaphore under
    another. *)
Theorem semaphore_handles_never_dangle
    (steps : list step) (sys sys' : system) (i : nat) (o : spoutFrameCount)
    (n : string)
    (Hacc : handles_accounted sys)
    (Hrun : history USE_CHRONO steps sys = Some sys')
    (Hparty : parties sys' !! i = Some o)
    (Hh : m_hCountSemaphore o = Some (SemaphoreHandle n)) :
  is_Some (sem_count (kernel sys') n)
  /\ (1 <= holders (parties sys') n
      <= semaphore_handles (objects (kernel sys')) n)%nat.
Proof.
  destruct (history_accounted steps sys sys' Hacc Hrun) as [_ Hcount].
  specialize (Hcount n).
  destruct (holders_insert (parties sys') i o o n Hparty) as (k & Hk & _).
  assert (Hone : holds_semaphore o n = 1%nat).
  { unfold holds_semaphore. rewrite Hh. by rewrite decide_True. }
  split; [|lia].
  unfold semaphore_handles in Hcount. unfold sem_count.
  destruct (objects (kernel sys') !! n) as [[c r|r|]|]; try lia.
  by eexists.
Qed.

End Accounting.

Lemma handles_accounted_no_parties (w : OS) :
  handles_accounted {| parties := []; kernel := w |}.
Proof. split; [constructor|]. intros n. cbn. lia. Qed.

(** Two objects enable "cam"; the first publishes and cleans up; the
    second still holds the semaphore. *)
Lemma semaphore_handles_never_dangle_witness :
  exists sys' o,
    history true
      [Construct; Call 0 (OpEnableFrameCount "cam");
       Construct; Call 1 (OpEnableFrameCount "cam");
       Call 0 OpSetNewFrame; Call 0 OpCleanupFrameCount]
      {| parties := []; kernel := demo_os ∅ 0 |} = Some sys'
    /\ parties sys' !! 1%nat = Some o
    /\ m_hCountSemaphore o = Some (SemaphoreHandle "cam_Count_Semaphore")
    /\ is_Some (sem_count (kernel sys') "cam_Count_Semaphore")
    /\ (1 <= holders (parties sys') "cam_Count_Semaphore"
        <= semaphore_handles (objects (kernel sys')) "cam_Count_Semaphore")%nat.
Proof.
  do 2 eexists.
  split; [vm_compute; reflexivity|].
  split; [vm_compute; reflexivity|].
  split; [vm_compute; reflexivity|].
  eapply (semaphore_handles_never_dangle true
            [Construct; Call 0 (OpEnableFrameCount "cam");
             Construct; Call 1 (OpEnableFrameCount "cam");
             Call 0 OpSetNewFrame; Call 0 OpCleanupFrameCount]
            {| parties := []; kernel := demo_os ∅ 0 |} _ 1 _
            "cam_Count_Semaphore").
  - apply handles_accounted_no_parties.
  - vm_compute; reflexivity.
  - vm_compute; reflexivity.
  - vm_compute; reflexivity.
Defined.

(* ===================================================================== *)
(** ** A channel nobody has published on, beside channels in use *)
(* ===================================================================== *)

Lemma fresh_at_insert (n m : string) (k : kobj) (objs : gmap string kobj) :
  (m = n -> forall c r, k = KSemaphore c r -> c = 1) ->
  fresh_at n objs -> fresh_at n (<[m := k]> objs).
Proof.
  intros Hk H c r. destruct (decide (m = n)) as [->|Hne].
  - rewrite lookup_insert_eq. intros [= ->]. by eapply Hk.
  - rewrite lookup_insert_ne by done. apply H.
Qed.

Lemma fresh_at_closed (n : string) (h : HANDLE) (objs : gmap string kobj) :
  fresh_at n objs -> fresh_at n (closed_handle h objs).
Proof.
  intros H. unfold closed_handle.
  destruct (objs !! handle_name h) as [k|] eqn:Hk; [|done].
  destruct (close_object h k) as [k'|] eqn:Hc.
  - apply fresh_at_insert; [|done]. intros Heq c r ->. rewrite Heq in Hk.
    destruct h, k as [c0 [|[|r0]]|[|[|r0]]|]; cbn in Hc; simplify_eq;
      by eapply H.
  - intros c r Hl. apply lookup_delete_Some in Hl as [_ Hl]. by eapply H.
Qed.

Lemma fresh_at_opened (n m : string) (objs : gmap string kobj) :
  fresh_at n objs ->
  fresh_at n (<[m := opened_semaphore (objs !! m)]> objs).
Proof.
  intros H. apply fresh_at_insert; [|done]. intros -> c r.
  destruct (objs !! n) as [[c0 r0| |]|] eqn:Hn; cbn; intros [= <- _];
    eauto.
Qed.

Lemma fresh_at_opened_mutex (n m : string) (objs : gmap string kobj) :
  fresh_at n objs ->
  fresh_at n (<[m := opened_mutex (objs !! m)]> objs).
Proof.
  intros H. apply fresh_at_insert; [|done]. intros _ c r.
  by destruct (objs !! m) as [[| |]|].
Qed.

Section PerChannel.

Variable USE_CHRONO : bool.
Variable n : string.

Ltac chan_calls :=
  log_unfold;
  repeat match goal with
         | |- ensures (CloseHandle _) _ _ => apply CloseHandle_closed_post
         | |- ensures (CreateSemaphoreA _) _ _ =>
             apply CreateSemaphoreA_opened_post; intros ? ? ?
         | |- ensures (CreateMutexA _) _ _ =>
             apply CreateMutexA_opened_post; intros ? ? ?
         | |- ensures (reset_timers _) _ _ =>
             apply reset_timers_post; intros ? ? ?
         | |- ensures (UpdateSenderFps _ _) _ _ =>
             apply UpdateSenderFps_post; intros ? ? ?
         | |- _ => ensures_step
         end.

Ltac chan_prepare :=
  repeat match goal with
         | H : counter_fields _ = counter_fields _ |- _ =>
             unfold counter_fields in H; cbn in H; injection H as ?
         | H : os_untouched _ _ |- _ =>
             apply os_untouched_objects in H; cbn in H
         | H : _ \/ _ |- _ => destruct H
         | H : _ /\ _ |- _ => destruct H
         | H : unpublished_on _ _ |- _ => destruct H
         end;
  unfold unpublished_on, channel_of in *; cbn in *; simplify_eq;
  repeat match goal with
         | H : objects (os _) = _ |- _ => rewrite H in *
         | H : m_hCountSemaphore (this _) = _ |- _ => rewrite H in *
         | H : m_FrameCount (this _) = _ |- _ => rewrite H in *
         end.

Ltac chan_leaf :=
  chan_prepare;
  (split;
   [ intros; try done; try congruence; try (intuition congruence)
   | eauto 10 using fresh_at_closed, fresh_at_opened, fresh_at_opened_mutex ]).

Lemma CleanupFrameCount_unpublished (s : state) :
  unpublished_on n s ->
  ensures CleanupFrameCount (λ _ s', unpublished_on n s') s.
Proof.
  intros Hun. unfold CleanupFrameCount, GetRefreshRate.
  chan_calls; chan_leaf.
Qed.

Lemma DisableFrameCount_unpublished (s : state) :
  unpublished_on n s ->
  ensures DisableFrameCount (λ _ s', unpublished_on n s') s.
Proof.
  intros Hun. unfold DisableFrameCount, CleanupFrameCount, GetRefreshRate.
  chan_calls; chan_leaf.
Qed.

Lemma SetFrameCount_unpublished (bEnable : bool) (s : state) :
  unpublished_on n s ->
  ensures (SetFrameCount bEnable) (λ _ s', unpublished_on n s') s.
Proof.
  intros Hun.
  unfold SetFrameCount, WriteDwordToRegistry, IsFrameCountEnabled,
    CleanupFrameCount, GetRefreshRate.
  chan_calls; chan_leaf.
Qed.

Lemma EnableFrameCount_unpublished (SenderName : string) (s : state) :
  unpublished_on n s ->
  ensures (EnableFrameCount USE_CHRONO SenderName)
    (λ _ s', unpublished_on n s') s.
Proof.
  intros Hun. unfold EnableFrameCount, GetRefreshRate, checked_copy.
  chan_calls; chan_leaf.
Qed.

Lemma CreateAccessMutex_unpublished (SenderName : string) (s : state) :
  unpublished_on n s ->
  ensures (CreateAccessMutex SenderName) (λ _ s', unpublished_on n s') s.
Proof.
  intros Hun. unfold CreateAccessMutex, checked_copy.
  chan_calls; chan_leaf.
Qed.

Lemma CloseAccessMutex_unpublished (s : state) :
  unpublished_on n s ->
  ensures CloseAccessMutex (λ _ s', unpublished_on n s') s.
Proof.
  intros Hun. unfold CloseAccessMutex.
  chan_calls; chan_leaf.
Qed.

Lemma HoldFps_unpublished (fps : Z) (s : state) :
  unpublished_on n s ->
  ensures (HoldFps USE_CHRONO fps) (λ _ s', unpublished_on n s') s.
Proof.
  intros Hun.
  unfold HoldFps, GetCounter, QueryPerformanceCounter, steady_clock_now.
  chan_calls; chan_leaf.
Qed.

Lemma AllowTextureAccess_unpublished (t : option ID3D11Texture2D)
    (s : state) :
  unpublished_on n s ->
  ensures (AllowTextureAccess t) (λ _ s', unpublished_on n s') s.
Proof.
  intros Hun. unfold AllowTextureAccess, AllowKeyedAccess, AllowAccess.
  chan_calls; chan_leaf.
Qed.

(** The wait of an acquire is on a mutex, never on a semaphore. *)
Lemma CheckTextureAccess_unpublished (t : option ID3D11Texture2D)
    (s : state) :
  access_handle_typed (this s) ->
  unpublished_on n s ->
  ensures (CheckTextureAccess t) (λ _ s', unpublished_on n s') s.
Proof.
  intros Hty Hun.
  unfold CheckTextureAccess, CheckKeyedAccess, CheckAccess, WaitForSingleObject.
  chan_calls;
    try (exfalso;
         match goal with
         | He : m_hAccessMutex _ = Some (SemaphoreHandle ?m) |- _ =>
             exact (Hty m He)
         end);
    chan_leaf.
Qed.

(** A publish on another channel leaves the channel of [n] alone. *)
Lemma SetNewFrame_unpublished (s : state) :
  channel_of (this s) <> Some n ->
  unpublished_on n s ->
  ensures (SetNewFrame USE_CHRONO) (λ _ s', unpublished_on n s') s.
Proof.
  intros Hother Hun. unfold SetNewFrame, WaitForSingleObject, ReleaseSemaphore.
  chan_calls; chan_leaf;
    repeat (apply fresh_at_insert; [by intros ->|]); done.
Qed.

(** A poll: on another channel it leaves the channel of [n] alone; on the
    channel of [n] it takes the one unit, gives it back, reads 0 and
    answers [true]. *)
Lemma GetNewFrame_peek_unpublished (h : option HANDLE)
    (Q : option Z -> state -> Prop) (s : state) :
  fresh_at n (objects (os s)) ->
  (forall r s1,
      this s1 = this s ->
      fresh_at n (objects (os s1)) ->
      (h = Some (SemaphoreHandle n) -> r = None \/ r = Some 0) ->
      Q r s1) ->
  ensures (GetNewFrame_peek h) Q s.
Proof.
  intros Hf HQ.
  assert (Hcase : h = Some (SemaphoreHandle n) \/ h <> Some (SemaphoreHandle n)).
  { destruct h as [[m|m]|]; try by right.
    destruct (decide (m = n)) as [->|Hne]; [by left|right; congruence]. }
  destruct Hcase as [->|Hother].
  - destruct (objects (os s) !! n) as [[c r| |]|] eqn:Hobj.
    + pose proof (Hf _ _ Hobj) as ->.
      unfold ensures.
      rewrite (GetNewFrame_peek_semaphore n 1 r s Hobj)
        by (unfold LONG_MAX; lia).
      apply HQ; [done|done|]. cbn. auto.
    + unfold GetNewFrame_peek, WaitForSingleObject, ReleaseSemaphore.
      ensures_auto; simplify_eq; apply HQ; try done; cbn; auto.
    + unfold GetNewFrame_peek, WaitForSingleObject, ReleaseSemaphore.
      ensures_auto; simplify_eq; apply HQ; try done; cbn; auto.
    + unfold GetNewFrame_peek, WaitForSingleObject, ReleaseSemaphore.
      ensures_auto; simplify_eq; apply HQ; try done; cbn; auto.
  - unfold GetNewFrame_peek, WaitForSingleObject, ReleaseSemaphore.
    ensures_auto; simplify_eq; apply HQ; try done; cbn;
      repeat (apply fresh_at_insert; [intros ->; by destruct Hother|]);
      done.
Qed.

Lemma GetNewFrame_unpublished (s : state) :
  unpublished_on n s ->
  ensures (GetNewFrame USE_CHRONO)
    (λ isNew s', unpublished_on n s'
                 /\ (channel_of (this s) = Some n -> isNew = true)) s.
Proof.
  intros Hun. unfold GetNewFrame.
  do 3 ensures_step; [ensures_auto; by split|].
  ensures_step; [|ensures_auto; by split].
  destruct Hun as [Hzero Hf].
  ensures_step. apply GetNewFrame_peek_unpublished; [exact Hf|].
  intros r s1 Hthis Hf1 Hr.
  destruct r as [framecount|].
  { apply GetNewFrame_compare_post. intros s' Hfc Hch Hos.
    rewrite Hthis in Hch. unfold channel_fields in Hch. cbn in Hch.
    injection Hch as ? Hh ? ? ? ?.
    assert (Hread : channel_of (this s) = Some n -> framecount = 0).
    { unfold channel_of. intros Hc.
      destruct (m_hCountSemaphore (this s)) as [[m|m]|]; simplify_eq.
      destruct Hr as [|]; congruence. }
    split; [split|].
    - unfold channel_of. rewrite Hh. intros Hc. rewrite Hfc. by apply Hread.
    - by rewrite (os_untouched_objects _ _ Hos).
    - intros Hc. rewrite (Hread Hc). cbn. apply orb_true_r. }
  ensures_auto. split; [|done]. split; [by rewrite Hthis|done].
Qed.

Lemma constructor_unpublished (s : state) :
  fresh_at n (objects (os s)) ->
  ensures (constructor USE_CHRONO)
    (λ _ s', channel_of (this s') = None /\ fresh_at n (objects (os s'))) s.
Proof.
  intros Hf.
  unfold constructor, GetRefreshRate, ReadDwordFromRegistry, StartCounter,
    QueryPerformanceFrequency, QueryPerformanceCounter.
  chan_calls; chan_prepare; split; done.
Qed.

(** Every method keeps the channel of [n] unpublished, [SetNewFrame] when
    it is called on another channel. *)
Lemma do_op_unpublished (op : channel_op) (s : state) :
  (is_publish op = true -> channel_of (this s) <> Some n) ->
  access_handle_typed (this s) ->
  unpublished_on n s ->
  ensures (do_op USE_CHRONO op) (λ _ s', unpublished_on n s') s.
Proof.
  intros Hop Hty Hun. destruct op; cbn [do_op].
  - by apply SetFrameCount_unpublished.
  - by apply EnableFrameCount_unpublished.
  - by apply DisableFrameCount_unpublished.
  - by apply CleanupFrameCount_unpublished.
  - apply SetNewFrame_unpublished; [by apply Hop|done].
  - apply ensures_bind.
    eapply ensures_weaken; [by apply GetNewFrame_unpublished|].
    intros ? ? [? _]. by apply ensures_ret.
  - by apply HoldFps_unpublished.
  - apply ensures_bind.
    eapply ensures_weaken; [by apply CreateAccessMutex_unpublished|].
    intros ? ? ?. by apply ensures_ret.
  - by apply CloseAccessMutex_unpublished.
  - apply ensures_bind.
    eapply ensures_weaken; [by apply CheckTextureAccess_unpublished|].
    intros ? ? ?. by apply ensures_ret.
  - by apply AllowTextureAccess_unpublished.
Qed.

End PerChannel.

Lemma sys_inv_typed (u : bool) (sys : system) :
  sys_inv u sys -> Forall access_handle_typed (parties sys).
Proof.
  unfold sys_inv. intros H. eapply Forall_impl; [exact H|].
  intros o [(_ & _ & Ht) _]. exact Ht.
Qed.

Section ChannelHistories.

Variable USE_CHRONO : bool.
Variable n : string.

Lemma do_step_unpublished (st : step) (sys sys' : system) :
  publishes_on n st sys = false ->
  Forall access_handle_typed (parties sys) ->
  sys_unpublished_on n sys ->
  do_step USE_CHRONO st sys = Some sys' ->
  sys_unpublished_on n sys'.
Proof.
  intros Hst Hty [Hps Hf] Hrun.
  destruct st as [|i op]; cbn in Hrun.
  - unfold new_spoutFrameCount, run in Hrun.
    destruct (constructor USE_CHRONO _) as [[[] s]|] eqn:Hc; [|done].
    injection Hrun as <-.
    pose proof (ensures_elim _ _ _ _ _
                  (constructor_unpublished USE_CHRONO n
                     {| this := zeroed; os := kernel sys; trace := [] |} Hf)
                  Hc) as [Hnone Hf'].
    split; cbn; [|done].
    apply Forall_app. split; [done|].
    constructor; [|constructor]. intros H. congruence.
  - destruct (parties sys !! i) as [o|] eqn:Hi.
    2:{ injection Hrun as <-. by split. }
    unfold run in Hrun.
    destruct (do_op USE_CHRONO op _) as [[[] s]|] eqn:Hop; [|done].
    injection Hrun as <-.
    assert (Hpub : is_publish op = true -> channel_of o <> Some n).
    { intros Hp. destruct op; try done. cbn in Hst. rewrite Hi in Hst.
      by apply bool_decide_eq_false in Hst. }
    pose proof (ensures_elim _ _ _ _ _
                  (do_op_unpublished USE_CHRONO n op
                     {| this := o; os := kernel sys; trace := [] |}
                     Hpub (Forall_lookup_1 _ _ _ _ Hty Hi)
                     (conj (Forall_lookup_1 _ _ _ _ Hps Hi) Hf))
                  Hop) as [Ho' Hf'].
    split; cbn; [|done]. by apply Forall_insert.
Qed.

Lemma history_unpublished (steps : list step) :
  forall sys sys' : system,
    no_publish_on USE_CHRONO n steps sys = true ->
    sys_inv false sys ->
    sys_unpublished_on n sys ->
    history USE_CHRONO steps sys = Some sys' ->
    sys_unpublished_on n sys' /\ sys_inv false sys'.
Proof.
  induction steps as [|st steps IH]; intros sys sys' Hno Hinv Hun Hrun;
    cbn in Hrun, Hno.
  - injection Hrun as <-. by split.
  - destruct (do_step USE_CHRONO st sys) as [sys1|] eqn:Hst; [|done].
    apply andb_true_iff in Hno as [Hp Hrest]. apply negb_true_iff in Hp.
    destruct (do_step_inv USE_CHRONO false st sys sys1) as [Hinv1 _];
      try done.
    apply (IH sys1); try done.
    apply (do_step_unpublished st sys); try done.
    by apply (sys_inv_typed false).
Qed.

End ChannelHistories.

(** C3. Take any history of constructions and method calls by any number
    of parties sharing a system, on any number of channels, and any object
    [o] of a party at its end. If nothing has ever been published on the
    channel of [o] (its semaphore, if it was there at the start, had its
    initial count, and no step is a [SetNewFrame()] by a party holding this
    semaphore; other channels may have been published on at will), or
    nobody has published at all, or [o] is gated (registry flag unset or
    application-disabled), or [o] has no semaphore handle, then the stored
    frame number of [o] is 0, and a poll on [o] returns [true] and leaves it
    at 0. *)
Theorem GetNewFrame_fail_open
    (USE_CHRONO : bool) (w : OS) (steps : list step) (sys : system) (i : nat)
    (o : spoutFrameCount) (channel : string)
    (Hhist : history USE_CHRONO steps {| parties := []; kernel := w |} = Some sys)
    (Hparty : parties sys !! i = Some o)
    (Hcase : (m_hCountSemaphore o = Some (SemaphoreHandle channel)
              /\ never_published_on USE_CHRONO channel w steps)
             \/ never_published w steps
             \/ m_bFrameCount o = false \/ m_bDisabled o = true
             \/ m_hCountSemaphore o = None) :
  m_FrameCount o = 0
  /\ exists s',
       run (GetNewFrame USE_CHRONO) o (kernel sys) = Some (true, s')
       /\ GetSenderFrame s' = Some (0, s').
Proof.
  unfold run, GetSenderFrame. munfold.
  set (s := {| this := o; os := kernel sys; trace := [] |}).
  destruct Hcase as [[Hh [Hfresh Hsteps]]|[[Hfresh Hsteps]|Hgated]].
  - assert (Hinv0 : sys_inv false {| parties := []; kernel := w |})
      by constructor.
    assert (Hun0 : sys_unpublished_on channel {| parties := []; kernel := w |})
      by (split; [constructor|exact Hfresh]).
    destruct (history_unpublished USE_CHRONO channel steps _ _
                Hsteps Hinv0 Hun0 Hhist)
      as [[Hps Hf] Hinv].
    assert (Hch : channel_of o = Some channel)
      by (unfold channel_of; by rewrite Hh).
    pose proof (Forall_lookup_1 _ _ _ _ Hps Hparty Hch) as Hzero.
    destruct (GetNewFrame_runs USE_CHRONO s) as (isNew & s' & Hrun).
    destruct (ensures_elim _ _ _ _ _
                (GetNewFrame_unpublished USE_CHRONO channel s
                   (conj (λ _, Hzero) Hf)) Hrun)
      as [[Hzero' _] HisNew].
    rewrite (HisNew Hch) in Hrun.
    destruct (ensures_elim _ _ _ _ _
                (GetNewFrame_keeps_handles USE_CHRONO s) Hrun) as [Hkept _].
    split; [exact Hzero|]. exists s'. split; [exact Hrun|].
    rewrite Hzero'; [done|]. unfold channel_of. rewrite Hkept. exact Hch.
  - assert (Hinv : sys_inv true sys).
    { eapply (history_inv USE_CHRONO true); [| | |exact Hhist]; try done.
      constructor. }
    pose proof (Forall_lookup_1 _ _ _ _ Hinv Hparty) as Ho. fold s in Ho.
    destruct (GetNewFrame_runs USE_CHRONO s) as (isNew & s' & Hrun).
    destruct (ensures_elim _ _ _ _ _ (GetNewFrame_inv USE_CHRONO true s Ho) Hrun)
      as [[_ Hs'] HisNew].
    rewrite (HisNew eq_refl) in Hrun.
    destruct Ho as [_ Ho]. destruct (Ho eq_refl) as [Hzero _].
    destruct (Hs' eq_refl) as [Hzero' _].
    split; [exact Hzero|]. exists s'. by rewrite Hzero'.
  - assert (Hinv : sys_inv false sys).
    { eapply (history_inv USE_CHRONO false); [| | |exact Hhist]; try done.
      constructor. }
    pose proof (Forall_lookup_1 _ _ _ _ Hinv Hparty) as [[Hgate [Hnone _]] _].
    cbn in Hgate, Hnone.
    assert (Hh : m_hCountSemaphore o = None).
    { destruct Hgated as [|[|]]; auto. }
    destruct (GetNewFrame_gated USE_CHRONO s) as (s' & Hrun & Hthis); [by cbn|].
    split; [by apply Hnone|]. exists s'. split; [exact Hrun|].
    rewrite Hthis. cbn. by rewrite (Hnone Hh).
Qed.

(** A sender publishes twice on "cam1"; a receiver enables "cam2", where
    nobody publishes, and polls. *)
Lemma GetNewFrame_fail_open_witness :
  exists sys o,
    history true
      [Construct; Call 0 (OpEnableFrameCount "cam1");
       Call 0 OpSetNewFrame; Call 0 OpSetNewFrame;
       Construct; Call 1 (OpEnableFrameCount "cam2"); Call 1 OpGetNewFrame]
      {| parties := []; kernel := demo_os ∅ 0 |} = Some sys
    /\ parties sys !! 1%nat = Some o
    /\ sem_count (kernel sys) "cam1_Count_Semaphore" = Some 3
    /\ m_hCountSemaphore o = Some (SemaphoreHandle "cam2_Count_Semaphore")
    /\ m_FrameCount o = 0
    /\ exists s',
         run (GetNewFrame true) o (kernel sys) = Some (true, s')
         /\ GetSenderFrame s' = Some (0, s').
Proof.
  do 2 eexists.
  split; [vm_compute; reflexivity|].
  split; [vm_compute; reflexivity|].
  split; [vm_compute; reflexivity|].
  split; [vm_compute; reflexivity|].
  eapply (GetNewFrame_fail_open true (demo_os ∅ 0)
            [Construct; Call 0 (OpEnableFrameCount "cam1");
             Call 0 OpSetNewFrame; Call 0 OpSetNewFrame;
             Construct; Call 1 (OpEnableFrameCount "cam2"); Call 1 OpGetNewFrame]
            _ 1 _ "cam2_Count_Semaphore").
  - vm_compute; reflexivity.
  - vm_compute; reflexivity.
  - left. split; [vm_compute; reflexivity|]. split.
    + intros c r H. vm_compute in H. discriminate H.
    + vm_compute; reflexivity.
Defined.

(* ===================================================================== *)
(** ** Every wait finds a unit: the counts stay positive *)
(* ===================================================================== *)

Lemma positive_insert (m : string) (k : kobj) (objs : gmap string kobj) :
  (forall c r, k = KSemaphore c r -> 1 <= c) ->
  positive_semaphores objs -> positive_semaphores (<[m := k]> objs).
Proof.
  intros Hk H n c r. destruct (decide (m = n)) as [->|Hne].
  - rewrite lookup_insert_eq. intros [= ->]. by eapply Hk.
  - rewrite lookup_insert_ne by done. apply H.
Qed.

Lemma positive_closed (h : HANDLE) (objs : gmap string kobj) :
  positive_semaphores objs -> positive_semaphores (closed_handle h objs).
Proof.
  intros H. unfold closed_handle.
  destruct (objs !! handle_name h) as [k|] eqn:Hk; [|done].
  destruct (close_object h k) as [k'|] eqn:Hc.
  - apply positive_insert; [|done]. intros c r ->.
    destruct h, k as [c0 [|[|r0]]|[|[|r0]]|]; cbn in Hc; simplify_eq;
      by eapply H.
  - intros n c r Hl. apply lookup_delete_Some in Hl as [_ Hl]. by eapply H.
Qed.

Lemma positive_opened (m : string) (objs : gmap string kobj) :
  positive_semaphores objs ->
  positive_semaphores (<[m := opened_semaphore (objs !! m)]> objs).
Proof.
  intros H. apply positive_insert; [|done]. intros c r.
  destruct (objs !! m) as [[c0 r0| |]|] eqn:Hm; cbn; intros [= <- _];
    eauto; lia.
Qed.

Lemma positive_opened_mutex (m : string) (objs : gmap string kobj) :
  positive_semaphores objs ->
  positive_semaphores (<[m := opened_mutex (objs !! m)]> objs).
Proof.
  intros H. apply positive_insert; [|done]. intros c r.
  by destruct (objs !! m) as [[| |]|].
Qed.

Section Positive.

Variable USE_CHRONO : bool.

Ltac pos_calls :=
  log_unfold;
  repeat match goal with
         | |- ensures (CloseHandle _) _ _ => apply CloseHandle_closed_post
         | |- ensures (CreateSemaphoreA _) _ _ =>
             apply CreateSemaphoreA_opened_post; intros ? ? ?
         | |- ensures (CreateMutexA _) _ _ =>
             apply CreateMutexA_opened_post; intros ? ? ?
         | |- ensures (reset_timers _) _ _ =>
             apply reset_timers_post; intros ? ? ?
         | |- ensures (UpdateSenderFps _ _) _ _ =>
             apply UpdateSenderFps_post; intros ? ? ?
         | |- _ => ensures_step
         end.

Ltac pos_leaf :=
  repeat match goal with
         | H : counter_fields _ = counter_fields _ |- _ => clear H
         | H : os_untouched _ _ |- _ =>
             apply os_untouched_objects in H; cbn in H
         | H : _ \/ _ |- _ => destruct H
         | H : _ /\ _ |- _ => destruct H
         | H : _ && _ = true |- _ => apply andb_true_iff in H
         | H : (_ <? _) = true |- _ => apply Z.ltb_lt in H
         | H : (_ <=? _) = true |- _ => apply Z.leb_le in H
         | H : (_ <=? _) = false |- _ => apply Z.leb_gt in H
         | H : objects (set_objects _ _) !! _ = _ |- _ => cbn in H
         | H : <[_:=_]> _ !! _ = _ |- _ => rewrite lookup_insert_eq in H
         end;
  cbn in *; simplify_eq;
  repeat match goal with
         | H : objects (os _) = _ |- _ => rewrite H in *
         end;
  rewrite ?insert_insert_eq;
  repeat first
    [ assumption
    | apply positive_closed
    | apply positive_opened
    | apply positive_opened_mutex
    | apply positive_insert;
      [ intros ? ? [= <- <-];
        repeat match goal with
               | Hp : positive_semaphores _,
                 Hl : _ !! _ = Some (KSemaphore _ _) |- _ =>
                   pose proof (Hp _ _ _ Hl); clear Hl
               end;
        unfold LONG_MAX in *; lia
      | ] ].

(** A publish takes one unit and gives back two, a poll takes one and gives
    it back; where the release fails for the maximum, plenty are left. *)
Lemma SetNewFrame_positive (s : state) :
  positive_semaphores (objects (os s)) ->
  ensures (SetNewFrame USE_CHRONO)
    (λ _ s', positive_semaphores (objects (os s'))) s.
Proof.
  intros Hpos. unfold SetNewFrame, WaitForSingleObject, ReleaseSemaphore.
  pos_calls; pos_leaf.
Qed.

Lemma GetNewFrame_positive (s : state) :
  positive_semaphores (objects (os s)) ->
  ensures (GetNewFrame USE_CHRONO)
    (λ _ s', positive_semaphores (objects (os s'))) s.
Proof.
  intros Hpos.
  unfold GetNewFrame, GetNewFrame_peek, GetNewFrame_compare,
    WaitForSingleObject, ReleaseSemaphore.
  pos_calls; pos_leaf.
Qed.

Lemma CleanupFrameCount_positive (s : state) :
  positive_semaphores (objects (os s)) ->
  ensures CleanupFrameCount
    (λ _ s', positive_semaphores (objects (os s'))) s.
Proof.
  intros Hpos. unfold CleanupFrameCount, GetRefreshRate.
  pos_calls; pos_leaf.
Qed.

Lemma DisableFrameCount_positive (s : state) :
  positive_semaphores (objects (os s)) ->
  ensures DisableFrameCount
    (λ _ s', positive_semaphores (objects (os s'))) s.
Proof.
  intros Hpos. unfold DisableFrameCount, CleanupFrameCount, GetRefreshRate.
  pos_calls; pos_leaf.
Qed.

Lemma SetFrameCount_positive (bEnable : bool) (s : state) :
  positive_semaphores (objects (os s)) ->
  ensures (SetFrameCount bEnable)
    (λ _ s', positive_semaphores (objects (os s'))) s.
Proof.
  intros Hpos.
  unfold SetFrameCount, WriteDwordToRegistry, IsFrameCountEnabled,
    CleanupFrameCount, GetRefreshRate.
  pos_calls; pos_leaf.
Qed.

Lemma EnableFrameCount_positive (SenderName : string) (s : state) :
  positive_semaphores (objects (os s)) ->
  ensures (EnableFrameCount USE_CHRONO SenderName)
    (λ _ s', positive_semaphores (objects (os s'))) s.
Proof.
  intros Hpos. unfold EnableFrameCount, GetRefreshRate, checked_copy.
  pos_calls; pos_leaf.
Qed.

Lemma CreateAccessMutex_positive (SenderName : string) (s : state) :
  positive_semaphores (objects (os s)) ->
  ensures (CreateAccessMutex SenderName)
    (λ _ s', positive_semaphores (objects (os s'))) s.
Proof.
  intros Hpos. unfold CreateAccessMutex, checked_copy.
  pos_calls; pos_leaf.
Qed.

Lemma CloseAccessMutex_positive (s : state) :
  positive_semaphores (objects (os s)) ->
  ensures CloseAccessMutex
    (λ _ s', positive_semaphores (objects (os s'))) s.
Proof.
  intros Hpos. unfold CloseAccessMutex.
  pos_calls; pos_leaf.
Qed.

Lemma HoldFps_positive (fps : Z) (s : state) :
  positive_semaphores (objects (os s)) ->
  ensures (HoldFps USE_CHRONO fps)
    (λ _ s', positive_semaphores (objects (os s'))) s.
Proof.
  intros Hpos.
  unfold HoldFps, GetCounter, QueryPerformanceCounter, steady_clock_now.
  pos_calls; pos_leaf.
Qed.

Lemma AllowTextureAccess_positive (t : option ID3D11Texture2D) (s : state) :
  positive_semaphores (objects (os s)) ->
  ensures (AllowTextureAccess t)
    (λ _ s', positive_semaphores (objects (os s'))) s.
Proof.
  intros Hpos. unfold AllowTextureAccess, AllowKeyedAccess, AllowAccess.
  pos_calls; pos_leaf.
Qed.

(** The one wait that is not followed by a release is the wait of an
    acquire, and that one is on a mutex. *)
Lemma CheckTextureAccess_positive (t : option ID3D11Texture2D) (s : state) :
  access_handle_typed (this s) ->
  positive_semaphores (objects (os s)) ->
  ensures (CheckTextureAccess t)
    (λ _ s', positive_semaphores (objects (os s'))) s.
Proof.
  intros Hty Hpos.
  unfold CheckTextureAccess, CheckKeyedAccess, CheckAccess, WaitForSingleObject.
  pos_calls;
    try (exfalso;
         match goal with
         | He : m_hAccessMutex _ = Some (SemaphoreHandle ?m) |- _ =>
             exact (Hty m He)
         end);
    pos_leaf.
Qed.

Lemma constructor_positive (s : state) :
  positive_semaphores (objects (os s)) ->
  ensures (constructor USE_CHRONO)
    (λ _ s', positive_semaphores (objects (os s'))) s.
Proof.
  intros Hpos.
  unfold constructor, GetRefreshRate, ReadDwordFromRegistry, StartCounter,
    QueryPerformanceFrequency, QueryPerformanceCounter.
  pos_calls; pos_leaf.
Qed.

Lemma do_op_positive (op : channel_op) (s : state) :
  access_handle_typed (this s) ->
  positive_semaphores (objects (os s)) ->
  ensures (do_op USE_CHRONO op)
    (λ _ s', positive_semaphores (objects (os s'))) s.
Proof.
  intros Hty Hpos. destruct op; cbn [do_op].
  - by apply SetFrameCount_positive.
  - by apply EnableFrameCount_positive.
  - by apply DisableFrameCount_positive.
  - by apply CleanupFrameCount_positive.
  - by apply SetNewFrame_positive.
  - apply ensures_bind.
    eapply ensures_weaken; [by apply GetNewFrame_positive|].
    intros ? ? ?. by apply ensures_ret.
  - by apply HoldFps_positive.
  - apply ensures_bind.
    eapply ensures_weaken; [by apply CreateAccessMutex_positive|].
    intros ? ? ?. by apply ensures_ret.
  - by apply CloseAccessMutex_positive.
  - apply ensures_bind.
    eapply ensures_weaken; [by apply CheckTextureAccess_positive|].
    intros ? ? ?. by apply ensures_ret.
  - by apply AllowTextureAccess_positive.
Qed.

Lemma do_step_positive (st : step) (sys sys' : system) :
  Forall access_handle_typed (parties sys) ->
  positive_semaphores (objects (kernel sys)) ->
  do_step USE_CHRONO st sys = Some sys' ->
  positive_semaphores (objects (kernel sys')).
Proof.
  intros Hty Hpos Hrun. destruct st as [|i op]; cbn in Hrun.
  - unfold new_spoutFrameCount, run in Hrun.
    destruct (constructor USE_CHRONO _) as [[[] s]|] eqn:Hc; [|done].
    injection Hrun as <-. cbn.
    exact (ensures_elim _ _ _ _ _
             (constructor_positive
                {| this := zeroed; os := kernel sys; trace := [] |} Hpos) Hc).
  - destruct (parties sys !! i) as [o|] eqn:Hi; [|by injection Hrun as <-].
    unfold run in Hrun.
    destruct (do_op USE_CHRONO op _) as [[[] s]|] eqn:Hop; [|done].
    injection Hrun as <-. cbn.
    exact (ensures_elim _ _ _ _ _
             (do_op_positive op
                {| this := o; os := kernel sys; trace := [] |}
                (Forall_lookup_1 _ _ _ _ Hty Hi) Hpos) Hop).
Qed.

Lemma history_positive (steps : list step) :
  forall sys sys' : system,
    sys_inv false sys ->
    positive_semaphores (objects (kernel sys)) ->
    history USE_CHRONO steps sys = Some sys' ->
    positive_semaphores (objects (kernel sys')).
Proof.
  induction steps as [|st steps IH]; intros sys sys' Hinv Hpos Hrun;
    cbn in Hrun.
  - by injection Hrun as <-.
  - destruct (do_step USE_CHRONO st sys) as [sys1|] eqn:Hst; [|done].
    destruct (do_step_inv USE_CHRONO false st sys sys1) as [Hinv1 _];
      try done.
    apply (IH sys1); try done.
    apply (do_step_positive st sys); try done.
    by apply (sys_inv_typed false).
Qed.

End Positive.

(** X1. No wait of a publish or a poll finds its semaphore empty. Along
    every history of constructions and method calls, taken one at a time, by
    any number of parties, publishes included, every semaphore count is at
    least 1 after each call when the counts started there: [SetNewFrame] and [GetNewFrame]
    give back what their wait took (a failed release happens only at the
    maximum, far above 1), semaphores are created at 1, and the one wait
    that gives nothing back, that of [CheckTextureAccess], is never on a
    semaphore, the access handle of an object being that of a mutex. *)
Theorem history_counts_positive
    (chrono : bool) (steps : list step) (w : OS) (sys' : system)
    (Hpos : positive_semaphores (objects w))
    (Hrun : history chrono steps {| parties := []; kernel := w |} = Some sys') :
  positive_semaphores (objects (kernel sys')).
Proof.
  eapply (history_positive chrono steps); [| |exact Hrun].
  - constructor.
  - exact Hpos.
Qed.

(** A sender and a receiver of "cam": three publishes, two polls and an
    acquire. *)
Lemma history_counts_positive_witness :
  exists sys',
    history true
      [Construct; Call 0 (OpEnableFrameCount "cam");
       Construct; Call 1 (OpEnableFrameCount "cam");
       Call 1 (OpCreateAccessMutex "cam");
       Call 0 OpSetNewFrame; Call 1 OpGetNewFrame; Call 0 OpSetNewFrame;
       Call 0 OpSetNewFrame; Call 1 (OpCheckTextureAccess None);
       Call 1 OpGetNewFrame]
      {| parties := []; kernel := demo_os ∅ 0 |} = Some sys'
    /\ sem_count (kernel sys') "cam_Count_Semaphore" = Some 4
    /\ positive_semaphores (objects (kernel sys')).
Proof.
  eexists. split; [vm_compute; reflexivity|].
  split; [vm_compute; reflexivity|].
  eapply (history_counts_positive true
            [Construct; Call 0 (OpEnableFrameCount "cam");
             Construct; Call 1 (OpEnableFrameCount "cam");
             Call 1 (OpCreateAccessMutex "cam");
             Call 0 OpSetNewFrame; Call 1 OpGetNewFrame; Call 0 OpSetNewFrame;
             Call 0 OpSetNewFrame; Call 1 (OpCheckTextureAccess None);
             Call 1 OpGetNewFrame]
            (demo_os ∅ 0)).
  - intros n c r H. vm_compute in H. discriminate H.
  - vm_compute; reflexivity.
Defined.
(* ===================================================================== *)
(** * The plugin *)
(* ===================================================================== *)

Section PluginProperties.

Import klakspout.

Context {sdk : SpoutSDK}.

Ltac kunfold :=
  unfold call_spoutDX, call_spoutDX12, unity, modify_g, modify_plugin,
    get_plugin, undefined in *;
  unfold mbind, K_bind, mret, K_ret in *.

Lemma to_int_id (z : Z) : - 2 ^ 31 <= z <= INT_MAX -> to_int z = z.
Proof.
  unfold to_int, INT_MAX. intros H. rewrite Z.mod_small; lia.
Qed.

(** The loop of [GetSharedObjectName] from a count on. *)
Lemma GetSharedObjectName_from_lookup (names : list string) (count index : Z) :
  0 <= count ->
  count + Z.of_nat (length names) <= INT_MAX + 1 ->
  GetSharedObjectName_from names count index
  = if count <=? index then names !! Z.to_nat (index - count) else None.
Proof.
  revert count. induction names as [|name rest IH]; intros count H0 Hmax.
  - cbn. by destruct (count <=? index).
  - cbn [GetSharedObjectName_from].
    destruct (count =? index) eqn:E.
    + apply Z.eqb_eq in E. subst index.
      rewrite Z.leb_refl, Z.sub_diag. reflexivity.
    + apply Z.eqb_neq in E.
      destruct rest as [|name' rest'].
      * cbn. destruct (count <=? index) eqn:L; [|done].
        apply Z.leb_le in L.
        replace (Z.to_nat (index - count)) with (S (Z.to_nat (index - count - 1)))
          by lia.
        reflexivity.
      * cbn [length] in Hmax.
        rewrite to_int_id by (unfold INT_MAX in *; lia).
        rewrite IH by (cbn [length]; lia).
        destruct (count <=? index) eqn:L.
        -- apply Z.leb_le in L.
           assert ((count + 1 <=? index) = true) as -> by (apply Z.leb_le; lia).
           replace (Z.to_nat (index - count))
             with (S (Z.to_nat (index - (count + 1)))) by lia.
           reflexivity.
        -- apply Z.leb_gt in L.
           assert ((count + 1 <=? index) = false) as -> by (apply Z.leb_gt; lia).
           reflexivity.
Qed.

Lemma GetSharedObjectName_run (index : Z) (p : Plugin) :
  Z.of_nat (length (shared_object_names_ p)) <= INT_MAX + 1 ->
  GetSharedObjectName index p
  = Some (match (if 0 <=? index
                 then shared_object_names_ p !! Z.to_nat index else None) with
          | Some name => (temp_c_str, set_temp name p)
          | None => (null_c_str, p)
          end).
Proof.
  intros Hsize. unfold GetSharedObjectName. kunfold.
  rewrite GetSharedObjectName_from_lookup by lia.
  rewrite Z.sub_0_r.
  by destruct (if 0 <=? index then _ else _).
Qed.

(** X19. [GetSharedObjectName] is the lookup by position. With at most
    2^31 names in the list of the last scan, [GetSharedObjectName(index)]
    returns the name at position [index] in the order of iteration, through
    the static string, when [0 <= index] and [index] is below the number of
    names; for a negative index and for an index past the end it returns
    [nullptr] and changes nothing. The list itself is never changed. *)
Theorem GetSharedObjectName_lookup (index : Z) (p : Plugin)
    (Hsize : Z.of_nat (length (shared_object_names_ p)) <= INT_MAX + 1) :
  exists c p',
    GetSharedObjectName index p = Some (c, p')
    /\ read_c_str c p'
       = (if (0 <=? index) && (index <? Z.of_nat (length (shared_object_names_ p)))
          then shared_object_names_ p !! Z.to_nat index
          else None)
    /\ (c = null_c_str <-> ~ (0 <= index < Z.of_nat (length (shared_object_names_ p))))
    /\ (c = null_c_str -> p' = p)
    /\ shared_object_names_ p' = shared_object_names_ p.
Proof.
  rewrite (GetSharedObjectName_run index p Hsize).
  destruct (0 <=? index) eqn:H0; cbn [andb].
  - apply Z.leb_le in H0.
    destruct (shared_object_names_ p !! Z.to_nat index) as [name|] eqn:Hl.
    + pose proof (lookup_lt_Some _ _ _ Hl) as Hlt.
      assert ((index <? Z.of_nat (length (shared_object_names_ p))) = true)
        as -> by (apply Z.ltb_lt; lia).
      eexists _, _. split; [reflexivity|]. cbn.
      repeat split; try done. intros Hn. lia.
    + pose proof (lookup_ge_None_1 _ _ Hl) as Hge.
      assert ((index <? Z.of_nat (length (shared_object_names_ p))) = false)
        as -> by (apply Z.ltb_ge; lia).
      eexists _, _. split; [reflexivity|]. cbn.
      repeat split; try done. intros _. lia.
  - apply Z.leb_gt in H0.
    eexists _, _. split; [reflexivity|]. cbn.
    repeat split; try done. intros _. lia.
Qed.

Lemma call_spoutDX_run {A : Type} (method : spoutDX -> A * spoutDX)
    (p : Plugin) :
  call_spoutDX method p
  = match spoutDX_ (g p) with
    | Some d => Some ((method d).1,
                      set_g (set_spoutDX_ (Some (method d).2) (g p)) p)
    | None => None
    end.
Proof. unfold call_spoutDX. kunfold. by destruct (spoutDX_ (g p)). Qed.

Lemma call_spoutDX12_run {A : Type} (method : spoutDX12 -> A * spoutDX12)
    (p : Plugin) :
  call_spoutDX12 method p
  = match spoutDX12_ (g p) with
    | Some d => Some ((method d).1,
                      set_g (set_spoutDX12_ (Some (method d).2) (g p)) p)
    | None => None
    end.
Proof. unfold call_spoutDX12. kunfold. by destruct (spoutDX12_ (g p)). Qed.

(** [CheckSender] gives the answer of the SDK and changes the SDK object
    only. *)
Lemma CheckSender_run (name : string) (p : Plugin) (r : bool * Z * Z) :
  CheckSender_answer name p = Some r ->
  exists p', CheckSender name p = Some (r, p')
             /\ outside_sdk p' = outside_sdk p.
Proof.
  unfold CheckSender_answer, CheckSender. intros H.
  unfold mbind, K_bind, get_plugin.
  destruct (renderer_ (g p)) eqn:Hr.
  - rewrite call_spoutDX_run.
    destruct (spoutDX_ (g p)) as [d|]; [|done]. cbn in H. injection H as <-.
    eexists. split; [reflexivity|]. unfold outside_sdk. cbn. by rewrite Hr.
  - rewrite call_spoutDX12_run.
    destruct (spoutDX12_ (g p)) as [d|]; [|done]. cbn in H. injection H as <-.
    eexists. split; [reflexivity|]. unfold outside_sdk. cbn. by rewrite Hr.
Qed.

(** X21. A scan and the names read after it. On a ready plugin whose SDK
    object answers [GetSenderNames] with success and a set of at most
    2^31 - 1 names, [ScanSharedObjects] returns the number of names, and
    afterwards [GetSharedObjectName(index)] returns a name exactly for the
    indices from 0 below that number: the name at that position of the set.
    Nothing but the list and the SDK object is changed by the scan. *)
Theorem ScanSharedObjects_then_names (names : list string) (p : Plugin)
    (Hready : isReady (g p) = true)
    (Hans : GetSenderNames_answer p = Some (true, names))
    (Hsize : Z.of_nat (length names) <= INT_MAX) :
  exists p',
    ScanSharedObjects p = Some (Z.of_nat (length names), p')
    /\ shared_object_names_ p' = names
    /\ (unity_ p', temp p', released p', renderer_ (g p'), isReady (g p'))
       = (unity_ p, temp p, released p, renderer_ (g p), isReady (g p))
    /\ forall index, exists c p'',
         GetSharedObjectName index p' = Some (c, p'')
         /\ (c <> null_c_str <-> 0 <= index < Z.of_nat (length names))
         /\ read_c_str c p''
            = if 0 <=? index then names !! Z.to_nat index else None.
Proof.
  assert (Hnames : forall p' : Plugin, shared_object_names_ p' = names ->
            forall index, exists c p'',
              GetSharedObjectName index p' = Some (c, p'')
              /\ (c <> null_c_str <-> 0 <= index < Z.of_nat (length names))
              /\ read_c_str c p''
                 = if 0 <=? index then names !! Z.to_nat index else None).
  { intros p' Hp' index.
    rewrite (GetSharedObjectName_run index p') by (rewrite Hp'; lia).
    rewrite Hp'. destruct (0 <=? index) eqn:H0.
    - apply Z.leb_le in H0.
      destruct (names !! Z.to_nat index) as [name|] eqn:Hl.
      + pose proof (lookup_lt_Some _ _ _ Hl).
        eexists _, _. split; [reflexivity|]. cbn. split; [|done].
        split; [lia|done].
      + pose proof (lookup_ge_None_1 _ _ Hl).
        eexists _, _. split; [reflexivity|]. cbn. split; [|done].
        split; [done|lia].
    - apply Z.leb_gt in H0.
      eexists _, _. split; [reflexivity|]. cbn. split; [|done].
      split; [done|lia]. }
  unfold GetSenderNames_answer in Hans.
  unfold ScanSharedObjects. unfold mbind, K_bind, get_plugin, modify_plugin.
  rewrite Hready. cbn [negb].
  destruct (renderer_ (g p)) eqn:Hr.
  - rewrite call_spoutDX_run. cbn [g set_shared_object_names_].
    destruct (spoutDX_ (g p)) as [d|]; [|done]. cbn in Hans.
    injection Hans as Hans. rewrite Hans. cbn.
    rewrite to_int_id by (unfold INT_MAX in *; lia).
    eexists. split; [reflexivity|]. cbn. rewrite Hr, Hready.
    split; [reflexivity|]. split; [reflexivity|]. by apply Hnames.
  - rewrite call_spoutDX12_run. cbn [g set_shared_object_names_].
    destruct (spoutDX12_ (g p)) as [d|]; [|done]. cbn in Hans.
    injection Hans as Hans. rewrite Hans. cbn.
    rewrite to_int_id by (unfold INT_MAX in *; lia).
    eexists. split; [reflexivity|]. cbn. rewrite Hr, Hready.
    split; [reflexivity|]. split; [reflexivity|]. by apply Hnames.
Qed.

(** X22. A plugin that is not ready is inert. While [isReady] is unset (no
    device yet, or opening it failed), [CreateSender] and [CreateReceiver]
    return [nullptr], [SendTexture] and [ScanSharedObjects] return 0, and a
    render event leaves its object as it is, not even deleting it on the
    dispose event, all without changing the plugin or calling the SDK (for
    the render event: unless it is the update event under D3D12 with the
    second stage of the set-up pending, which is attempted first). *)
Theorem not_ready_is_inert
    (name : option string) (width height : Z) (o : SharedObject)
    (tex : pointer) (event_id : Z) (p : Plugin)
    (Hnot : isReady (g p) = false)
    (Hstage : event_id <> 0 \/ renderer_ (g p) = DX11
              \/ isReady2 (g p) = true) :
  CreateSender name width height p = Some (None, p)
  /\ CreateReceiver name p = Some (None, p)
  /\ SendTexture o tex p = Some ((0, o), p)
  /\ ScanSharedObjects p = Some (0, p)
  /\ OnRenderEvent event_id o p = Some (Some o, p).
Proof.
  unfold CreateSender, CreateReceiver, SendTexture, ScanSharedObjects,
    OnRenderEvent.
  kunfold. rewrite Hnot. cbn.
  repeat split.
  destruct Hstage as [Hev|[Hr|H2]].
  - apply Z.eqb_neq in Hev. rewrite Hev. cbn. by rewrite Hnot.
  - rewrite Hr, andb_false_r. cbn. by rewrite Hnot.
  - rewrite H2, andb_false_r. cbn. by rewrite Hnot.
Qed.

(** X23. Under D3D12 a resource is wrapped once, and later calls send
    the first one. On a ready plugin with the D3D12 renderer, an active
    object that has no wrapped resource yet is sent a texture, and
    [WrapDX12Resource] stores a resource for it. [SendTexture] then sends
    that resource and keeps it in the object; the next [SendTexture] on the
    object sends the same resource again, whatever texture it is given,
    without another wrap, and leaves the object as it is. *)
Theorem SendTexture_wraps_once
    (o : SharedObject) (tex : pointer) (d : spoutDX12) (p : Plugin)
    (Hready : isReady (g p) = true)
    (Hr : renderer_ (g p) = DX12)
    (Hd : spoutDX12_ (g p) = Some d)
    (Hact : active o = true)
    (Hnone : wrappedDX12Texture o = nullptr)
    (Hwrap : (WrapDX12Resource tex d).1 <> nullptr) :
  let w := (WrapDX12Resource tex d).1 in
  let d1 := (WrapDX12Resource tex d).2 in
  let sent1 := SendDX11Resource w d1 in
  let o1 := set_wrappedDX12Texture w o in
  let p1 := set_g (set_spoutDX12_ (Some sent1.2) (g p)) p in
  SendTexture o tex p = Some ((Z.b2z sent1.1, o1), p1)
  /\ forall tex',
       let sent2 := SendDX11Resource w sent1.2 in
       SendTexture o1 tex' p1
       = Some ((Z.b2z sent2.1, o1),
               set_g (set_spoutDX12_ (Some sent2.2) (g p)) p).
Proof.
  intros w d1 sent1 o1 p1.
  assert (Hw : (w =? nullptr) = false) by by apply Z.eqb_neq.
  split.
  - unfold SendTexture, SharedObject_SendTexture. kunfold.
    rewrite Hready. cbn. rewrite Hact. cbn. rewrite Hr. cbn.
    rewrite Hnone. cbn. rewrite Hd. cbn. fold w. rewrite Hw. cbn.
    reflexivity.
  - intros tex' sent2.
    unfold SendTexture, SharedObject_SendTexture. kunfold.
    unfold p1, o1. cbn. rewrite Hready. cbn. rewrite Hact. cbn.
    rewrite Hr. cbn. rewrite Hw. cbn. rewrite Hw. cbn. reflexivity.
Qed.

(** [OnRenderEvent] past the second stage of the D3D12 set-up. *)
Lemma OnRenderEvent_ready (event_id : Z) (pobj : SharedObject) (p : Plugin) :
  isReady (g p) = true ->
  (renderer_ (g p) = DX12 -> isReady2 (g p) = true) ->
  OnRenderEvent event_id pobj p
  = (if event_id =? 0 then
       if negb (isActive pobj)
       then r ← activate pobj; mret (Some (r : bool * SharedObject).2)
       else mret (Some pobj)
     else if event_id =? 1 then
       delete_SharedObject pobj;; mret None
     else mret (Some pobj)) p.
Proof.
  intros Hready H2. unfold OnRenderEvent.
  unfold mbind at 1 2 3. unfold K_bind at 1 2 3. unfold get_plugin.
  assert ((event_id =? 0)
          && (if renderer_ (g p) is DX12 then true else false)
          && negb (isReady2 (g p)) = false) as ->.
  { destruct (renderer_ (g p)); [by rewrite andb_false_r|].
    rewrite H2 by done. by rewrite andb_false_r. }
  cbn [mret K_ret negb]. by rewrite Hready.
Qed.

(** X24. A sender whose name is taken is not activated, and disposing it
    releases nothing. On a ready plugin, an inactive sender object comes to
    the update event while the SDK finds a sender of its name: the object
    stays inactive and only [CheckSender] has been called. The dispose event
    after it deletes the object without any call of the SDK, so the name of
    the sender that holds it is not released. *)
Theorem taken_name_never_activates
    (o : SharedObject) (width height : Z) (p : Plugin)
    (Hready : isReady (g p) = true)
    (Hstage : renderer_ (g p) = DX12 -> isReady2 (g p) = true)
    (Htype : type_ o = sender)
    (Hinactive : active o = false)
    (Hnone : wrappedDX12Texture o = nullptr)
    (Hfound : CheckSender_answer (name_ o) p = Some (true, width, height)) :
  exists p1,
    CheckSender (name_ o) p = Some ((true, width, height), p1)
    /\ OnRenderEvent 0 o p = Some (Some o, p1)
    /\ OnRenderEvent 1 o p1 = Some (None, p1).
Proof.
  destruct (CheckSender_run _ _ _ Hfound) as (p1 & Hrun & Hout).
  unfold outside_sdk in Hout. injection Hout as _ _ _ _ Hr1 Hready1 H21.
  exists p1. split; [exact Hrun|]. split.
  - rewrite OnRenderEvent_ready by done.
    unfold activate, setupSender, isActive.
    cbn [Z.eqb]. rewrite Hinactive, Htype. cbn [negb].
    unfold mbind, K_bind, mret, K_ret. rewrite Hrun. cbn.
    f_equal. f_equal. f_equal. destruct o. cbn in *. by subst.
  - rewrite OnRenderEvent_ready;
      [|congruence|intros Hx; rewrite H21; apply Hstage; congruence].
    unfold delete_SharedObject, releaseInternals.
    cbn [Z.eqb]. rewrite Htype, Hinactive, Hnone.
    reflexivity.
Qed.

(** X25. The life of a sender. On a ready plugin with the D3D11 renderer,
    where the SDK finds no sender of the name: the first update event
    activates the object, calling [CheckSender] and then [SetSenderName];
    a second update event does nothing; the dispose event calls
    [ReleaseSender] and deletes the object. *)
Theorem sender_lifecycle
    (o : SharedObject) (d : spoutDX) (p : Plugin)
    (Hready : isReady (g p) = true)
    (Hr : renderer_ (g p) = DX11)
    (Hd : spoutDX_ (g p) = Some d)
    (Htype : type_ o = sender)
    (Hinactive : active o = false)
    (Hnone : wrappedDX12Texture o = nullptr)
    (Hfree : (DX_CheckSender (name_ o) d).1.1.1 = false) :
  let d1 := DX_SetSenderName (name_ o) (DX_CheckSender (name_ o) d).2 in
  let p1 := set_g (set_spoutDX_ (Some d1) (g p)) p in
  let o1 := set_active true o in
  OnRenderEvent 0 o p = Some (Some o1, p1)
  /\ OnRenderEvent 0 o1 p1 = Some (Some o1, p1)
  /\ OnRenderEvent 1 o1 p1
     = Some (None, set_g (set_spoutDX_ (Some (DX_ReleaseSender d1)) (g p)) p).
Proof.
  intros d1 p1 o1.
  assert (Hready1 : isReady (g p1) = true) by exact Hready.
  assert (Hr1 : renderer_ (g p1) = DX11) by exact Hr.
  split; [|split].
  - rewrite OnRenderEvent_ready by (done || congruence).
    unfold activate, setupSender, isActive, CheckSender.
    cbn [Z.eqb]. rewrite Hinactive, Htype. cbn [negb].
    unfold mbind, K_bind, mret, K_ret, get_plugin. rewrite Hr.
    rewrite call_spoutDX_run, Hd. rewrite Hfree.
    cbn [g set_g renderer_ set_spoutDX_]. rewrite Hr.
    rewrite call_spoutDX_run. cbn [g set_g spoutDX_ set_spoutDX_ fst snd].
    reflexivity.
  - rewrite OnRenderEvent_ready by (done || congruence).
    reflexivity.
  - rewrite OnRenderEvent_ready by (done || congruence).
    unfold delete_SharedObject, releaseInternals. kunfold.
    unfold o1, p1. cbn. rewrite Htype, Hr, Hnone. cbn. reflexivity.
Qed.

(** X26. An activated receiver is valid only for a sender of the size
    [UINT_MAX] by [UINT_MAX]. A receiver made by [CreateReceiver] has width
    and height -1, and the update event activates it without asking the SDK
    and without setting them. [CheckValid] on it then compares -1, converted
    to [unsigned int], with the size of the sender found: it returns 1
    exactly when a sender of the name is found with width and height
    4294967295, and 0 for every other sender. *)
Theorem receiver_valid_only_at_UINT_MAX
    (name : option string) (found : bool) (width height : Z) (p : Plugin)
    (Hready : isReady (g p) = true)
    (Hstage : renderer_ (g p) = DX12 -> isReady2 (g p) = true)
    (Hans : CheckSender_answer (default "" name) p
            = Some (found, width, height)) :
  exists o o' p',
    CreateReceiver name p = Some (Some o, p)
    /\ OnRenderEvent 0 o p = Some (Some o', p)
    /\ isActive o' = true
    /\ (GetTextureWidth o', GetTextureHeight o') = (-1, -1)
    /\ CheckValid o' p
       = Some (Z.b2z (found && (width =? 4294967295)
                            && (height =? 4294967295)), p').
Proof.
  destruct (CheckSender_run _ _ _ Hans) as (p' & Hrun & _).
  eexists _, _, p'.
  split; [unfold CreateReceiver; kunfold; by rewrite Hready|].
  split.
  { rewrite OnRenderEvent_ready by done. reflexivity. }
  split; [reflexivity|]. split; [reflexivity|].
  unfold CheckValid, isValid. cbn.
  unfold mbind, K_bind, mret, K_ret. rewrite Hrun.
  cbn. do 3 f_equal. by rewrite !(Z.eqb_sym 4294967295).
Qed.

(** [OnGraphicsDeviceEvent] and [UnityPluginLoad], D3D11. *)
Lemma OnGraphicsDeviceEvent_shutdown_d3d11 (u : IUnityInterfaces)
    (p : Plugin) :
  unity_ p = Some u ->
  GetRenderer u = kUnityGfxRendererD3D11 ->
  OnGraphicsDeviceEvent kUnityGfxDeviceEventShutdown p
  = Some (tt, set_g (set_spoutDX_ None (g p)) p).
Proof.
  intros Hu Hr. unfold OnGraphicsDeviceEvent. kunfold. by rewrite Hu, Hr.
Qed.

(** X27. The ready flag outlives the SDK object. Under the D3D11 renderer
    the shutdown event releases the SDK object and leaves [isReady] as it
    is. On a plugin that was ready, every function that reaches the SDK
    afterwards ([ScanSharedObjects], [SendTexture] on an active object, the
    update event on an inactive sender) dereferences the null pointer. *)
Theorem shutdown_leaves_ready
    (u : IUnityInterfaces) (o o' : SharedObject) (tex : pointer) (p : Plugin)
    (Hu : unity_ p = Some u)
    (Hrenderer : GetRenderer u = kUnityGfxRendererD3D11)
    (Hready : isReady (g p) = true)
    (Hr : renderer_ (g p) = DX11)
    (Hact : active o = true)
    (Hsender : type_ o' = sender)
    (Hinactive : active o' = false) :
  exists p',
    OnGraphicsDeviceEvent kUnityGfxDeviceEventShutdown p = Some (tt, p')
    /\ isReady (g p') = true
    /\ spoutDX_ (g p') = None
    /\ ScanSharedObjects p' = None
    /\ SendTexture o tex p' = None
    /\ OnRenderEvent 0 o' p' = None.
Proof.
  rewrite (OnGraphicsDeviceEvent_shutdown_d3d11 u p Hu Hrenderer).
  eexists. split; [reflexivity|]. split; [exact Hready|].
  split; [reflexivity|]. split; [|split].
  - unfold ScanSharedObjects. kunfold. cbn.
    rewrite Hready. cbn. by rewrite Hr.
  - unfold SendTexture, SharedObject_SendTexture. kunfold. cbn.
    rewrite Hready. cbn. rewrite Hact. cbn. by rewrite Hr.
  - rewrite OnRenderEvent_ready by (done || (cbn; congruence)).
    unfold activate, setupSender, isActive, CheckSender. kunfold. cbn.
    rewrite Hinactive. cbn. rewrite Hsender. cbn. by rewrite Hr.
Qed.

(** X28. When loading makes the plugin ready. [UnityPluginLoad] on the
    plugin as first constructed returns; afterwards the plugin is ready
    exactly when the renderer is D3D12, or it is D3D11 with a device that
    [OpenDirectX11] opens. Whenever it is ready, the SDK object of the
    renderer recorded exists. *)
Theorem UnityPluginLoad_ready (interfaces : IUnityInterfaces) (p : Plugin)
    (Hfresh : g p = Globals_instance) :
  exists p',
    UnityPluginLoad interfaces p = Some (tt, p')
    /\ unity_ p' = Some interfaces
    /\ isReady (g p')
       = match GetRenderer interfaces with
         | kUnityGfxRendererD3D11 =>
             negb (D3D11_GetDevice interfaces =? nullptr)
             && (OpenDirectX11 (D3D11_GetDevice interfaces) make_spoutDX).1
         | kUnityGfxRendererD3D12 => true
         | kUnityGfxRendererOther => false
         end
    /\ (isReady (g p') = true ->
        match renderer_ (g p') with
        | DX11 => is_Some (spoutDX_ (g p'))
                  /\ GetRenderer interfaces = kUnityGfxRendererD3D11
        | DX12 => is_Some (spoutDX12_ (g p'))
                  /\ GetRenderer interfaces = kUnityGfxRendererD3D12
        end).
Proof.
  unfold UnityPluginLoad, OnGraphicsDeviceEvent. kunfold. cbn.
  destruct (GetRenderer interfaces) eqn:Hr; cbn;
    [destruct (D3D11_GetDevice interfaces =? nullptr) eqn:Hdev; cbn;
     [|destruct (OpenDirectX11 (D3D11_GetDevice interfaces) make_spoutDX)
         as [[] d1] eqn:Hopen; cbn]| |];
    eexists; (split; [reflexivity|]); cbn; rewrite ?Hfresh; cbn;
    repeat split; try done; by eexists.
Qed.

End PluginProperties.

Import klakspout.

(** The second of two names, and the index past them. *)
Lemma GetSharedObjectName_lookup_witness :
  exists c p',
    GetSharedObjectName 1 (demo_plugin_d3d11 ["cam"; "tv"]) = Some (c, p')
    /\ read_c_str c p'
       = (if (0 <=? 1)
             && (1 <? Z.of_nat (length (shared_object_names_
                                          (demo_plugin_d3d11 ["cam"; "tv"]))))
          then shared_object_names_ (demo_plugin_d3d11 ["cam"; "tv"])
                 !! Z.to_nat 1
          else None)
    /\ (c = null_c_str
        <-> ~ (0 <= 1 < Z.of_nat (length (shared_object_names_
                                            (demo_plugin_d3d11 ["cam"; "tv"])))))
    /\ (c = null_c_str -> p' = demo_plugin_d3d11 ["cam"; "tv"])
    /\ shared_object_names_ p'
       = shared_object_names_ (demo_plugin_d3d11 ["cam"; "tv"]).
Proof.
  apply (GetSharedObjectName_lookup 1 (demo_plugin_d3d11 ["cam"; "tv"])).
  cbn. unfold INT_MAX. lia.
Defined.

(** A scan under D3D11 after an earlier one had left two names. *)
Lemma ScanSharedObjects_then_names_witness :
  exists p',
    ScanSharedObjects (demo_plugin_d3d11 ["old"; "older"])
    = Some (Z.of_nat (length ["cam"]), p')
    /\ shared_object_names_ p' = ["cam"]
    /\ (unity_ p', temp p', released p', renderer_ (g p'), isReady (g p'))
       = (unity_ (demo_plugin_d3d11 ["old"; "older"]),
          temp (demo_plugin_d3d11 ["old"; "older"]),
          released (demo_plugin_d3d11 ["old"; "older"]),
          renderer_ (g (demo_plugin_d3d11 ["old"; "older"])),
          isReady (g (demo_plugin_d3d11 ["old"; "older"])))
    /\ forall index, exists c p'',
         GetSharedObjectName index p' = Some (c, p'')
         /\ (c <> null_c_str <-> 0 <= index < Z.of_nat (length ["cam"]))
         /\ read_c_str c p''
            = if 0 <=? index then ["cam"] !! Z.to_nat index else None.
Proof.
  apply (ScanSharedObjects_then_names ["cam"]
           (demo_plugin_d3d11 ["old"; "older"])).
  - reflexivity.
  - reflexivity.
  - cbn. unfold INT_MAX. lia.
Defined.

(** The plugin before it is loaded; the dispose event. *)
Lemma not_ready_is_inert_witness :
  CreateSender (Some "out") 640 480 demo_unloaded = Some (None, demo_unloaded)
  /\ CreateReceiver (Some "cam") demo_unloaded = Some (None, demo_unloaded)
  /\ SendTexture demo_active_sender 100 demo_unloaded
     = Some ((0, demo_active_sender), demo_unloaded)
  /\ ScanSharedObjects demo_unloaded = Some (0, demo_unloaded)
  /\ OnRenderEvent 1 demo_active_sender demo_unloaded
     = Some (Some demo_active_sender, demo_unloaded).
Proof.
  apply (not_ready_is_inert (Some "out") 640 480 demo_active_sender 100 1
           demo_unloaded).
  - reflexivity.
  - left. lia.
Defined.

(** Texture 100 is wrapped as resource 101; the later texture is not
    looked at. *)
Lemma SendTexture_wraps_once_witness :
  SendTexture demo_active_sender 100 (demo_plugin_d3d12 [])
  = Some ((1, set_wrappedDX12Texture 101 demo_active_sender),
          set_g (@set_spoutDX12_ demo_sdk
                   (Some [CallOpenDirectX12 4096 8192;
                          CallWrapDX12Resource 100;
                          CallSendDX11Resource 101])
                   (g (demo_plugin_d3d12 [])))
            (demo_plugin_d3d12 []))
  /\ forall tex',
       SendTexture (set_wrappedDX12Texture 101 demo_active_sender) tex'
         (set_g (@set_spoutDX12_ demo_sdk
                   (Some [CallOpenDirectX12 4096 8192;
                          CallWrapDX12Resource 100;
                          CallSendDX11Resource 101])
                   (g (demo_plugin_d3d12 [])))
            (demo_plugin_d3d12 []))
       = Some ((1, set_wrappedDX12Texture 101 demo_active_sender),
               set_g (@set_spoutDX12_ demo_sdk
                        (Some [CallOpenDirectX12 4096 8192;
                               CallWrapDX12Resource 100;
                               CallSendDX11Resource 101;
                               CallSendDX11Resource 101])
                        (g (demo_plugin_d3d12 [])))
                 (demo_plugin_d3d12 [])).
Proof.
  apply (@SendTexture_wraps_once demo_sdk demo_active_sender 100
           [CallOpenDirectX12 4096 8192] (demo_plugin_d3d12 [])).
  - reflexivity.
  - reflexivity.
  - reflexivity.
  - reflexivity.
  - reflexivity.
  - cbn. unfold nullptr. lia.
Defined.

(** A second sender named "cam". *)
Lemma taken_name_never_activates_witness :
  exists p1,
    CheckSender (name_ demo_taken_sender) (demo_plugin_d3d11 [])
    = Some ((true, 640, 480), p1)
    /\ OnRenderEvent 0 demo_taken_sender (demo_plugin_d3d11 [])
       = Some (Some demo_taken_sender, p1)
    /\ OnRenderEvent 1 demo_taken_sender p1 = Some (None, p1).
Proof.
  apply (@taken_name_never_activates demo_sdk demo_taken_sender 640 480
           (demo_plugin_d3d11 [])).
  - reflexivity.
  - discriminate.
  - reflexivity.
  - reflexivity.
  - reflexivity.
  - reflexivity.
Defined.

(** The sender "out". *)
Lemma sender_lifecycle_witness :
  OnRenderEvent 0 demo_sender (demo_plugin_d3d11 [])
  = Some (Some (set_active true demo_sender),
          set_g (@set_spoutDX_ demo_sdk
                   (Some [CallOpenDirectX11 4096; CallCheckSender "out";
                          CallSetSenderName "out"])
                   (g (demo_plugin_d3d11 [])))
            (demo_plugin_d3d11 []))
  /\ OnRenderEvent 0 (set_active true demo_sender)
       (set_g (@set_spoutDX_ demo_sdk
                 (Some [CallOpenDirectX11 4096; CallCheckSender "out";
                        CallSetSenderName "out"])
                 (g (demo_plugin_d3d11 [])))
          (demo_plugin_d3d11 []))
     = Some (Some (set_active true demo_sender),
             set_g (@set_spoutDX_ demo_sdk
                      (Some [CallOpenDirectX11 4096; CallCheckSender "out";
                             CallSetSenderName "out"])
                      (g (demo_plugin_d3d11 [])))
               (demo_plugin_d3d11 []))
  /\ OnRenderEvent 1 (set_active true demo_sender)
       (set_g (@set_spoutDX_ demo_sdk
                 (Some [CallOpenDirectX11 4096; CallCheckSender "out";
                        CallSetSenderName "out"])
                 (g (demo_plugin_d3d11 [])))
          (demo_plugin_d3d11 []))
     = Some (None,
             set_g (@set_spoutDX_ demo_sdk
                      (Some [CallOpenDirectX11 4096; CallCheckSender "out";
                             CallSetSenderName "out"; CallReleaseSender])
                      (g (demo_plugin_d3d11 [])))
               (demo_plugin_d3d11 [])).
Proof.
  apply (@sender_lifecycle demo_sdk demo_sender [CallOpenDirectX11 4096]
           (demo_plugin_d3d11 [])).
  - reflexivity.
  - reflexivity.
  - reflexivity.
  - reflexivity.
  - reflexivity.
  - reflexivity.
  - reflexivity.
Defined.

(** A receiver of the registered sender "cam", 640 by 480. *)
Lemma receiver_valid_only_at_UINT_MAX_witness :
  exists o o' p',
    CreateReceiver (Some "cam") (demo_plugin_d3d11 [])
    = Some (Some o, demo_plugin_d3d11 [])
    /\ OnRenderEvent 0 o (demo_plugin_d3d11 [])
       = Some (Some o', demo_plugin_d3d11 [])
    /\ isActive o' = true
    /\ (GetTextureWidth o', GetTextureHeight o') = (-1, -1)
    /\ CheckValid o' (demo_plugin_d3d11 [])
       = Some (Z.b2z (true && (640 =? 4294967295) && (480 =? 4294967295)), p').
Proof.
  apply (@receiver_valid_only_at_UINT_MAX demo_sdk (Some "cam") true 640 480
           (demo_plugin_d3d11 [])).
  - reflexivity.
  - discriminate.
  - reflexivity.
Defined.

(** Shutdown of the ready D3D11 plugin. *)
Lemma shutdown_leaves_ready_witness :
  exists p',
    OnGraphicsDeviceEvent kUnityGfxDeviceEventShutdown (demo_plugin_d3d11 [])
    = Some (tt, p')
    /\ isReady (g p') = true
    /\ spoutDX_ (g p') = None
    /\ ScanSharedObjects p' = None
    /\ SendTexture demo_active_sender 100 p' = None
    /\ OnRenderEvent 0 demo_sender p' = None.
Proof.
  apply (@shutdown_leaves_ready demo_sdk demo_unity_d3d11 demo_active_sender
           demo_sender 100 (demo_plugin_d3d11 [])).
  - reflexivity.
  - reflexivity.
  - reflexivity.
  - reflexivity.
  - reflexivity.
  - reflexivity.
  - reflexivity.
Defined.

(** Loading under D3D11. *)
Lemma UnityPluginLoad_ready_witness :
  exists p',
    UnityPluginLoad demo_unity_d3d11 demo_unloaded = Some (tt, p')
    /\ unity_ p' = Some demo_unity_d3d11
    /\ isReady (g p')
       = match GetRenderer demo_unity_d3d11 with
         | kUnityGfxRendererD3D11 =>
             negb (D3D11_GetDevice demo_unity_d3d11 =? nullptr)
             && (@OpenDirectX11 demo_sdk (D3D11_GetDevice demo_unity_d3d11)
                   make_spoutDX).1
         | kUnityGfxRendererD3D12 => true
         | kUnityGfxRendererOther => false
         end
    /\ (isReady (g p') = true ->
        match renderer_ (g p') with
        | DX11 => is_Some (spoutDX_ (g p'))
                  /\ GetRenderer demo_unity_d3d11 = kUnityGfxRendererD3D11
        | DX12 => is_Some (spoutDX12_ (g p'))
                  /\ GetRenderer demo_unity_d3d11 = kUnityGfxRendererD3D12
        end).
Proof.
  apply (@UnityPluginLoad_ready demo_sdk demo_unity_d3d11 demo_unloaded).
  reflexivity.
Defined.
